(** * DDL segmentation and change detection of [app/bin/app.py]

    A shallow embedding of the table change-detection engine of
    [src/app/bin/app.py]: text normalisation, the balanced-parenthesis column
    extractor, the clause indexer and segmenter, the row-format classifier and
    the eight clause comparators orchestrated by
    [has_table_structure_changed].

    Python values are modelled as follows.
    - [str] is a list of characters ([pystr]); the module docstring and
      [strip_comments] speak of ASCII text, and a character is an 8-bit code
      point here.
    - [int] is [Z]; string offsets are [Z] as well, because [str.find] answers
      [-1] and slices accept negative bounds.
    - a [dict] is an insertion-ordered association list ([pydict]).
    - a raised exception is the [Raise] alternative of [result]. *)

From Stdlib Require Import List Ascii String ZArith Lia Bool Arith.
From Stdlib Require Import Sorting.Sorted Sorting.Permutation.
From Stdlib Require Import Numbers.DecimalString.
Import ListNotations.

Local Open Scope Z_scope.
Local Open Scope list_scope.

(* [String] also defines a [length]; lists are meant throughout. *)
Local Abbreviation length := Datatypes.length.

(** ** Python strings *)

Definition pystr : Type := list ascii.

(** The literal ['...'] of the source as a [pystr]. *)
Definition py (s : string) : pystr := list_ascii_of_string s.

(** Characters the source writes with an escape. *)
Definition LF : ascii := "010"%char.
Definition CR : ascii := "013"%char.
Definition TAB : ascii := "009"%char.
Definition BS : ascii := "008"%char.
Definition FF : ascii := "012"%char.
Definition dquote : ascii := "034"%char.
Definition backslash : ascii := "092"%char.

Definition len {A : Type} (l : list A) : Z := Z.of_nat (length l).

Fixpoint str_eqb (a b : pystr) : bool :=
  match a, b with
  | [], [] => true
  | x :: a', y :: b' => Ascii.eqb x y && str_eqb a' b'
  | _, _ => false
  end.

(** [s.startswith(p)] *)
Fixpoint startswith (s p : pystr) {struct p} : bool :=
  match p, s with
  | [], _ => true
  | _ :: _, [] => false
  | a :: p', b :: s' => Ascii.eqb a b && startswith s' p'
  end.

(** [s.find(sub)]: the lowest offset at which [sub] occurs, or [-1]. *)
Fixpoint find_from (i : Z) (s sub : pystr) : Z :=
  if startswith s sub then i
  else match s with
       | [] => -1
       | _ :: s' => find_from (i + 1) s' sub
       end.

Definition find (s sub : pystr) : Z := find_from 0 s sub.

(** [sub in s] *)
Definition contains (s sub : pystr) : bool := 0 <=? find s sub.

(** [s.replace(old, new)]: every non-overlapping occurrence of [old], from the
    left.  [skip] counts the characters of a matched occurrence that remain to
    be passed over. *)
Fixpoint replace_go (old new : pystr) (skip : nat) (s : pystr) : pystr :=
  match s with
  | [] => []
  | c :: s' =>
      match skip with
      | S k => replace_go old new k s'
      | O =>
          if startswith s old
          then new ++ replace_go old new (length old - 1) s'
          else c :: replace_go old new 0 s'
      end
  end.

Definition replace (s old new : pystr) : pystr :=
  match old with
  | [] => new ++ flat_map (fun c => c :: new) s
  | _ :: _ => replace_go old new 0 s
  end.

(** Characters for which [str.isspace] holds, among the 8-bit code points. *)
Definition is_space (c : ascii) : bool :=
  let n := nat_of_ascii c in
  (((9 <=? n) && (n <=? 13)) || ((28 <=? n) && (n <=? 32))
   || (n =? 133) || (n =? 160))%nat.

Fixpoint lstrip_by (p : ascii -> bool) (s : pystr) : pystr :=
  match s with
  | [] => []
  | c :: s' => if p c then lstrip_by p s' else s
  end.

Definition rstrip_by (p : ascii -> bool) (s : pystr) : pystr :=
  rev (lstrip_by p (rev s)).

Definition strip_by (p : ascii -> bool) (s : pystr) : pystr :=
  rstrip_by p (lstrip_by p s).

Definition in_chars (chars : pystr) (c : ascii) : bool :=
  existsb (Ascii.eqb c) chars.

(** [s.strip()] *)
Definition strip (s : pystr) : pystr := strip_by is_space s.
(** [s.strip(chars)] *)
Definition strip_chars (s chars : pystr) : pystr := strip_by (in_chars chars) s.
(** [s.rstrip(chars)] *)
Definition rstrip_chars (s chars : pystr) : pystr := rstrip_by (in_chars chars) s.

(** [c.lower()] on one 8-bit code point: [A-Z], and the Latin-1 capitals
    [U+00C0 .. U+00DE] without the multiplication sign [U+00D7]. *)
Definition lower_char (c : ascii) : ascii :=
  let n := nat_of_ascii c in
  if (((65 <=? n) && (n <=? 90))
      || ((192 <=? n) && (n <=? 222) && negb (n =? 215)))%nat
  then ascii_of_nat (n + 32)
  else c.

(** [s.lower()] *)
Definition lower (s : pystr) : pystr := map lower_char s.

(** The bound of a slice, as Python clamps it: a negative bound counts from
    the end. *)
Definition slice_bound (n i : Z) : Z :=
  if i <? 0 then Z.max 0 (i + n) else Z.min i n.

(** [s[lo:hi]]; an omitted bound is [None]. *)
Definition slice {A : Type} (s : list A) (lo hi : option Z) : list A :=
  let n := len s in
  let a := match lo with None => 0 | Some i => slice_bound n i end in
  let b := match hi with None => n | Some i => slice_bound n i end in
  firstn (Z.to_nat (b - a)) (skipn (Z.to_nat a) s).

(** [s.split(sep)] and [s.split(sep, maxsplit)] for a non-empty [sep];
    [acc] holds the current piece, reversed, and [skip] the characters of a
    matched separator still to pass over. *)
Fixpoint split_go (sep : pystr) (maxsplit : option nat) (skip : nat)
    (acc : pystr) (s : pystr) : list pystr :=
  match s with
  | [] => [rev acc]
  | c :: s' =>
      match skip with
      | S k => split_go sep maxsplit k acc s'
      | O =>
          let may_split :=
            match maxsplit with Some O => false | _ => true end in
          if may_split && startswith s sep
          then rev acc
               :: split_go sep (option_map Nat.pred maxsplit)
                    (length sep - 1) [] s'
          else split_go sep maxsplit 0 (c :: acc) s'
      end
  end.

Definition split (s sep : pystr) : list pystr := split_go sep None 0 [] s.
Definition split1 (s sep : pystr) : list pystr := split_go sep (Some 1%nat) 0 [] s.

(** [str(n)] for an [int]. *)
Definition str_of_int (n : Z) : pystr := py (NilZero.string_of_int (Z.to_int n)).

(** ** Exceptions *)

Inductive exn : Type :=
| IndexError
| KeyError
| ValueError
| UnboundLocalError
| AttributeError
| JSONDecodeError
| Exception (msg : pystr).

Inductive result (A : Type) : Type :=
| Ok (a : A)
| Raise (e : exn).
Arguments Ok {A} a.
Arguments Raise {A} e.

Definition bind {A B : Type} (r : result A) (f : A -> result B) : result B :=
  match r with
  | Ok a => f a
  | Raise e => Raise e
  end.

Notation "x <- r ;; k" := (bind r (fun x => k))
  (at level 61, r at next level, right associativity).

(** ** Python dictionaries *)

Definition pydict (V : Type) : Type := list (pystr * V).

(** [d[k]], with [None] standing for the [KeyError]. *)
Fixpoint dict_get {V : Type} (d : pydict V) (k : pystr) : option V :=
  match d with
  | [] => None
  | (k', v) :: d' => if str_eqb k' k then Some v else dict_get d' k
  end.

(** [d[k] = v]: an existing key keeps its place in the order. *)
Fixpoint dict_set {V : Type} (d : pydict V) (k : pystr) (v : V) : pydict V :=
  match d with
  | [] => [(k, v)]
  | (k', v') :: d' =>
      if str_eqb k' k then (k', v) :: d' else (k', v') :: dict_set d' k v
  end.

(** [dict(pairs)] *)
Definition dict_of {V : Type} (pairs : list (pystr * V)) : pydict V :=
  fold_left (fun d kv => dict_set d (fst kv) (snd kv)) pairs [].

(** [next((x for x in l if p(x)), None)] *)
Definition next_where {A : Type} (p : A -> bool) (l : list A) : option A :=
  List.find p l.

(** ** Module constants *)

Definition ddl_clauses_list : list pystr :=
  [ py " comment '"; py " partitioned by "; py " clustered by ";
    py " row format "; py " stored as "; py " location 's3:";
    py " tblproperties " ].

Definition ddl_row_format_subclauses_list : list pystr :=
  [ py " fields terminated by '"; py " escaped by '";
    py " collection items terminated by '";
    py " map keys terminated by '";
    py " lines terminated by '";
    py " null defined as '";
    py " serde '"; py " with serdeproperties (";
    py " delimited " ].

Definition NOT_FOUND : Z := -1.
Definition AVRO_STORAGE_FORMAT : pystr :=
  py "org.apache.hadoop.hive.ql.io.avro.AvroContainerInputFormat".
Definition ORC_STORAGE_FORMAT : pystr :=
  py "org.apache.hadoop.hive.ql.io.orc.OrcInputFormat".
Definition PARQUET_STORAGE_FORMAT : pystr :=
  py "org.apache.hadoop.hive.ql.io.parquet.MapredParquetInputFormat".
Definition RCFILE_STORAGE_FORMAT : pystr :=
  py "org.apache.hadoop.hive.ql.io.RCFileInputFormat".
Definition SEQUENCEFILE_STORAGE_FORMAT : pystr :=
  py "org.apache.hadoop.mapred.SequenceFileInputFormat".
Definition TEXTFILE_STORAGE_FORMAT : pystr :=
  py "org.apache.hadoop.mapred.TextInputFormat".
Definition ROW_FORMAT_WITH_SERDEPROPERTIES : pystr := py "with serdeproperties".
Definition ROW_FORMAT_SERDE : pystr := py "serde".
Definition ROW_FORMAT_DELIMITED : pystr := py "delimited".

(** ** Comment stripper ([strip_comments])

    [re.sub('\s*--.*\n?', '', adhoc_text, flags=re.MULTILINE)]: a match
    starts at a run of white space that is followed by [--] (the run may be
    empty), goes on to the end of the line and takes the line feed when there
    is one.  The leftmost matches are removed. *)

(** What [.*\n?] matches at the head of [s]: the rest of the line and its
    line feed. *)
Fixpoint line_rest_length (s : pystr) : nat :=
  match s with
  | [] => O
  | c :: s' => if Ascii.eqb c LF then 1%nat else S (line_rest_length s')
  end.

(** The length of the match of the pattern at the head of [s], if there is
    one. *)
Definition comment_match_length (s : pystr) : option nat :=
  let after_space := lstrip_by is_space s in
  if startswith after_space (py "--")
  then Some ((length s - length after_space) + 2
             + line_rest_length (skipn 2 after_space))%nat
  else None.

(** [skip] counts the characters of a match still to pass over. *)
Fixpoint strip_comments_go (skip : nat) (s : pystr) : pystr :=
  match s with
  | [] => []
  | c :: s' =>
      match skip with
      | S k => strip_comments_go k s'
      | O =>
          match comment_match_length s with
          | Some n => strip_comments_go (n - 1) s'
          | None => c :: strip_comments_go 0 s'
          end
      end
  end.

Definition strip_comments (adhoc_text : pystr) : pystr :=
  strip_comments_go 0 adhoc_text.

(** ** Text normaliser ([detect_table_changes], first statements) *)

(** The chain of [replace] calls and the [lower()] that open
    [detect_table_changes]. *)
Definition normalize_replacements (ddl_text : pystr) : pystr :=
  lower
    (replace
       (replace
          (replace
             (replace
                (replace (replace ddl_text [LF] (py " ")) [CR] [])
                (py "`") [])
             (py ";") [])
          [TAB] (py " "))
       (py " )") (py ")")).

(** One turn of the loop body
    [t = t.replace('  ', ' ').replace(' ,', ',')]. *)
Definition collapse_step (t : pystr) : pystr :=
  replace (replace t (py "  ") (py " ")) (py " ,") (py ",").

(** [while '  ' in t: t = ...]; every turn shortens [t], so [fuel] turns
    suffice when [fuel] is the length of the text (see
    [collapse_loop_exit]). *)
Fixpoint collapse_loop (fuel : nat) (t : pystr) : pystr :=
  match fuel with
  | O => t
  | S fuel' =>
      if contains t (py "  ") then collapse_loop fuel' (collapse_step t)
      else t
  end.

Definition collapse_spaces (t : pystr) : pystr := collapse_loop (length t) t.

(** [normalized_ddl_text] as [detect_table_changes] hands it to
    [has_table_structure_changed]. *)
Definition normalize_ddl_text (ddl_text : pystr) : pystr :=
  collapse_spaces (normalize_replacements ddl_text).

(** ** Column extractor ([split_ddl_columns_segment]) *)

(** The local variables of the scanning loop.  [stack] is the Python list
    used as a stack, its top (the last appended offset) first; [index_dict]
    is the dictionary of matched open/close offsets, in insertion order. *)
Record scan_state : Type := mk_scan_state {
  stack : list Z;
  index_dict : list (Z * Z);
  start_pos : Z;
  end_pos : Z;
  p_count : Z
}.

Definition scan_init : scan_state := mk_scan_state [] [] 0 0 0.

(** [index_dict[k] = v] on integer keys. *)
Fixpoint index_dict_set (d : list (Z * Z)) (k v : Z) : list (Z * Z) :=
  match d with
  | [] => [(k, v)]
  | (k', v') :: d' =>
      if k' =? k then (k', v) :: d' else (k', v') :: index_dict_set d' k v
  end.

(** [for i, c in enumerate(ddl_text): ...], from offset [i] on; the loop ends
    at the end of the text or at the [break]. *)
Fixpoint scan_parens (i : Z) (text : pystr) (st : scan_state)
    : result scan_state :=
  match text with
  | [] => Ok st
  | c :: text' =>
      if Ascii.eqb c "("%char then
        scan_parens (i + 1) text'
          (mk_scan_state (i :: stack st) (index_dict st)
             (if start_pos st =? 0 then i else start_pos st)
             (end_pos st) (p_count st + 1))
      else if Ascii.eqb c ")"%char then
        match stack st with
        | [] => Raise IndexError
        | opened :: stack' =>
            let st' :=
              mk_scan_state stack' (index_dict_set (index_dict st) opened i)
                (start_pos st) (end_pos st) (p_count st - 1) in
            if p_count st' =? 0
            then Ok (mk_scan_state (stack st') (index_dict st')
                       (start_pos st') i (p_count st'))
            else scan_parens (i + 1) text' st'
        end
      else scan_parens (i + 1) text' st
  end.

Definition unbalanced_msg : pystr :=
  py "Encountered unbalanced parentheses while parsing the columns list in DDL -- Check the DDL for syntax errors!".

Definition split_ddl_columns_segment (ddl_text : pystr)
    : result (pystr * pystr) :=
  st <- scan_parens 0 ddl_text scan_init ;;
  match stack st with
  | _ :: _ => Raise (Exception unbalanced_msg)
  | [] =>
      (* list(index_dict.items())[-1] *)
      match rev (index_dict st) with
      | [] => Raise IndexError
      | columns_list_start_end :: _ =>
          let ddl_columns_segment :=
            strip (slice ddl_text (Some (fst columns_list_start_end + 1))
                     (Some (snd columns_list_start_end))) in
          Ok (ddl_columns_segment,
              slice ddl_text (Some (snd columns_list_start_end + 1)) None)
      end
  end.

(** ** Clause indexer and segmenter *)

(** One entry of the clause index: the dictionary
    [{'Clause': ..., 'Index': ...}]. *)
Record clause_entry : Type := mk_clause {
  Clause : pystr;
  Index : Z
}.

(** The body of the [for clause in clauses_list] loop. *)
Definition index_clause (ddl_segment_text clause : pystr) : clause_entry :=
  let name := strip clause in
  let clause_index := find ddl_segment_text name in
  if str_eqb name (py "comment '") then
    if clause_index =? 0 then mk_clause name clause_index
    else mk_clause name NOT_FOUND
  else
    if 0 <=? clause_index then mk_clause name clause_index
    else mk_clause name NOT_FOUND.

(** [sorted(l, key=lambda x: x['Index'])]: Python's sort is stable, and a
    stable sort has one answer, the one insertion computes. *)
Fixpoint insert_by_index (x : clause_entry) (l : list clause_entry)
    : list clause_entry :=
  match l with
  | [] => [x]
  | y :: l' =>
      if Index x <=? Index y then x :: y :: l'
      else y :: insert_by_index x l'
  end.

Fixpoint sorted_by_index (l : list clause_entry) : list clause_entry :=
  match l with
  | [] => []
  | x :: l' => insert_by_index x (sorted_by_index l')
  end.

Definition index_ddl_clauses (ddl_segment_text : pystr)
    (clauses_list : list pystr) : list clause_entry :=
  let ddl_clause_list := map (index_clause ddl_segment_text) clauses_list in
  sorted_by_index ddl_clause_list.

(** The [for i in range(0, len(clauses_list_sorted) - 1)] loop: entry [i] is
    the head of the list and entry [i + 1] the one behind it. *)
Fixpoint segment_pairs (ddl_text : pystr) (l : list clause_entry)
    : list pystr :=
  match l with
  | a :: ((b :: _) as l') =>
      (if negb (Index a =? NOT_FOUND)
       then [strip (slice ddl_text (Some (Index a)) (Some (Index b)))]
       else [])
      ++ segment_pairs ddl_text l'
  | _ => []
  end.

(** With fewer than two entries the loop never binds [i], and the statement
    after it reads an unbound local. *)
Definition segmentize_ddl_by_clause (ddl_text : pystr)
    (clauses_list_sorted : list clause_entry) : result (list pystr) :=
  match clauses_list_sorted with
  | [] | [_] => Raise UnboundLocalError
  | first :: _ =>
      let ddl_segments := segment_pairs ddl_text clauses_list_sorted in
      let final := last clauses_list_sorted first in
      if negb (Index final =? NOT_FOUND)
      then Ok (ddl_segments
               ++ [strip (slice ddl_text (Some (Index final))
                            (Some (len ddl_text)))])
      else Ok ddl_segments
  end.

(** ** Row-format classifier ([determine_row_format_type]) *)

(** The [for] loop with its two [break]s; [ddl_row_format_type] is the value
    the local variable holds so far ([None] at the start). *)
Fixpoint row_format_scan (l : list clause_entry)
    (ddl_row_format_type : option pystr) : option pystr :=
  match l with
  | [] => ddl_row_format_type
  | e :: l' =>
      if str_eqb (Clause e) (py "with serdeproperties (")
         && negb (Index e =? NOT_FOUND)
      then Some ROW_FORMAT_WITH_SERDEPROPERTIES
      else if str_eqb (Clause e) (py "serde '")
              && negb (Index e =? NOT_FOUND)
      then row_format_scan l' (Some ROW_FORMAT_SERDE)
      else if str_eqb (Clause e) (py "delimited")
              && negb (Index e =? NOT_FOUND)
      then Some ROW_FORMAT_DELIMITED
      else row_format_scan l' ddl_row_format_type
  end.

Definition no_row_format_msg : pystr :=
  py "Unable to find any of the expected ROW FORMATS=serde, with serdeproperties, or delimited in the DDL.".

Definition determine_row_format_type
    (ddl_row_format_subclauses_list_sorted : list clause_entry)
    : result pystr :=
  match row_format_scan ddl_row_format_subclauses_list_sorted None with
  | None => Raise (Exception no_row_format_msg)
  | Some ddl_row_format_type => Ok ddl_row_format_type
  end.

(** ** Catalog metadata

    The part of a Glue [get_tables] entry the comparators read.  A column's
    ['Comment'] is optional (the comparators catch its [KeyError]).  The
    other keys are taken as present: an entry that lacks one of them, where
    the subscript of the code raises [KeyError], has no counterpart here,
    and a statement about every metadata is one about the entries that
    carry them. *)

Record column : Type := mk_column {
  Name : pystr;
  Type_ : pystr;
  Comment : option pystr
}.

Record serde_info : Type := mk_serde_info {
  SerializationLibrary : pystr;
  SerdeParameters : pydict pystr      (* ['SerdeInfo']['Parameters'] *)
}.

Record storage_descriptor : Type := mk_storage_descriptor {
  Columns : list column;
  BucketColumns : list pystr;
  NumberOfBuckets : Z;
  SerdeInfo : serde_info;
  InputFormat : pystr;
  OutputFormat : pystr;
  Location : pystr
}.

Record table_metadata : Type := mk_table_metadata {
  StorageDescriptor : storage_descriptor;
  PartitionKeys : list column;
  Parameters : pydict pystr
}.

(** ** Small Python idioms *)

(** [a, b = l] *)
Definition unpack2 {A : Type} (l : list A) : result (A * A) :=
  match l with
  | [a; b] => Ok (a, b)
  | _ => Raise ValueError
  end.

(** [a, b, c, d = l] *)
Definition unpack4 {A : Type} (l : list A) : result (A * A * A * A) :=
  match l with
  | [a; b; c; d] => Ok (a, b, c, d)
  | _ => Raise ValueError
  end.

(** [l[n]] for a non-negative [n] *)
Definition item {A : Type} (l : list A) (n : nat) : result A :=
  match nth_error l n with
  | Some a => Ok a
  | None => Raise IndexError
  end.

(** [x == s] where [x] may be [None] *)
Definition opt_eqb (x : option pystr) (s : pystr) : bool :=
  match x with
  | Some v => str_eqb v s
  | None => false
  end.

Definition is_some {A : Type} (x : option A) : bool :=
  match x with Some _ => true | None => false end.

(** ** Comparators *)

(** *** Columns *)

(** What one turn of the loop over [Columns] appends to [meta_columns]. *)
Definition column_text (c : column) : pystr :=
  match Comment c with
  | Some comment =>
      py " " ++ Name c ++ py " " ++ Type_ c ++ py " comment '"
      ++ replace comment (py "'") (py "\'") ++ py "'" ++ py ","
  | None => py " " ++ Name c ++ py " " ++ Type_ c ++ py ","
  end.

Definition have_columns_changed (md : table_metadata) (ddl_columns : pystr)
    : result bool :=
  let meta_columns :=
    fold_left (fun acc c => acc ++ column_text c)
      (Columns (StorageDescriptor md)) [] in
  let meta_columns := strip (slice meta_columns None (Some (-1))) ++ [] in
  let meta_columns := collapse_spaces meta_columns in
  if str_eqb ddl_columns (lower meta_columns) then Ok false else Ok true.

(** *** Table comment *)

Definition has_table_comment_changed (md : table_metadata)
    (ddl_segments : list pystr) : result bool :=
  let ddl_comment_segment :=
    next_where (fun segment => startswith segment (py "comment"))
      ddl_segments in
  let metadata_comment :=
    match dict_get (Parameters md) (py "comment") with
    | Some c => Some (lower (replace c (py "'") (py "\'")))
    | None => None
    end in
  match metadata_comment, ddl_comment_segment with
  | None, None => Ok false
  | None, Some seg =>
      (* the log message is built from seg.split(' ', 1)[1] *)
      _ <- item (split1 seg (py " ")) 1 ;;
      Ok true
  | Some _, None => Ok true
  | Some metadata_comment, Some seg =>
      kv <- unpack2 (split1 seg (py " ")) ;;
      let ddl_segment_value := strip_chars (snd kv) (py "'") in
      if str_eqb metadata_comment ddl_segment_value then Ok false
      else Ok true
  end.

(** *** Partitioning *)

(** The text one partition key contributes. *)
Definition partition_text (e : column) : pystr :=
  match Comment e with
  | Some comment =>
      lower (Name e) ++ py " " ++ lower (Type_ e) ++ py " comment '"
      ++ lower (replace comment (py "'") (py "\'")) ++ py "'"
  | None => lower (Name e) ++ py " " ++ lower (Type_ e)
  end.

(** [for i, element in enumerate(...)]: the first turn assigns, the later
    ones append after [', ']. *)
Fixpoint join_enumerated {A : Type} (text : A -> pystr) (i : nat)
    (l : list A) (acc : pystr) : pystr :=
  match l with
  | [] => acc
  | e :: l' =>
      join_enumerated text (S i) l'
        (if (i =? 0)%nat then text e else acc ++ py ", " ++ text e)
  end.

Definition has_partitioning_changed (md : table_metadata)
    (ddl_segments : list pystr) : result bool :=
  let ddl_partitioning_segment :=
    next_where (fun segment => startswith segment (py "partitioned by"))
      ddl_segments in
  if (length (PartitionKeys md) =? 0)%nat then
    match ddl_partitioning_segment with
    | None => Ok false
    | Some _ => Ok true
    end
  else
    match ddl_partitioning_segment with
    | None => Ok true
    | Some seg =>
        kv <- unpack2 (split1 seg (py "(")) ;;
        let ddl_segment_value := slice (snd kv) None (Some (-1)) in
        let ddl_segment_value := strip ddl_segment_value in
        let metadata_partition :=
          join_enumerated partition_text 0 (PartitionKeys md) [] in
        if str_eqb metadata_partition ddl_segment_value then Ok false
        else Ok true
    end.

(** *** Clustering *)

Definition has_clustering_changed (md : table_metadata)
    (ddl_segments : list pystr) : result bool :=
  let ddl_clustering_segment :=
    next_where (fun segment => startswith segment (py "clustered by"))
      ddl_segments in
  let sd := StorageDescriptor md in
  if (length (BucketColumns sd) =? 0)%nat then
    match ddl_clustering_segment with
    | None => Ok false
    | Some _ => Ok true
    end
  else
    match ddl_clustering_segment with
    | None => Ok true
    | Some seg =>
        kv <- unpack2 (split1 seg (py "(")) ;;
        let ddl_segment_value := strip (replace (snd kv) (py ")") []) in
        let metadata_cluster :=
          join_enumerated lower 0 (BucketColumns sd) [] in
        let metadata_cluster :=
          metadata_cluster ++ py " into " ++ str_of_int (NumberOfBuckets sd)
          ++ py " buckets" in
        if str_eqb metadata_cluster ddl_segment_value then Ok false
        else Ok true
    end.

(** *** File format *)

Definition stored_as_msg : pystr :=
  py "DDL's STORED AS sub-clause does not match any of the expected values (e.g., parquet, textfile, etc.".

Definition has_file_format_changed (md : table_metadata)
    (ddl_segments : list pystr) : result bool :=
  let ddl_stored_as_segment :=
    next_where (fun segment => startswith segment (py "stored as"))
      ddl_segments in
  let table_metadata_inputformat :=
    lower (InputFormat (StorageDescriptor md)) in
  let table_metadata_outputformat :=
    lower (OutputFormat (StorageDescriptor md)) in
  let same_input (fmt : pystr) : result bool :=
    if str_eqb table_metadata_inputformat (lower fmt) then Ok false
    else Ok true in
  match ddl_stored_as_segment with
  | Some seg =>
      let ddl_file_format := replace seg (py "stored as ") [] in
      if str_eqb ddl_file_format (py "textfile") then
        same_input TEXTFILE_STORAGE_FORMAT
      else if str_eqb ddl_file_format (py "parquet") then
        same_input PARQUET_STORAGE_FORMAT
      else if str_eqb ddl_file_format (py "sequencefile") then
        same_input SEQUENCEFILE_STORAGE_FORMAT
      else if str_eqb ddl_file_format (py "rcfile") then
        same_input RCFILE_STORAGE_FORMAT
      else if str_eqb ddl_file_format (py "orc") then
        same_input ORC_STORAGE_FORMAT
      else if str_eqb ddl_file_format (py "avro") then
        same_input AVRO_STORAGE_FORMAT
      else if startswith ddl_file_format (py "inputformat") then
        (* [ddl_outputformat_value] is assigned in the first branch only:
           [None] is the unbound local. *)
        values <-
          (if 0 <=? find ddl_file_format (py "outputformat") then
             parts <- unpack4 (split ddl_file_format (py " ")) ;;
             let '(_, ddl_inputformat_value, _, ddl_outputformat_value) :=
               parts in
             Ok (strip_chars ddl_inputformat_value (py "'"),
                 Some (strip_chars ddl_outputformat_value (py "'")))
           else
             parts <- unpack2 (split ddl_file_format (py " ")) ;;
             Ok (strip_chars (snd parts) (py "'"), None)) ;;
        let ddl_inputformat_value := fst values in
        if str_eqb ddl_inputformat_value table_metadata_inputformat then
          match snd values with
          | None => Raise UnboundLocalError
          | Some ddl_outputformat_value =>
              if str_eqb ddl_outputformat_value table_metadata_outputformat
              then Ok false
              else Ok true
          end
        else Ok true
      else Raise (Exception stored_as_msg)
  | None => same_input TEXTFILE_STORAGE_FORMAT
  end.

(** *** Location *)

Definition location_msg : pystr :=
  py "The mandatory LOCATION clause is missing in the DDL - please correct the DDL first!".

Definition has_table_location_changed (md : table_metadata)
    (ddl_segments : list pystr) : result bool :=
  let ddl_location_segment :=
    next_where (fun segment => startswith segment (py "location"))
      ddl_segments in
  let metadata_location := lower (Location (StorageDescriptor md)) in
  match ddl_location_segment with
  | Some seg =>
      kv <- unpack2 (split1 seg (py " ")) ;;
      let ddl_segment_value := strip_chars (snd kv) (py "'") in
      if str_eqb metadata_location ddl_segment_value then Ok false
      else Ok true
  | None => Raise (Exception location_msg)
  end.

(** *** Row format *)

(** [json.dumps(s)] for a string [s] (with the default [ensure_ascii]): the
    text between double quotes, [\ ] and the double quote escaped, control
    characters and everything outside [' ' .. '~'] written as an escape. *)
Definition hex_digit (n : nat) : ascii :=
  nth n (py "0123456789abcdef") "0"%char.

Definition json_escape_char (c : ascii) : pystr :=
  let n := nat_of_ascii c in
  if Ascii.eqb c dquote then [backslash; dquote]
  else if Ascii.eqb c backslash then [backslash; backslash]
  else if Ascii.eqb c LF then [backslash; "n"%char]
  else if Ascii.eqb c CR then [backslash; "r"%char]
  else if Ascii.eqb c TAB then [backslash; "t"%char]
  else if Ascii.eqb c BS then [backslash; "b"%char]
  else if Ascii.eqb c FF then [backslash; "f"%char]
  else if ((32 <=? n) && (n <=? 126))%nat then [c]
  else [backslash; "u"%char; "0"%char; "0"%char;
        hex_digit (n / 16); hex_digit (n mod 16)].

Definition json_dumps (s : pystr) : pystr :=
  [dquote] ++ flat_map json_escape_char s ++ [dquote].

(** The tuple [get_meta_row_format_delimiters] returns, by the names of its
    local variables. *)
Record meta_delimiters : Type := mk_meta_delimiters {
  meta_json_escape_delim_char : option pystr;
  meta_json_field_delim_char : option pystr;
  meta_json_collection_delim_char : option pystr;
  meta_serialization_format : option pystr;
  meta_json_map_keys_delim_char : option pystr;
  meta_json_line_delim_char : option pystr;
  meta_json_ser_null_format_char : option pystr
}.

Definition get_meta_row_format_delimiters (md : table_metadata)
    : meta_delimiters :=
  let metadata_serdeinfo_parms :=
    SerdeParameters (SerdeInfo (StorageDescriptor md)) in
  let dumped (key : pystr) : option pystr :=
    option_map json_dumps (dict_get metadata_serdeinfo_parms key) in
  mk_meta_delimiters
    (dumped (py "escape.delim"))
    (dumped (py "field.delim"))
    (dumped (py "colelction.delim"))
    (dumped (py "serialization.format"))
    (dumped (py "mapkey.delim"))
    (dumped (py "line.delim"))
    (dumped (py "serialization.null.format")).

Definition delimiter_type_msg : pystr :=
  py "Function received an invalid ddl_row_format_delimiter_type parameter!".

(** ['"' + s + '"'] *)
Definition quoted (s : pystr) : pystr := [dquote] ++ s ++ [dquote].

(** A method call on the argument [ddl_row_format_delimiter]; on [None] it is
    an [AttributeError]. *)
Definition the_str (x : option pystr) : result pystr :=
  match x with
  | Some s => Ok s
  | None => Raise AttributeError
  end.

Definition have_row_format_delimiters_changed (md : table_metadata)
    (ddl_row_format_delimiter : option pystr)
    (ddl_row_format_delimiter_type : option pystr) : result bool :=
  let table_metadata_serialization_lib :=
    SerializationLibrary (SerdeInfo (StorageDescriptor md)) in
  let m := get_meta_row_format_delimiters md in
  (* one sub-clause compared with the metadata value [meta] *)
  let compare_with (meta : option pystr) (prefix : pystr) : result bool :=
    d <- the_str ddl_row_format_delimiter ;;
    let ddl_char := rstrip_chars (replace d prefix []) (py "'") in
    if opt_eqb meta (quoted ddl_char) then Ok false else Ok true in
  match ddl_row_format_delimiter_type with
  | None =>
      if is_some (meta_json_escape_delim_char m)
         || is_some (meta_json_field_delim_char m)
         || is_some (meta_json_collection_delim_char m)
         || is_some (meta_json_map_keys_delim_char m)
         || is_some (meta_json_line_delim_char m)
         || is_some (meta_json_ser_null_format_char m)
      then Ok true
      else if startswith table_metadata_serialization_lib (py "org.apache.")
      then Ok false
      else Ok true
  | Some ty =>
      if str_eqb ty (py "no properties") then
        if opt_eqb (meta_serialization_format m) (quoted (py "1"))
        then Ok false
        else Ok true
      else if str_eqb ty (py "fields escaped") then
        d <- the_str ddl_row_format_delimiter ;;
        parts <- unpack2 (split d (py " escaped by '")) ;;
        let ddl_fields_terminated_by_char :=
          rstrip_chars (replace (fst parts) (py "fields terminated by '") [])
            (py "'") in
        let ddl_escaped_by_char := rstrip_chars (snd parts) (py "'") in
        let ddl_json_escaped_by_char := quoted ddl_escaped_by_char in
        let ddl_json_fields_terminated_by_char :=
          quoted ddl_fields_terminated_by_char in
        if opt_eqb (meta_json_field_delim_char m)
             ddl_json_fields_terminated_by_char
        then
          if opt_eqb (meta_json_escape_delim_char m) ddl_json_escaped_by_char
          then Ok false
          else Ok true
        else Ok true
      else if str_eqb ty (py "fields") then
        d <- the_str ddl_row_format_delimiter ;;
        let ddl_fields_terminated_by_char :=
          rstrip_chars (replace d (py "fields terminated by '") [])
            (py "'") in
        let ddl_json_fields_terminated_by_char :=
          quoted ddl_fields_terminated_by_char in
        if opt_eqb (meta_serialization_format m) (quoted (py "1"))
           && str_eqb ddl_json_fields_terminated_by_char (quoted (py "|"))
        then Ok false
        else if opt_eqb (meta_json_field_delim_char m)
                  ddl_json_fields_terminated_by_char
        then Ok false
        else Ok true
      else if str_eqb ty (py "collection") then
        compare_with (meta_json_collection_delim_char m)
          (py "collection items terminated by '")
      else if str_eqb ty (py "map keys") then
        compare_with (meta_json_map_keys_delim_char m)
          (py "map keys terminated by '")
      else if str_eqb ty (py "lines") then
        compare_with (meta_json_line_delim_char m)
          (py "lines terminated by '")
      else if str_eqb ty (py "null defined") then
        compare_with (meta_json_ser_null_format_char m)
          (py "null defined as '")
      else Raise (Exception delimiter_type_msg)
  end.

(** [next((segment for segment in segments if clause in segment), None)]
    with [clause = ddl_row_format_subclauses_list[n].replace('\'', '').strip()]. *)
Definition sub_clause_segment (n : nat) (segments : list pystr)
    : option pystr :=
  let clause :=
    strip (replace (nth n ddl_row_format_subclauses_list []) (py "'") []) in
  next_where (fun segment => contains segment clause) segments.

Definition check_row_format_delimited_properties
    (ddl_row_format_delimited : option (list pystr)) (md : table_metadata)
    : result bool :=
  match ddl_row_format_delimited with
  | None => have_row_format_delimiters_changed md None None
  | Some segments =>
      let ddl_fields_terminator := sub_clause_segment 0 segments in
      let ddl_escaped_by := sub_clause_segment 1 segments in
      let ddl_collection_terminator := sub_clause_segment 2 segments in
      let ddl_map_keys_terminator := sub_clause_segment 3 segments in
      let ddl_lines_terminator := sub_clause_segment 4 segments in
      let ddl_null_defined := sub_clause_segment 5 segments in
      (* each [if ... is True: row_format_has_changed = True] in turn *)
      let check (x : option pystr) (ty : pystr) : result bool :=
        match x with
        | Some _ => have_row_format_delimiters_changed md x (Some ty)
        | None => Ok false
        end in
      c0 <- (if negb (is_some ddl_fields_terminator)
                && negb (is_some ddl_escaped_by)
                && negb (is_some ddl_collection_terminator)
                && negb (is_some ddl_map_keys_terminator)
                && negb (is_some ddl_lines_terminator)
                && negb (is_some ddl_null_defined)
             then have_row_format_delimiters_changed md None
                    (Some (py "no properties"))
             else Ok false) ;;
      c1 <- match ddl_fields_terminator, ddl_escaped_by with
            | Some f, Some e =>
                have_row_format_delimiters_changed md
                  (Some (f ++ py " " ++ e)) (Some (py "fields escaped"))
            | Some f, None =>
                have_row_format_delimiters_changed md (Some f)
                  (Some (py "fields"))
            | None, _ => Ok false
            end ;;
      c2 <- check ddl_collection_terminator (py "collection") ;;
      c3 <- check ddl_map_keys_terminator (py "map keys") ;;
      c4 <- check ddl_lines_terminator (py "lines") ;;
      c5 <- check ddl_null_defined (py "null defined") ;;
      Ok (c0 || c1 || c2 || c3 || c4 || c5)
  end.

(** *** The two library calls

    [json.loads] and [DeepDiff] belong to libraries outside the repository:
    the comparators that call them take them as parameters.  [pyobj] is the
    Python value [json.loads] builds. *)

#[warning="-register-all"]
Inductive pyobj : Type :=
| PyNone
| PyBool (b : bool)
| PyInt (n : Z)
| PyFloat (repr : pystr)
| PyStr (s : pystr)
| PyList (l : list pyobj)
| PyDict (d : list (pystr * pyobj)).

(** A [dict] of strings as a Python value. *)
Definition obj_of_dict (d : pydict pystr) : pyobj :=
  PyDict (map (fun kv => (fst kv, PyStr (snd kv))) d).

(** [dict((k.lower(), v.lower()) for k, v in d.items())] *)
Definition lower_items (d : pydict pystr) : pydict pystr :=
  dict_of (map (fun kv => (lower (fst kv), lower (snd kv))) d).

Section Libraries.

(** [json.loads(text)] *)
Variable json_loads : pystr -> result pyobj.
(** [len(DeepDiff(a, b, ignore_order=True))] *)
Variable DeepDiff_len : pyobj -> pyobj -> Z.

Definition have_serdeproperties_changed (ddl_serde_properties : pystr)
    (md : table_metadata) : result bool :=
  let metadata_serde_properties :=
    SerdeParameters (SerdeInfo (StorageDescriptor md)) in
  if (length metadata_serde_properties =? 0)%nat then Ok true
  else
    let metadata_serde_properties := lower_items metadata_serde_properties in
    let body :=
      strip (replace (replace ddl_serde_properties (py "=") (py ": "))
               (py "'") [dquote]) in
    let ddl_serde_properties_text :=
      if is_some (dict_get metadata_serde_properties
                    (py "serialization.format"))
      then
        if contains ddl_serde_properties (py "serialization.format")
        then py "{" ++ body ++ py "}"
        else py "{" ++ body
             ++ (py ", " ++ quoted (py "serialization.format") ++ py ": "
                 ++ quoted (py "1"))
             ++ py "}"
      else py "{" ++ body ++ py "}" in
    ddl_serde_properties <- json_loads ddl_serde_properties_text ;;
    let ddiff :=
      DeepDiff_len ddl_serde_properties
        (obj_of_dict metadata_serde_properties) in
    if 0 <? ddiff then Ok true else Ok false.

Definition row_format_type_msg : pystr :=
  py "Encountered unexpected value for ddl_row_format_type function argument. Please investigate!".

Definition has_row_format_serde_changed (md : table_metadata)
    (ddl_serde_info : option (list pystr))
    (ddl_row_format_type : option pystr) : result bool :=
  let table_metadata_serialization_lib :=
    SerializationLibrary (SerdeInfo (StorageDescriptor md)) in
  match ddl_serde_info with
  | None =>
      if startswith table_metadata_serialization_lib (py "org.apache.")
      then Ok false
      else Ok true
  | Some info =>
      let serde_lib : result pystr :=
        s0 <- item info 0 ;;
        w <- item (split s0 (py " ")) 1 ;;
        Ok (strip_chars w (py "'")) in
      parsed <-
        (if opt_eqb ddl_row_format_type ROW_FORMAT_WITH_SERDEPROPERTIES then
           ddl_serde_lib <- serde_lib ;;
           s1 <- item info 1 ;;
           p <- item (split s1 (py " (")) 1 ;;
           Ok (ddl_serde_lib, Some (strip_chars p (py ")")))
         else if opt_eqb ddl_row_format_type ROW_FORMAT_SERDE then
           ddl_serde_lib <- serde_lib ;;
           Ok (ddl_serde_lib, None)
         else Raise (Exception row_format_type_msg)) ;;
      let ddl_serde_lib := fst parsed in
      changed <-
        match snd parsed with
        | Some ddl_serdeproperties =>
            have_serdeproperties_changed ddl_serdeproperties md
        | None => Ok false
        end ;;
      if changed then Ok true
      else if str_eqb ddl_serde_lib (lower table_metadata_serialization_lib)
      then Ok false
      else Ok true
  end.

Definition has_row_format_changed (md : table_metadata)
    (ddl_segments : list pystr) : result bool :=
  let ddl_row_format_segment :=
    next_where (fun segment => startswith segment (py "row format "))
      ddl_segments in
  match ddl_row_format_segment with
  | None =>
      changed <- has_row_format_serde_changed md None None ;;
      if changed then Ok true
      else have_row_format_delimiters_changed md None None
  | Some seg =>
      let ddl_row_format_subclauses_list_sorted :=
        index_ddl_clauses seg ddl_row_format_subclauses_list in
      ddl_row_format_sub_segments <-
        segmentize_ddl_by_clause seg ddl_row_format_subclauses_list_sorted ;;
      ddl_row_format_type <-
        determine_row_format_type ddl_row_format_subclauses_list_sorted ;;
      if str_eqb ddl_row_format_type ROW_FORMAT_SERDE
         || str_eqb ddl_row_format_type ROW_FORMAT_WITH_SERDEPROPERTIES
      then has_row_format_serde_changed md
             (Some ddl_row_format_sub_segments) (Some ddl_row_format_type)
      else check_row_format_delimited_properties
             (Some ddl_row_format_sub_segments) md
  end.

(** *** Table properties *)

(** The allow-list as the metadata side tests it, on the lower-cased key. *)
Definition metadata_property_kept (key : pystr) : bool :=
  let k := lower key in
  str_eqb k (py "classification") || str_eqb k (py "has_encrypted_data")
  || str_eqb k (py "orc.compress") || str_eqb k (py "parquet.compress")
  || str_eqb k (py "write.compression") || startswith k (py "projection.")
  || str_eqb k (py "skip.header.line.count")
  || str_eqb k (py "storage.location.template").

(** The allow-list as the DDL side tests it. *)
Definition ddl_property_kept (key : pystr) : bool :=
  str_eqb key (py "classification")
  || str_eqb (lower key) (py "has_encrypted_data")
  || str_eqb key (py "orc.compress")
  || str_eqb (lower key) (py "parquet.compress")
  || str_eqb key (py "write.compression")
  || startswith key (py "projection.")
  || str_eqb key (py "skip.header.line.count")
  || str_eqb (lower key) (py "storage.location.template").

Definition have_tblproperties_changed (md : table_metadata)
    (ddl_segments : list pystr) : result bool :=
  let ddl_tblproperties_segment :=
    next_where (fun segment => startswith segment (py "tblproperties"))
      ddl_segments in
  let default_metadata_tblproperties := Parameters md in
  let metadata_tblproperties :=
    lower_items
      (filter (fun kv => metadata_property_kept (fst kv))
         default_metadata_tblproperties) in
  let metadata_only : result bool :=
    if (length metadata_tblproperties =? 0)%nat then Ok false
    else Ok true in
  match ddl_tblproperties_segment with
  | Some seg =>
      p <- item (split seg (py " (")) 1 ;;
      let ddl_tblproperties := strip (strip_chars p (py ")")) in
      let ddl_tblproperties :=
        py "{"
        ++ strip (replace (replace ddl_tblproperties (py "=") (py ": "))
                    (py "'") [dquote])
        ++ py "}" in
      loaded <- json_loads ddl_tblproperties ;;
      (* [.items()] of anything but a [dict] is an [AttributeError] *)
      items <- match loaded with
               | PyDict d => Ok d
               | _ => Raise AttributeError
               end ;;
      let ddl_tblproperties :=
        dict_of (filter (fun kv => ddl_property_kept (fst kv)) items) in
      if (length ddl_tblproperties =? 0)%nat then metadata_only
      else if (length metadata_tblproperties =? 0)%nat then Ok true
      else
        let ddiff :=
          DeepDiff_len (PyDict ddl_tblproperties)
            (obj_of_dict metadata_tblproperties) in
        if 0 <? ddiff then Ok true else Ok false
  | None => metadata_only
  end.

End Libraries.

(** ** Change detector ([has_table_structure_changed])

    The detector calls the comparators one after the other.  To speak of which
    of them ran, a computation carries the list of the comparators it called,
    in call order, next to its result. *)

Inductive comparator : Type :=
| cmp_columns
| cmp_table_comment
| cmp_partitioning
| cmp_clustering
| cmp_row_format
| cmp_file_format
| cmp_location
| cmp_tblproperties.

Definition traced (A : Type) : Type := (list comparator * result A)%type.

Definition tret {A : Type} (a : A) : traced A := ([], Ok a).

Definition tbind {A B : Type} (m : traced A) (f : A -> traced B) : traced B :=
  match m with
  | (t, Ok a) => let (t', r) := f a in (t ++ t', r)
  | (t, Raise e) => (t, Raise e)
  end.

(** A call of the comparator [c]. *)
Definition call {A : Type} (c : comparator) (r : result A) : traced A :=
  ([c], r).

(** A step that calls no comparator. *)
Definition step {A : Type} (r : result A) : traced A := ([], r).

Notation "x <~ m ;; k" := (tbind m (fun x => k))
  (at level 61, m at next level, right associativity).

Section Detector.

Variable json_loads : pystr -> result pyobj.
Variable DeepDiff_len : pyobj -> pyobj -> Z.

Definition has_table_structure_changed (ddl_text : pystr)
    (md : table_metadata) : traced bool :=
  parts <~ step (split_ddl_columns_segment ddl_text) ;;
  let ddl_columns_segment := fst parts in
  let ddl_other_segments := strip (snd parts) in
  let ddl_clause_list_sorted :=
    index_ddl_clauses ddl_other_segments ddl_clauses_list in
  changed <~ call cmp_columns
               (have_columns_changed md ddl_columns_segment) ;;
  if changed then tret true else
  ddl_segments <~ step (segmentize_ddl_by_clause ddl_other_segments
                          ddl_clause_list_sorted) ;;
  changed <~ call cmp_table_comment
               (has_table_comment_changed md ddl_segments) ;;
  if changed then tret true else
  changed <~ call cmp_partitioning
               (has_partitioning_changed md ddl_segments) ;;
  if changed then tret true else
  changed <~ call cmp_clustering
               (has_clustering_changed md ddl_segments) ;;
  if changed then tret true else
  changed <~ call cmp_row_format
               (has_row_format_changed json_loads DeepDiff_len md
                  ddl_segments) ;;
  if changed then tret true else
  changed <~ call cmp_file_format
               (has_file_format_changed md ddl_segments) ;;
  if changed then tret true else
  changed <~ call cmp_location
               (has_table_location_changed md ddl_segments) ;;
  if changed then tret true else
  changed <~ call cmp_tblproperties
               (have_tblproperties_changed json_loads DeepDiff_len md
                  ddl_segments) ;;
  if changed then tret true else
  tret false.

(** The verdict of [detect_table_changes]'s test
    [has_table_structure_changed(normalized_ddl_text, table_metadata)]. *)
Definition detect_table_changes_verdict (ddl_text : pystr)
    (md : table_metadata) : traced bool :=
  has_table_structure_changed (normalize_ddl_text ddl_text) md.

End Detector.

(** ** Vocabulary of the statements *)

(** *** Parentheses *)

Definition no_paren (s : pystr) : Prop :=
  ~ In "("%char s /\ ~ In ")"%char s.

(** The change of depth a character makes. *)
Definition delta (c : ascii) : Z :=
  if Ascii.eqb c "("%char then 1
  else if Ascii.eqb c ")"%char then -1 else 0.

(** Opening minus closing parentheses of [s]. *)
Fixpoint net (s : pystr) : Z :=
  match s with
  | [] => 0
  | c :: s' => delta c + net s'
  end.

(** No prefix of [s] closes more parentheses than it opens. *)
Definition never_negative (s : pystr) : Prop :=
  forall p q : pystr, s = p ++ q -> 0 <= net p.

(** [s] is balanced: every parenthesis it opens it closes, and it closes no
    other. *)
Definition balanced (s : pystr) : Prop :=
  net s = 0 /\ never_negative s.

(** The first parenthesis of the text opens a group that is closed:
    [text = pre ( body ) rest] with [body] balanced. *)
Definition first_group (text pre body rest : pystr) : Prop :=
  text = pre ++ "("%char :: body ++ ")"%char :: rest
  /\ no_paren pre /\ balanced body.

(** The first parenthesis of the text is a closing one: a close with no
    matching open.  (The scan stops where the first group closes, so a close
    it meets unmatched is one that comes before every open.) *)
Definition unmatched_close (text : pystr) : Prop :=
  exists pre rest : pystr, text = pre ++ ")"%char :: rest /\ no_paren pre.

(** The first parenthesis of the text opens a group that the text never
    closes: the scan reaches the end of the text with opens remaining. *)
Definition unclosed (text : pystr) : Prop :=
  exists pre r : pystr,
    text = pre ++ "("%char :: r /\ no_paren pre /\ never_negative r.

(** What the scanning loop keeps true before it reads offset [i]: the counter
    is the height of the stack, the stack holds distinct offsets already
    read, and no offset on the stack is a key of [index_dict] yet. *)
Record scan_inv (i : Z) (st : scan_state) : Prop := mk_scan_inv {
  inv_count : p_count st = len (stack st);
  inv_nodup : NoDup (stack st);
  inv_stack_lt : Forall (fun x => x < i) (stack st);
  inv_keys_lt : Forall (fun x => x < i) (map fst (index_dict st));
  inv_disjoint : forall x, In x (stack st) -> ~ In x (map fst (index_dict st))
}.

(** From depth [d], no prefix of [s] takes the depth below zero. *)
Fixpoint stays_open (d : Z) (s : pystr) : bool :=
  match s with
  | [] => 0 <=? d
  | c :: s' => (0 <=? d) && stays_open (d + delta c) s'
  end.

(** *** Clause index and segments *)

(** The marker of the entry was found in the text. *)
Definition found (e : clause_entry) : bool := negb (Index e =? NOT_FOUND).

(** The order [sorted] sorts by. *)
Definition index_le (a b : clause_entry) : Prop := Index a <= Index b.

(** The segment cut from [text] between two offsets, trimmed. *)
Definition segment_between (text : pystr) (r : Z * Z) : pystr :=
  strip (slice text (Some (fst r)) (Some (snd r))).

(** Each range ends where the next one starts, and the last one ends at
    [stop]. *)
Fixpoint contiguous (ranges : list (Z * Z)) (stop : Z) : Prop :=
  match ranges with
  | [] => True
  | r :: ranges' =>
      match ranges' with
      | [] => snd r = stop
      | r' :: _ => snd r = fst r' /\ contiguous ranges' stop
      end
  end.

(** The offsets between which [segmentize_ddl_by_clause] cuts, for a list of
    entries and the end [stop] of the text. *)
Fixpoint ranges_of (l : list clause_entry) (stop : Z) : list (Z * Z) :=
  match l with
  | [] => []
  | a :: l' =>
      match l' with
      | [] => if found a then [(Index a, stop)] else []
      | b :: _ =>
          (if found a then [(Index a, Index b)] else []) ++ ranges_of l' stop
      end
  end.

(** The segments cut [text] between the offsets of the markers found in [l]:
    one segment per marker found, in the order of [l], each from the offset
    of its marker to the offset of the next one, the last one to the end of
    the text, each trimmed. *)
Definition tiled_by (text : pystr) (l : list clause_entry)
    (segments : list pystr) : Prop :=
  exists ranges : list (Z * Z),
    segments = map (segment_between text) ranges
    /\ map fst ranges = map Index (filter found l)
    /\ contiguous ranges (len text)
    /\ Forall (fun r => 0 <= fst r <= snd r /\ snd r <= len text) ranges.

(** A marker is present in a clause index: it has an entry that was found. *)
Definition present (marker : pystr) (l : list clause_entry) : Prop :=
  exists e, In e l /\ Clause e = marker /\ Index e <> NOT_FOUND.

(** The test the loop of [determine_row_format_type] makes on an entry, for
    the marker [marker]. *)
Definition hits (marker : pystr) (e : clause_entry) : bool :=
  str_eqb (Clause e) marker && negb (Index e =? NOT_FOUND).

(** The keys of ['SerdeInfo']['Parameters'] that
    [get_meta_row_format_delimiters] reads as delimiters. *)
Definition delimiter_keys : list pystr :=
  [ py "escape.delim"; py "field.delim"; py "colelction.delim";
    py "mapkey.delim"; py "line.delim"; py "serialization.null.format" ].

(** *** An example table

    The table [t (id int, name string)] partitioned by [dt], stored as
    Parquet at [s3://b/t], as the catalog describes it. *)
Definition example_metadata : table_metadata :=
  mk_table_metadata
    (mk_storage_descriptor
       [ mk_column (py "id") (py "int") None;
         mk_column (py "name") (py "string") None ]
       [] 0
       (mk_serde_info
          (py "org.apache.hadoop.hive.ql.io.parquet.serde.ParquetHiveSerDe")
          [ (py "serialization.format", py "1") ])
       (py "org.apache.hadoop.hive.ql.io.parquet.MapredParquetInputFormat")
       (py "org.apache.hadoop.hive.ql.io.parquet.MapredParquetOutputFormat")
       (py "s3://b/t"))
    [ mk_column (py "dt") (py "string") None ]
    [ (py "EXTERNAL", py "TRUE") ].

(** A [json.loads] and a [DeepDiff] to run the examples with, where neither
    is reached. *)
Definition no_json_loads : pystr -> result pyobj :=
  fun _ => Raise JSONDecodeError.
Definition no_DeepDiff_len : pyobj -> pyobj -> Z := fun _ _ => 0.

(** *** Detector *)

(** The order in which [has_table_structure_changed] calls the comparators. *)
Definition comparator_order : list comparator :=
  [ cmp_columns; cmp_table_comment; cmp_partitioning; cmp_clustering;
    cmp_row_format; cmp_file_format; cmp_location; cmp_tblproperties ].

(** What each comparator answers for the metadata, the columns segment and
    the clause segments of one comparison. *)
Definition outcome (json_loads : pystr -> result pyobj)
    (DeepDiff_len : pyobj -> pyobj -> Z) (md : table_metadata)
    (ddl_columns_segment : pystr) (ddl_segments : list pystr)
    (c : comparator) : result bool :=
  match c with
  | cmp_columns => have_columns_changed md ddl_columns_segment
  | cmp_table_comment => has_table_comment_changed md ddl_segments
  | cmp_partitioning => has_partitioning_changed md ddl_segments
  | cmp_clustering => has_clustering_changed md ddl_segments
  | cmp_row_format =>
      has_row_format_changed json_loads DeepDiff_len md ddl_segments
  | cmp_file_format => has_file_format_changed md ddl_segments
  | cmp_location => has_table_location_changed md ddl_segments
  | cmp_tblproperties =>
      have_tblproperties_changed json_loads DeepDiff_len md ddl_segments
  end.

(** Calling the comparators of [l] in turn until one answers something else
    than [False]. *)
Fixpoint run_in_order (run : comparator -> result bool) (l : list comparator)
    : traced bool :=
  match l with
  | [] => ([], Ok false)
  | c :: l' =>
      match run c with
      | Ok false => let (t, r) := run_in_order run l' in (c :: t, r)
      | r => ([c], r)
      end
  end.

(** ** Vocabulary of the further properties *)



(** The metadata [md] with its table properties replaced by [P]. *)
Definition with_parameters (md : table_metadata) (P : pydict pystr)
    : table_metadata :=
  mk_table_metadata (StorageDescriptor md) (PartitionKeys md) P.



(** A text table with delimiters, as the catalog describes it. *)
Definition delimited_metadata : table_metadata :=
  mk_table_metadata
    (mk_storage_descriptor
       [ mk_column (py "id") (py "int") None ]
       [] 0
       (mk_serde_info
          (py "org.apache.hadoop.hive.serde2.lazy.LazySimpleSerDe")
          [ (py "colelction.delim", py ","); (py "field.delim", py ";");
            (py "serialization.format", py "1") ])
       TEXTFILE_STORAGE_FORMAT
       (py "org.apache.hadoop.hive.ql.io.HiveIgnoreKeyTextOutputFormat")
       (py "s3://b/t"))
    [] [ (py "EXTERNAL", py "TRUE") ].

(** [sep.join(l)] *)
Fixpoint join (sep : pystr) (l : list pystr) : pystr :=
  match l with
  | [] => []
  | [x] => x
  | x :: l' => x ++ sep ++ join sep l'
  end.



(** A table whose comment ends in an apostrophe, and a bucketed table. *)
Definition commented_metadata : table_metadata :=
  mk_table_metadata (StorageDescriptor example_metadata) []
    [ (py "comment", py "the cats'") ].

Definition clustered_metadata : table_metadata :=
  mk_table_metadata
    (mk_storage_descriptor
       [ mk_column (py "id") (py "int") None ]
       [ py "Id"; py "region" ] 8
       (SerdeInfo (StorageDescriptor example_metadata))
       (InputFormat (StorageDescriptor example_metadata))
       (OutputFormat (StorageDescriptor example_metadata))
       (py "s3://b/t"))
    [] [].

(** The last character of the text in front of a comment is neither white
    space nor a dash. *)
Definition ends_clean (a : pystr) : Prop :=
  forall a' x, a = a' ++ [x] -> is_space x = false /\ x <> "-"%char.

(** * Deployment of the tables

    [process_athena_tables] and the functions under it talk to S3, to Athena
    and to the stack-information service.  What these services answer is not
    part of the program: it is taken as a parameter, and it may depend on
    the requests the program has made so far.  A computation of this part
    reads the requests made before it and gives the requests it makes
    itself, in order, next to how it ends. *)

(** The requests that change something: [s3_resource.Object(bucket,
    key).put(Body=body)] and [athena_client.start_query_execution]. *)
Inductive request : Type :=
| put_object (bucket key body : pystr)
| start_query_execution (query_string output_location work_group : pystr).

Inductive ending (A : Type) : Type :=
| Returns (a : A)
| Raises (e : exn)
| Never_returns.
Arguments Returns {A} a.
Arguments Raises {A} e.
Arguments Never_returns {A}.

Definition io (A : Type) : Type := list request -> list request * ending A.

Definition io_ret {A : Type} (a : A) : io A := fun _ => ([], Returns a).

Definition io_bind {A B : Type} (m : io A) (k : A -> io B) : io B :=
  fun past =>
    match m past with
    | (made, Returns a) =>
        let (more, o) := k a (past ++ made) in (made ++ more, o)
    | (made, Raises e) => (made, Raises e)
    | (made, Never_returns) => (made, Never_returns)
    end.

Definition ending_of {A : Type} (r : result A) : ending A :=
  match r with Ok a => Returns a | Raise e => Raises e end.

(** A step that makes no request. *)
Definition io_of {A : Type} (r : result A) : io A :=
  fun _ => ([], ending_of r).

(** A question to a service, which changes nothing. *)
Definition ask {A : Type} (answer : list request -> result A) : io A :=
  fun past => ([], ending_of (answer past)).

Notation "x <-- m ;; k" := (io_bind m (fun x => k))
  (at level 61, m at next level, right associativity).

(** [for x in l: f(x)] *)
Fixpoint for_each {A : Type} (f : A -> io unit) (l : list A) : io unit :=
  match l with
  | [] => io_ret tt
  | x :: l' => _ <-- f x ;; for_each f l'
  end.

(** What becomes of a query that [execute_query] starts: a boto3 call
    raises, the loop of [query_execution_waiter] ends on a state (with the
    id of the execution and, when the response carries one, the
    ['StateChangeReason']), or the execution stays queued or running and
    the loop never ends. *)
Inductive execution : Type :=
| client_error (e : exn)
| ends (query_execution_id state : pystr)
       (state_change_reason : option pystr)
| stays_running.

(** An entry of [config_dict['athena_tables']], with the keys this part
    reads. *)
Record table_config : Type := mk_table_config {
  table_name : pystr;
  script_name : pystr;
  table_folder : pystr;
  sql_folder1 : pystr;
  sql_folder2 : pystr;
  label : pystr;
  location_dir : pystr;
  temp_folder : pystr
}.

(** An entry of the list [construct_tables_metadata_list] returns: the
    ['Name'] and ['TableType'] of a Glue table next to the part the
    comparators read. *)
Record catalog_table : Type := mk_catalog_table {
  TableName : pystr;
  TableType : pystr;
  Metadata : table_metadata
}.

Section Deployment.

Variable json_loads : pystr -> result pyobj.
Variable DeepDiff_len : pyobj -> pyobj -> Z.
(** [stack_info_obj.get_bucket_name_by_label(product_name,
    environment_name, label)] *)
Variable get_bucket_name_by_label :
  list request -> pystr -> pystr -> pystr -> result pystr.
(** [s3_resource.Object(bucket, key).get()['Body'].read().decode('utf-8')] *)
Variable s3_get : list request -> pystr -> pystr -> result pystr.
(** Whether the [put] of an object goes through. *)
Variable s3_put : list request -> pystr -> pystr -> pystr -> result unit.
(** Athena, for the query, output location and work group of a start. *)
Variable athena : list request -> pystr -> pystr -> pystr -> execution.

Definition execute_query (product_name query_string output_location : pystr)
    : io pystr :=
  fun past =>
    let work_group := lower product_name ++ py "-etl" in
    ([start_query_execution query_string output_location work_group],
     match athena past query_string output_location work_group with
     | client_error e => Raises e
     | stays_running => Never_returns
     | ends query_execution_id state state_change_reason =>
         if str_eqb state (py "FAILED") then
           match state_change_reason with
           | Some reason =>
               Raises (Exception
                         (py "Unable to execute query="
                          ++ slice query_string (Some 0) (Some 150)
                          ++ py "...! Reason -> " ++ reason))
           | None => Raises KeyError
           end
         else Returns query_execution_id
     end).

Definition drop_table
    (db_name table_name table_type temp_folder product_name
       environment_name : pystr) : io unit :=
  bucket <-- ask (fun past =>
                    get_bucket_name_by_label past product_name
                      environment_name (py "output")) ;;
  let output_location := py "s3://" ++ bucket ++ py "/" ++ temp_folder in
  let query_string :=
    if str_eqb table_type (py "VIRTUAL_VIEW")
    then py "DROP VIEW IF EXISTS " ++ db_name ++ py "." ++ table_name
    else py "DROP TABLE IF EXISTS " ++ db_name ++ py "." ++ table_name in
  _ <-- execute_query product_name query_string output_location ;;
  io_ret tt.

Definition create_table (table_config : table_config)
    (ddl_text db_name product_name environment_name : pystr) : io unit :=
  bucket <-- ask (fun past =>
                    get_bucket_name_by_label past product_name
                      environment_name (py "output")) ;;
  let output_location :=
    py "s3://" ++ bucket ++ py "/" ++ temp_folder table_config in
  _ <-- execute_query product_name ddl_text output_location ;;
  if 0 <=? find (lower ddl_text) (py "partitioned by") then
    let query_string :=
      py "MSCK REPAIR TABLE " ++ db_name ++ py "."
      ++ table_name table_config in
    _ <-- execute_query product_name query_string output_location ;;
    io_ret tt
  else io_ret tt.

Definition prep_ddl_script (table_config : table_config)
    (output_bucket_name app_bucket_name db_name product_name
       environment_name : pystr) : io pystr :=
  (* the argument of the fourth [logger.debug] *)
  _ <-- ask (fun past =>
               get_bucket_name_by_label past product_name environment_name
                 (py "output")) ;;
  bucket <-- ask (fun past =>
                    get_bucket_name_by_label past product_name
                      environment_name (label table_config)) ;;
  let location_clause :=
    py "s3://" ++ bucket ++ location_dir table_config ++ py "/"
    ++ table_name table_config in
  body <-- ask (fun past =>
                  s3_get past app_bucket_name
                    (sql_folder1 table_config ++ py "/"
                     ++ script_name table_config)) ;;
  let body :=
    replace (replace body (py "%%LOCATION%%") location_clause)
      (py "%%DATABASE%%") db_name in
  let body := strip_comments body in
  let key := sql_folder2 table_config ++ py "/" ++ script_name table_config in
  _ <-- (fun past =>
           ([put_object output_bucket_name key body],
            ending_of (s3_put past output_bucket_name key body))) ;;
  io_ret body.

Definition detect_table_changes (table_metadata : catalog_table)
    (table_config : table_config)
    (ddl_text db_name product_name environment_name : pystr) : io unit :=
  changed <-- io_of (snd (detect_table_changes_verdict json_loads
                            DeepDiff_len ddl_text
                            (Metadata table_metadata))) ;;
  if changed then
    _ <-- drop_table db_name (table_name table_config)
            (TableType table_metadata) (temp_folder table_config)
            product_name environment_name ;;
    create_table table_config ddl_text db_name product_name environment_name
  else io_ret tt.

(** The body of the loop of [process_athena_tables], for one entry of
    [config_dict['athena_tables']]. *)
Definition process_athena_table (tables_metadata_list : list catalog_table)
    (output_bucket_name app_bucket_name db_name product_name
       environment_name : pystr) (table_config : table_config) : io unit :=
  let table_metadata :=
    filter (fun element =>
              str_eqb (TableName element) (table_name table_config))
      tables_metadata_list in
  ddl_text <-- prep_ddl_script table_config output_bucket_name
                 app_bucket_name db_name product_name environment_name ;;
  match table_metadata with
  | [] =>
      create_table table_config ddl_text db_name product_name
        environment_name
  | first :: _ =>
      if str_eqb (TableType first) (py "VIRTUAL_VIEW") then
        create_table table_config ddl_text db_name product_name
          environment_name
      else
        detect_table_changes first table_config ddl_text db_name
          product_name environment_name
  end.

(** [tables_metadata_list] is what [construct_tables_metadata_list(db_name)]
    returned, [athena_tables] is [config_dict['athena_tables']]. *)
Definition process_athena_tables (tables_metadata_list : list catalog_table)
    (athena_tables : list table_config)
    (output_bucket_name app_bucket_name db_name product_name
       environment_name : pystr) : io unit :=
  for_each
    (process_athena_table tables_metadata_list output_bucket_name
       app_bucket_name db_name product_name environment_name)
    athena_tables.

End Deployment.

(** ** Vocabulary of the deployment properties *)

(** The query strings among some requests, and the bodies written. *)
Definition queries (l : list request) : list pystr :=
  flat_map (fun r => match r with
                     | start_query_execution q _ _ => [q]
                     | put_object _ _ _ => []
                     end) l.

Definition bodies (l : list request) : list pystr :=
  flat_map (fun r => match r with
                     | put_object _ _ body => [body]
                     | start_query_execution _ _ _ => []
                     end) l.

(** The queries that create a table from its DDL text. *)
Definition create_queries (db_name : pystr) (tc : table_config)
    (ddl_text : pystr) : list pystr :=
  ddl_text
  :: (if contains (lower ddl_text) (py "partitioned by")
      then [ py "MSCK REPAIR TABLE " ++ db_name ++ py "." ++ table_name tc ]
      else []).

(** The queries a table of the configuration calls for, given the catalog
    and the DDL text prepared for it: nothing for a table whose structure
    the detector finds unchanged; a drop and the creation for a table found
    changed; the creation alone for a view and for a table the catalog does
    not have. *)
Definition planned_queries (json_loads : pystr -> result pyobj)
    (DeepDiff_len : pyobj -> pyobj -> Z)
    (catalog : list catalog_table) (db_name : pystr)
    (tc : table_config) (ddl_text : pystr) : list pystr :=
  match List.find (fun t => str_eqb (TableName t) (table_name tc)) catalog
  with
  | None => create_queries db_name tc ddl_text
  | Some t =>
      if str_eqb (TableType t) (py "VIRTUAL_VIEW")
      then create_queries db_name tc ddl_text
      else
        match snd (detect_table_changes_verdict json_loads DeepDiff_len
                     ddl_text (Metadata t)) with
        | Ok true =>
            (py "DROP TABLE IF EXISTS " ++ db_name ++ py "."
             ++ table_name tc)
            :: create_queries db_name tc ddl_text
        | _ => []
        end
  end.

(** The plan of a whole run, over the DDL texts prepared table by table. *)
Fixpoint planned_run (json_loads : pystr -> result pyobj)
    (DeepDiff_len : pyobj -> pyobj -> Z)
    (catalog : list catalog_table) (db_name : pystr)
    (tables : list table_config) (texts : list pystr) : list pystr :=
  match tables, texts with
  | tc :: tables', ddl_text :: texts' =>
      planned_queries json_loads DeepDiff_len catalog db_name tc ddl_text
      ++ planned_run json_loads DeepDiff_len catalog db_name tables' texts'
  | _, _ => []
  end.

(** A world in which every service answers and every query succeeds; the
    template read from S3 is the same for every key. *)
Definition steady_bucket : list request -> pystr -> pystr -> pystr
                           -> result pystr :=
  fun _ _ _ l => Ok (py "bucket-" ++ l).
Definition steady_get (template : pystr)
    : list request -> pystr -> pystr -> result pystr :=
  fun _ _ _ => Ok template.
Definition steady_put : list request -> pystr -> pystr -> pystr
                        -> result unit :=
  fun _ _ _ _ => Ok tt.
Definition steady_athena : list request -> pystr -> pystr -> pystr
                           -> execution :=
  fun _ _ _ _ => ends (py "q-1") (py "SUCCEEDED") None.

Definition example_table_config : table_config :=
  mk_table_config (py "t") (py "t.sql") (py "t") (py "sql") (py "out")
    (py "data") (py "/tables") (py "_tmp").

(** A computation that wrote nothing to S3 and whose queries are the plan,
    as far as it got: all of it when it returns. *)
Definition follows {A : Type} (plan : list pystr)
    (r : list request * ending A) : Prop :=
  bodies (fst r) = []
  /\ (exists n, queries (fst r) = firstn n plan)
  /\ (forall a, snd r = Returns a -> queries (fst r) = plan).

(** A DDL template for the example table, with a column the catalog does
    not have yet. *)
Definition example_template : pystr :=
  py "CREATE EXTERNAL TABLE %%DATABASE%%.t (id int, name string, age int) -- people"
  ++ [LF]
  ++ py "STORED AS PARQUET LOCATION '%%LOCATION%%';".

Definition example_catalog : list catalog_table :=
  [ mk_catalog_table (py "t") (py "EXTERNAL_TABLE") example_metadata ].

(** * Properties *)

(** ** Facts about the string primitives *)

Lemma str_eqb_eq (a b : pystr) : str_eqb a b = true <-> a = b.
Proof.
  revert b; induction a as [|x a IH]; intros [|y b]; simpl;
    try (split; [discriminate | discriminate]); try tauto.
  rewrite andb_true_iff, Ascii.eqb_eq, IH.
  split; [intros [-> ->]; reflexivity | intros H; injection H; auto].
Qed.

Lemma startswith_length (s p : pystr) :
  startswith s p = true -> (length p <= length s)%nat.
Proof.
  revert s; induction p as [|a p IH]; intros [|b s]; simpl;
    try lia; try discriminate.
  rewrite andb_true_iff; intros [_ H]; apply IH in H; lia.
Qed.


(** [find_from] only shifts the answer of [find]. *)
Lemma find_from_shift (i : Z) (s sub : pystr) :
  find_from i s sub =
  if find_from 0 s sub <? 0 then -1 else i + find_from 0 s sub.
Proof.
  revert i; induction s as [|c s IH]; intros i; cbn [find_from].
  - destruct (startswith [] sub); cbn; [f_equal; lia | reflexivity].
  - destruct (startswith (c :: s) sub).
    + change (0 <? 0) with false; cbv iota; lia.
    + rewrite (IH (i + 1)), (IH (0 + 1)).
      destruct (find_from 0 s sub <? 0) eqn:E; [reflexivity|].
      apply Z.ltb_ge in E.
      replace (0 + 1 + find_from 0 s sub <? 0) with false
        by (symmetry; apply Z.ltb_ge; lia).
      lia.
Qed.

Lemma find_from_lower (i : Z) (s sub : pystr) :
  find_from i s sub = -1 \/ i <= find_from i s sub <= i + len s.
Proof.
  revert i; induction s as [|c s IH]; intros i; unfold len;
    cbn [find_from length].
  - destruct (startswith [] sub); [right; lia | left; reflexivity].
  - destruct (startswith (c :: s) sub); [right; lia|].
    destruct (IH (i + 1)) as [H|H]; [left; exact H | right].
    unfold len in H; lia.
Qed.

Lemma find_range (s sub : pystr) :
  find s sub = -1 \/ 0 <= find s sub <= len s.
Proof. apply (find_from_lower 0). Qed.

Lemma contains_cons (c : ascii) (s sub : pystr) :
  contains (c :: s) sub = startswith (c :: s) sub || contains s sub.
Proof.
  unfold contains, find; cbn [find_from].
  destruct (startswith (c :: s) sub); [reflexivity|].
  rewrite find_from_shift.
  destruct (find_from 0 s sub <? 0) eqn:E; cbn [orb].
  - apply Z.ltb_lt in E.
    replace (0 <=? find_from 0 s sub) with false
      by (symmetry; apply Z.leb_gt; lia).
    reflexivity.
  - apply Z.ltb_ge in E.
    replace (0 <=? find_from 0 s sub) with true
      by (symmetry; apply Z.leb_le; lia).
    apply Z.leb_le; lia.
Qed.

(** Every character of [s.replace(old, new)] comes from [s] or from [new]. *)
Lemma Forall_replace_go (P : ascii -> Prop) (old new : pystr) :
  Forall P new ->
  forall (s : pystr) (k : nat), Forall P s -> Forall P (replace_go old new k s).
Proof.
  intros Hn; induction s as [|c s IH]; intros k Hs; simpl; [constructor|].
  inversion Hs; subst.
  destruct k; [|apply IH; assumption].
  destruct (startswith (c :: s) old).
  - apply Forall_app; split; [exact Hn | apply IH; assumption].
  - constructor; [assumption | apply IH; assumption].
Qed.

Lemma Forall_replace (P : ascii -> Prop) (s old new : pystr) :
  Forall P new -> Forall P s -> Forall P (replace s old new).
Proof.
  intros Hn Hs; destruct old as [|o old]; simpl.
  - apply Forall_app; split; [exact Hn|].
    induction Hs; simpl; [constructor|].
    constructor; [assumption | apply Forall_app; split; assumption].
  - apply Forall_replace_go; assumption.
Qed.

(** Replacing the one-character string [c] leaves no [c] behind. *)
Lemma replace_char_gone (c : ascii) (s new : pystr) :
  Forall (fun x => x <> c) new ->
  Forall (fun x => x <> c) (replace s [c] new).
Proof.
  intros Hn; unfold replace.
  induction s as [|x s IH]; simpl; [constructor|].
  destruct (Ascii.eqb c x) eqn:E; simpl.
  - apply Forall_app; split; assumption.
  - constructor; [|exact IH].
    intros ->; rewrite Ascii.eqb_refl in E; discriminate.
Qed.

(** A replacement by a string no longer than the pattern never lengthens the
    text, and it passes over the [skip] pending characters. *)
Lemma replace_go_length (old new : pystr) :
  (length new <= length old)%nat ->
  forall (s : pystr) (k : nat),
    (length (replace_go old new k s) + Nat.min k (length s) <= length s)%nat.
Proof.
  intros Hlen; induction s as [|c s IH]; intros k; simpl; [lia|].
  destruct k as [|k].
  - destruct (startswith (c :: s) old) eqn:E.
    + apply startswith_length in E; simpl in E.
      rewrite length_app.
      specialize (IH (length old - 1)%nat); lia.
    + specialize (IH 0%nat); simpl; lia.
  - specialize (IH k); lia.
Qed.

(** ... and it shortens the text as soon as the pattern occurs. *)
Lemma replace_go_shorter (old new : pystr) :
  (length new < length old)%nat ->
  forall s : pystr,
    contains s old = true ->
    (length (replace_go old new 0 s) < length s)%nat.
Proof.
  intros Hlen; induction s as [|c s IH]; intros Hc.
  - unfold contains, find in Hc; simpl in Hc.
    destruct old; simpl in *; [lia | discriminate].
  - rewrite contains_cons in Hc; simpl.
    destruct (startswith (c :: s) old) eqn:E.
    + apply startswith_length in E; simpl in E.
      rewrite length_app.
      pose proof (replace_go_length old new ltac:(lia) s (length old - 1)).
      lia.
    + simpl in Hc; apply IH in Hc; simpl; lia.
Qed.

(** ** Text normaliser *)

(** [lower()] maps no other character onto a character that is not a
    letter. *)
Lemma lower_char_reflects (x : ascii) :
  lower_char x = x ->
  (forall c, lower_char c = x -> lower_char c = c) ->
  forall s : pystr, ~ In x s -> ~ In x (lower s).
Proof.
  intros _ Hx s Hs Hin; apply Hs.
  unfold lower in Hin; apply in_map_iff in Hin as [c [Hc Hin]].
  rewrite <- Hc, (Hx c Hc); exact Hin.
Qed.

Lemma lower_char_idem (c : ascii) : lower_char (lower_char c) = lower_char c.
Proof.
  destruct c as [[] [] [] [] [] [] [] []]; vm_compute; reflexivity.
Qed.

Ltac by_cases_on_char c :=
  destruct c as [[] [] [] [] [] [] [] []]; vm_compute;
  intros H; solve [reflexivity | discriminate H].

Lemma lower_char_LF (c : ascii) : lower_char c = LF -> lower_char c = c.
Proof. by_cases_on_char c. Qed.
Lemma lower_char_CR (c : ascii) : lower_char c = CR -> lower_char c = c.
Proof. by_cases_on_char c. Qed.
Lemma lower_char_TAB (c : ascii) : lower_char c = TAB -> lower_char c = c.
Proof. by_cases_on_char c. Qed.
Lemma lower_char_backtick (c : ascii) :
  lower_char c = "`"%char -> lower_char c = c.
Proof. by_cases_on_char c. Qed.
Lemma lower_char_semicolon (c : ascii) :
  lower_char c = ";"%char -> lower_char c = c.
Proof. by_cases_on_char c. Qed.

Lemma not_In_Forall (x : ascii) (s : pystr) :
  ~ In x s <-> Forall (fun c => c <> x) s.
Proof.
  rewrite Forall_forall; split.
  - intros H c Hc ->; exact (H Hc).
  - intros H Hx; exact (H x Hx eq_refl).
Qed.

Lemma collapse_loop_Forall (P : ascii -> Prop) :
  P " "%char -> P ","%char ->
  forall (fuel : nat) (t : pystr),
    Forall P t -> Forall P (collapse_loop fuel t).
Proof.
  intros Hsp Hco; induction fuel as [|fuel IH]; intros t Ht;
    cbn [collapse_loop]; [exact Ht|].
  destruct (contains t (py "  ")); [|exact Ht].
  apply IH; unfold collapse_step.
  apply Forall_replace; [repeat constructor; exact Hco|].
  apply Forall_replace; [repeat constructor; exact Hsp | exact Ht].
Qed.

(** One turn of the loop shortens a text that holds two spaces in a row. *)
Lemma collapse_step_shorter (t : pystr) :
  contains t (py "  ") = true ->
  (length (collapse_step t) < length t)%nat.
Proof.
  intros H; unfold collapse_step.
  pose proof (replace_go_shorter (py "  ") (py " ") ltac:(simpl; lia) t H)
    as H1.
  pose proof (replace_go_length (py " ,") (py ",") ltac:(simpl; lia)
                (replace t (py "  ") (py " ")) 0) as H2.
  change (replace t (py "  ") (py " "))
    with (replace_go (py "  ") (py " ") 0 t) in *.
  change (replace (replace_go (py "  ") (py " ") 0 t) (py " ,") (py ","))
    with (replace_go (py " ,") (py ",") 0
            (replace_go (py "  ") (py " ") 0 t)).
  lia.
Qed.

(** The loop is left through its test: the fuel never runs out. *)
Lemma collapse_loop_exit (fuel : nat) (t : pystr) :
  (length t <= fuel)%nat ->
  contains (collapse_loop fuel t) (py "  ") = false.
Proof.
  revert t; induction fuel as [|fuel IH]; intros t Hlen;
    cbn [collapse_loop].
  - destruct t; [reflexivity | simpl in Hlen; lia].
  - destruct (contains t (py "  ")) eqn:E; [|exact E].
    apply IH; pose proof (collapse_step_shorter t E); lia.
Qed.

Lemma normalize_replacements_without (x : ascii) (ddl_text : pystr) :
  In x [LF; CR; "`"%char; ";"%char; TAB] ->
  ~ In x (normalize_replacements ddl_text).
Proof.
  intros Hx; unfold normalize_replacements.
  assert (Hnew : forall new : pystr,
             In new [py " "; []; py ")"] -> Forall (fun c => c <> x) new).
  { intros new Hnew; apply not_In_Forall.
    simpl in Hx, Hnew.
    destruct Hx as [<-|[<-|[<-|[<-|[<-|[]]]]]];
      destruct Hnew as [<-|[<-|[<-|[]]]]; simpl;
      intros H; repeat (destruct H as [H|H]; [discriminate H|]); exact H. }
  simpl in Hx.
  destruct Hx as [<-|[<-|[<-|[<-|[<-|[]]]]]];
    (apply lower_char_reflects;
     [ reflexivity
     | first [ exact lower_char_LF | exact lower_char_CR
             | exact lower_char_backtick | exact lower_char_semicolon
             | exact lower_char_TAB ]
     | apply not_In_Forall;
       repeat first
         [ apply replace_char_gone; apply Hnew; simpl; tauto
         | apply Forall_replace; [apply Hnew; simpl; tauto|] ] ]).
Qed.

Lemma lower_fixed (s : pystr) :
  Forall (fun c => lower_char c = c) s -> lower s = s.
Proof.
  unfold lower; induction 1 as [|c s Hc _ IH]; cbn [map]; [reflexivity|].
  rewrite Hc, IH; reflexivity.
Qed.

(** C4, as the code has it: the normalised text holds no line feed, carriage
    return, backtick, semicolon or tab, no two spaces in a row, and [lower()]
    leaves it unchanged, whatever text [detect_table_changes] is given (the
    output of [strip_comments] included). *)
Theorem normalize_ddl_text_shape (ddl_text : pystr) :
  let t := normalize_ddl_text ddl_text in
  ~ In LF t /\ ~ In CR t /\ ~ In "`"%char t /\ ~ In ";"%char t
  /\ ~ In TAB t
  /\ contains t (py "  ") = false
  /\ lower t = t.
Proof.
  assert (Hno : forall x, In x [LF; CR; "`"%char; ";"%char; TAB] ->
                          ~ In x (normalize_ddl_text ddl_text)).
  { intros x Hx; apply not_In_Forall.
    unfold normalize_ddl_text, collapse_spaces.
    apply collapse_loop_Forall.
    - simpl in Hx; destruct Hx as [<-|[<-|[<-|[<-|[<-|[]]]]]]; discriminate.
    - simpl in Hx; destruct Hx as [<-|[<-|[<-|[<-|[<-|[]]]]]]; discriminate.
    - apply not_In_Forall, normalize_replacements_without, Hx. }
  cbv zeta; repeat split; try (apply Hno; simpl; tauto).
  - unfold normalize_ddl_text, collapse_spaces.
    apply collapse_loop_exit; lia.
  - apply lower_fixed.
    unfold normalize_ddl_text, collapse_spaces.
    apply collapse_loop_Forall; [reflexivity | reflexivity|].
    unfold normalize_replacements, lower.
    apply Forall_map, Forall_forall; intros c _; apply lower_char_idem.
Qed.

(** C4 as stated fails: a single space before a comma stays when the text has
    no two spaces in a row, and of several spaces before a closing
    parenthesis one stays.  Neither text holds a comment. *)
Lemma normalize_ddl_text_keeps_space :
  strip_comments (py "(id int ,name string)") = py "(id int ,name string)"
  /\ normalize_ddl_text (py "(id int ,name string)")
     = py "(id int ,name string)"
  /\ contains (py "(id int ,name string)") (py " ,") = true
  /\ strip_comments (py "(id int  )") = py "(id int  )"
  /\ normalize_ddl_text (py "(id int  )") = py "(id int )"
  /\ contains (py "(id int )") (py " )") = true.
Proof. repeat split; vm_compute; reflexivity. Qed.

(** ** Clause indexer *)

Lemma index_clause_range (text clause : pystr) :
  Index (index_clause text clause) = NOT_FOUND
  \/ 0 <= Index (index_clause text clause) <= len text.
Proof.
  unfold index_clause.
  pose proof (find_range text (strip clause)) as H.
  destruct (str_eqb (strip clause) (py "comment '")).
  - destruct (find text (strip clause) =? 0) eqn:E; cbn [Index];
      [apply Z.eqb_eq in E; right; unfold len in *; lia | left; reflexivity].
  - destruct (0 <=? find text (strip clause)) eqn:E; cbn [Index];
      [apply Z.leb_le in E; right; lia | left; reflexivity].
Qed.

Lemma insert_by_index_perm (x : clause_entry) (l : list clause_entry) :
  Permutation (insert_by_index x l) (x :: l).
Proof.
  induction l as [|y l IH]; simpl; [reflexivity|].
  destruct (Index x <=? Index y); [reflexivity|].
  rewrite IH; apply perm_swap.
Qed.

Lemma insert_by_index_sorted (x : clause_entry) (l : list clause_entry) :
  StronglySorted index_le l -> StronglySorted index_le (insert_by_index x l).
Proof.
  induction 1 as [|y l Hs IH Hy]; simpl.
  - repeat constructor.
  - destruct (Index x <=? Index y) eqn:E.
    + apply Z.leb_le in E.
      constructor; [constructor; assumption|].
      constructor; [exact E|].
      eapply Forall_impl; [|exact Hy].
      unfold index_le; intros; lia.
    + apply Z.leb_gt in E.
      constructor; [exact IH|].
      eapply Permutation_Forall;
        [apply Permutation_sym, insert_by_index_perm|].
      constructor; [unfold index_le; lia | exact Hy].
Qed.

Lemma sorted_by_index_sorted (l : list clause_entry) :
  StronglySorted index_le (sorted_by_index l).
Proof.
  induction l; simpl; [constructor | apply insert_by_index_sorted; assumption].
Qed.

Lemma sorted_by_index_perm (l : list clause_entry) :
  Permutation (sorted_by_index l) l.
Proof.
  induction l as [|x l IH]; simpl; [reflexivity|].
  rewrite insert_by_index_perm, IH; reflexivity.
Qed.

Lemma index_ddl_clauses_range (text : pystr) (catalog : list pystr) :
  Forall (fun e => Index e = NOT_FOUND \/ 0 <= Index e <= len text)
    (index_ddl_clauses text catalog).
Proof.
  unfold index_ddl_clauses.
  eapply Permutation_Forall; [apply Permutation_sym, sorted_by_index_perm|].
  apply Forall_map, Forall_forall; intros c _; apply index_clause_range.
Qed.

(** In a list sorted by [Index] whose indexes are offsets or [-1], the
    entries that were not found come first. *)
Lemma not_found_first (stop : Z) (l : list clause_entry) :
  StronglySorted index_le l ->
  Forall (fun e => Index e = NOT_FOUND \/ 0 <= Index e <= stop) l ->
  exists missing located : list clause_entry,
    l = missing ++ located
    /\ Forall (fun e => Index e = NOT_FOUND) missing
    /\ Forall (fun e => 0 <= Index e) located.
Proof.
  induction 1 as [|x l Hs IH Hx]; intros Hr.
  - exists [], []; repeat split; constructor.
  - inversion Hr as [|? ? [Hnf|Hin] Hr']; subst.
    + destruct (IH Hr') as [m [f [-> [Hm Hf]]]].
      exists (x :: m), f; repeat split; [constructor; assumption | exact Hf].
    + exists [], (x :: l); repeat split; [constructor|].
      constructor; [lia|].
      eapply Forall_impl; [|exact Hx]; unfold index_le; intros; lia.
Qed.

(** C5, as the code has it: the list [index_ddl_clauses] returns holds one
    entry per marker of the catalog, sorted by [Index] ascending; a marker
    that was not found carries [-1], so the markers not found come first,
    before every marker found. *)
Theorem index_ddl_clauses_sorted (text : pystr) (catalog : list pystr) :
  let l := index_ddl_clauses text catalog in
  Permutation l (map (index_clause text) catalog)
  /\ StronglySorted (fun a b => Index a <= Index b) l
  /\ exists missing located : list clause_entry,
       l = missing ++ located
       /\ Forall (fun e => Index e = NOT_FOUND) missing
       /\ Forall (fun e => 0 <= Index e) located.
Proof.
  cbv zeta; split; [apply sorted_by_index_perm|].
  split; [apply sorted_by_index_sorted|].
  apply (not_found_first (len text));
    [apply sorted_by_index_sorted | apply index_ddl_clauses_range].
Qed.

(** C5 as stated fails: in the index of a text that holds the LOCATION clause
    only, the six markers not found precede the marker found. *)
Lemma index_ddl_clauses_not_found_first :
  map (fun e => (Clause e, Index e))
    (index_ddl_clauses (py "location 's3://b/t'") ddl_clauses_list)
  = [ (py "comment '", -1); (py "partitioned by", -1);
      (py "clustered by", -1); (py "row format", -1); (py "stored as", -1);
      (py "tblproperties", -1); (py "location 's3:", 0) ].
Proof. vm_compute; reflexivity. Qed.

(** ** Segmenter *)

Lemma segment_pairs_cons2 (text : pystr) (a b : clause_entry)
    (l : list clause_entry) :
  segment_pairs text (a :: b :: l)
  = (if found a then [segment_between text (Index a, Index b)] else [])
    ++ segment_pairs text (b :: l).
Proof. reflexivity. Qed.

Lemma ranges_of_cons2 (stop : Z) (a b : clause_entry)
    (l : list clause_entry) :
  ranges_of (a :: b :: l) stop
  = (if found a then [(Index a, Index b)] else []) ++ ranges_of (b :: l) stop.
Proof. reflexivity. Qed.

Lemma segment_pairs_ranges (text : pystr) (d : clause_entry)
    (l : list clause_entry) :
  l <> [] ->
  segment_pairs text l
  ++ (if found (last l d)
      then [segment_between text (Index (last l d), len text)]
      else [])
  = map (segment_between text) (ranges_of l (len text)).
Proof.
  induction l as [|a l IH]; intros Hne; [contradiction|].
  destruct l as [|b l].
  - cbn [segment_pairs last ranges_of app].
    destruct (found a); reflexivity.
  - change (last (a :: b :: l) d) with (last (b :: l) d).
    rewrite segment_pairs_cons2, ranges_of_cons2, map_app, <- app_assoc.
    rewrite IH by discriminate.
    destruct (found a); reflexivity.
Qed.

Lemma segmentize_ranges (text : pystr) (l : list clause_entry) :
  (2 <= length l)%nat ->
  segmentize_ddl_by_clause text l
  = Ok (map (segment_between text) (ranges_of l (len text))).
Proof.
  intros Hlen.
  destruct l as [|a [|b l]]; try (simpl in Hlen; lia).
  unfold segmentize_ddl_by_clause.
  rewrite <- (segment_pairs_ranges text a) by discriminate.
  change (negb (Index (last (a :: b :: l) a) =? NOT_FOUND))
    with (found (last (a :: b :: l) a)).
  destruct (found (last (a :: b :: l) a));
    [reflexivity | rewrite app_nil_r; reflexivity].
Qed.

Lemma ranges_of_starts (stop : Z) (l : list clause_entry) :
  map fst (ranges_of l stop) = map Index (filter found l).
Proof.
  induction l as [|a l IH]; [reflexivity|].
  destruct l as [|b l].
  - cbn [ranges_of filter]; destruct (found a); reflexivity.
  - rewrite ranges_of_cons2, map_app, IH.
    change (filter found (a :: b :: l))
      with (if found a then a :: filter found (b :: l)
            else filter found (b :: l)).
    destruct (found a); reflexivity.
Qed.

Lemma ranges_of_head (stop : Z) (b : clause_entry) (l : list clause_entry) :
  found b = true ->
  exists y rs, ranges_of (b :: l) stop = (Index b, y) :: rs.
Proof.
  intros Hb; destruct l as [|c l].
  - cbn [ranges_of]; rewrite Hb; eauto.
  - rewrite ranges_of_cons2, Hb; cbn [app]; eauto.
Qed.

Lemma found_iff (e : clause_entry) : found e = true <-> Index e <> NOT_FOUND.
Proof.
  unfold found; rewrite negb_true_iff, Z.eqb_neq; tauto.
Qed.

Lemma ranges_of_tile (stop : Z) (l : list clause_entry) :
  StronglySorted index_le l ->
  Forall (fun e => Index e = NOT_FOUND \/ 0 <= Index e <= stop) l ->
  contiguous (ranges_of l stop) stop
  /\ Forall (fun r => 0 <= fst r <= snd r /\ snd r <= stop)
       (ranges_of l stop).
Proof.
  induction 1 as [|a l Hs IH Ha]; intros Hr; [split; constructor|].
  inversion Hr as [|? ? Hra Hrl]; subst.
  destruct (IH Hrl) as [IHc IHb].
  destruct l as [|b l].
  - cbn [ranges_of]; destruct (found a) eqn:Fa; [|split; constructor].
    apply found_iff in Fa.
    split; [reflexivity|].
    constructor; [cbn [fst snd]; unfold NOT_FOUND in *; lia | constructor].
  - rewrite ranges_of_cons2; destruct (found a) eqn:Fa;
      [|exact (conj IHc IHb)].
    apply found_iff in Fa.
    inversion Ha as [|? ? Hab _]; subst; unfold index_le in Hab.
    inversion Hrl as [|? ? Hrb _]; subst.
    assert (Fb : found b = true)
      by (apply found_iff; unfold NOT_FOUND in *; lia).
    destruct (ranges_of_head stop b l Fb) as [y [rs E]].
    cbn [app]; rewrite E in *.
    split.
    + cbn [contiguous fst snd]; split; [reflexivity | exact IHc].
    + constructor; [cbn [fst snd]; unfold NOT_FOUND in *; lia | exact IHb].
Qed.

Lemma index_ddl_clauses_length (text : pystr) (catalog : list pystr) :
  length (index_ddl_clauses text catalog) = length catalog.
Proof.
  unfold index_ddl_clauses.
  rewrite (Permutation_length (sorted_by_index_perm _)).
  apply length_map.
Qed.

(** C6: over a catalog of at least two markers, the segments are cut between
    the offsets of the markers found, in ascending order of offset: each
    segment ends where the next one starts, the last one at the end of the
    text, and a marker not found gives no segment. *)
Theorem segments_are_contiguous (text : pystr) (catalog : list pystr) :
  (2 <= length catalog)%nat ->
  exists segments : list pystr,
    segmentize_ddl_by_clause text (index_ddl_clauses text catalog)
    = Ok segments
    /\ tiled_by text (index_ddl_clauses text catalog) segments.
Proof.
  intros Hlen.
  exists (map (segment_between text)
            (ranges_of (index_ddl_clauses text catalog) (len text))).
  split.
  - apply segmentize_ranges; rewrite index_ddl_clauses_length; exact Hlen.
  - exists (ranges_of (index_ddl_clauses text catalog) (len text)).
    split; [reflexivity|].
    split; [apply ranges_of_starts|].
    apply ranges_of_tile;
      [apply sorted_by_index_sorted | apply index_ddl_clauses_range].
Qed.

Lemma segments_are_contiguous_witness :
  exists segments : list pystr,
    segmentize_ddl_by_clause
      (py "partitioned by (dt string) stored as parquet location 's3://b/t'")
      (index_ddl_clauses
         (py "partitioned by (dt string) stored as parquet location 's3://b/t'")
         ddl_clauses_list)
    = Ok segments
    /\ tiled_by
         (py "partitioned by (dt string) stored as parquet location 's3://b/t'")
         (index_ddl_clauses
            (py "partitioned by (dt string) stored as parquet location 's3://b/t'")
            ddl_clauses_list)
         segments.
Proof.
  apply (segments_are_contiguous
           (py "partitioned by (dt string) stored as parquet location 's3://b/t'")
           ddl_clauses_list).
  simpl; lia.
Defined.

(** ** Column extractor *)

Lemma paren_cases (c : ascii) :
  c = "("%char \/ c = ")"%char \/ (c <> "("%char /\ c <> ")"%char).
Proof.
  destruct (Ascii.eqb_spec c "("%char); [tauto|].
  destruct (Ascii.eqb_spec c ")"%char); tauto.
Qed.

Lemma net_cons (c : ascii) (s : pystr) : net (c :: s) = delta c + net s.
Proof. reflexivity. Qed.

Lemma delta_other (c : ascii) :
  c <> "("%char -> c <> ")"%char -> delta c = 0.
Proof.
  intros H1 H2; unfold delta.
  apply Ascii.eqb_neq in H1, H2; rewrite H1, H2; reflexivity.
Qed.

Lemma net_no_paren (s : pystr) : no_paren s -> net s = 0.
Proof.
  intros [H1 H2]; induction s as [|c s IH]; [reflexivity|].
  rewrite net_cons, IH, delta_other; simpl in *; try tauto; try lia;
    intros ->; tauto.
Qed.

(** The three ways the loop body treats a character. *)
Lemma scan_open_paren (i : Z) (t : pystr) (st : scan_state) :
  scan_parens i ("("%char :: t) st
  = scan_parens (i + 1) t
      (mk_scan_state (i :: stack st) (index_dict st)
         (if start_pos st =? 0 then i else start_pos st)
         (end_pos st) (p_count st + 1)).
Proof. reflexivity. Qed.

Lemma scan_close_paren (i : Z) (t : pystr) (st : scan_state) :
  scan_parens i (")"%char :: t) st
  = match stack st with
    | [] => Raise IndexError
    | opened :: stack' =>
        if p_count st - 1 =? 0
        then Ok (mk_scan_state stack'
                   (index_dict_set (index_dict st) opened i)
                   (start_pos st) i (p_count st - 1))
        else scan_parens (i + 1) t
               (mk_scan_state stack'
                  (index_dict_set (index_dict st) opened i)
                  (start_pos st) (end_pos st) (p_count st - 1))
    end.
Proof. reflexivity. Qed.

Lemma scan_other (i : Z) (c : ascii) (t : pystr) (st : scan_state) :
  c <> "("%char -> c <> ")"%char ->
  scan_parens i (c :: t) st = scan_parens (i + 1) t st.
Proof.
  intros H1 H2; cbn [scan_parens].
  apply Ascii.eqb_neq in H1, H2; rewrite H1, H2; reflexivity.
Qed.

Lemma len_cons {A : Type} (x : A) (l : list A) : len (x :: l) = 1 + len l.
Proof. unfold len; cbn [length]; lia. Qed.

Lemma len_app {A : Type} (l1 l2 : list A) : len (l1 ++ l2) = len l1 + len l2.
Proof. unfold len; rewrite length_app; lia. Qed.

Lemma len_nonneg {A : Type} (l : list A) : 0 <= len l.
Proof. unfold len; lia. Qed.

(** The loop passes over text without parentheses and changes nothing. *)
Lemma scan_no_paren (pre : pystr) :
  no_paren pre ->
  forall (i : Z) (k : pystr) (st : scan_state),
    scan_parens i (pre ++ k) st = scan_parens (i + len pre) k st.
Proof.
  intros [H1 H2]; induction pre as [|c pre IH]; intros i k st.
  - cbn [app]; f_equal; unfold len; simpl; lia.
  - cbn [app]; rewrite scan_other, IH, len_cons.
    + f_equal; lia.
    + intros H; apply H1; right; exact H.
    + intros H; apply H2; right; exact H.
    + intros ->; apply H1; left; reflexivity.
    + intros ->; apply H2; left; reflexivity.
Qed.

Lemma index_dict_set_keys (d : list (Z * Z)) (k v x : Z) :
  In x (map fst (index_dict_set d k v)) <-> x = k \/ In x (map fst d).
Proof.
  induction d as [|[k' v'] d IH]; cbn [index_dict_set map fst In].
  - intuition.
  - destruct (k' =? k) eqn:E; cbn [map fst In].
    + apply Z.eqb_eq in E; subst; intuition.
    + rewrite IH; intuition.
Qed.

Lemma index_dict_set_fresh (d : list (Z * Z)) (k v : Z) :
  ~ In k (map fst d) -> index_dict_set d k v = d ++ [(k, v)].
Proof.
  induction d as [|[k' v'] d IH]; cbn [index_dict_set map fst In app];
    intros H; [reflexivity|].
  destruct (k' =? k) eqn:E.
  - apply Z.eqb_eq in E; tauto.
  - rewrite IH by tauto; reflexivity.
Qed.

Lemma scan_inv_init (i : Z) : scan_inv i scan_init.
Proof.
  constructor; cbn; try constructor; intros x [].
Qed.

Lemma scan_inv_push (i : Z) (st : scan_state) (sp ep : Z) :
  scan_inv i st ->
  scan_inv (i + 1)
    (mk_scan_state (i :: stack st) (index_dict st) sp ep (p_count st + 1)).
Proof.
  intros [Hc Hn Hs Hk Hd]; constructor; cbn [stack index_dict p_count].
  - rewrite len_cons, Hc; lia.
  - constructor; [|exact Hn].
    intros Hin; rewrite Forall_forall in Hs; apply Hs in Hin; lia.
  - constructor; [lia|].
    eapply Forall_impl; [|exact Hs]; cbn; intros; lia.
  - eapply Forall_impl; [|exact Hk]; cbn; intros; lia.
  - intros x [<-|Hx]; [|apply Hd, Hx].
    intros Hin; rewrite Forall_forall in Hk; apply Hk in Hin; lia.
Qed.

Lemma scan_inv_pop (i : Z) (st : scan_state) (o : Z) (stk : list Z)
    (sp ep : Z) :
  scan_inv i st -> stack st = o :: stk ->
  scan_inv (i + 1)
    (mk_scan_state stk (index_dict_set (index_dict st) o i) sp ep
       (p_count st - 1)).
Proof.
  intros [Hc Hn Hs Hk Hd] E; rewrite E in *.
  inversion Hn as [|? ? Hno Hn']; subst.
  inversion Hs as [|? ? Ho Hs']; subst.
  constructor; cbn [stack index_dict p_count].
  - rewrite len_cons in Hc; lia.
  - exact Hn'.
  - eapply Forall_impl; [|exact Hs']; cbn; intros; lia.
  - apply Forall_forall; intros x Hx.
    apply index_dict_set_keys in Hx as [->|Hx]; [lia|].
    rewrite Forall_forall in Hk; apply Hk in Hx; lia.
  - intros x Hx Hin.
    apply index_dict_set_keys in Hin as [->|Hin]; [exact (Hno Hx)|].
    exact (Hd x (or_intror Hx) Hin).
Qed.

Lemma scan_inv_skip (i : Z) (st : scan_state) :
  scan_inv i st -> scan_inv (i + 1) st.
Proof.
  intros [Hc Hn Hs Hk Hd]; constructor; try assumption.
  - eapply Forall_impl; [|exact Hs]; cbn; intros; lia.
  - eapply Forall_impl; [|exact Hk]; cbn; intros; lia.
Qed.

Lemma stack_nonempty (i : Z) (st : scan_state) :
  scan_inv i st -> 1 <= p_count st ->
  exists o stk, stack st = o :: stk.
Proof.
  intros [Hc _ _ _ _] H; destruct (stack st) as [|o stk]; [|eauto].
  unfold len in Hc; simpl in Hc; lia.
Qed.

(** From a state with opens pending, the loop runs through a text that
    closes all of them but the last, and breaks at the parenthesis that
    closes the last one, which is the bottom of the stack; the pair it
    records then is the last item of [index_dict]. *)
Lemma scan_close (body rest : pystr) :
  forall (i : Z) (st : scan_state),
    scan_inv i st ->
    p_count st + net body = 1 ->
    (forall p q, body = p ++ q -> 1 <= p_count st + net p) ->
    exists st' d,
      scan_parens i (body ++ ")"%char :: rest) st = Ok st'
      /\ stack st' = []
      /\ index_dict st' = d ++ [(last (stack st) 0, i + len body)].
Proof.
  induction body as [|c body IH]; intros i st Hinv Hnet Hpre.
  - cbn [app net] in *; rewrite scan_close_paren.
    destruct (stack_nonempty i st Hinv ltac:(lia)) as [o [stk E]].
    pose proof (inv_count _ _ Hinv) as Hc; rewrite E, len_cons in Hc.
    assert (stk = []) as ->
        by (destruct stk; [reflexivity | rewrite len_cons in Hc;
                                         pose proof (len_nonneg stk); lia]).
    rewrite E; replace (p_count st - 1 =? 0) with true
      by (symmetry; apply Z.eqb_eq; lia).
    eexists; exists (index_dict st); split; [reflexivity|].
    cbn [stack index_dict last]; split; [reflexivity|].
    rewrite index_dict_set_fresh.
    + unfold len; simpl; do 3 f_equal; lia.
    + apply (inv_disjoint _ _ Hinv); rewrite E; left; reflexivity.
  - assert (H0 : 1 <= p_count st) by (specialize (Hpre [] (c :: body) eq_refl);
                                      cbn [net] in Hpre; lia).
    destruct (stack_nonempty i st Hinv H0) as [o [stk E]].
    rewrite net_cons in Hnet; cbn [app]; rewrite len_cons.
    destruct (paren_cases c) as [->|[->|[Hc1 Hc2]]].
    + rewrite scan_open_paren.
      edestruct (IH (i + 1)) as [st' [d [Hs [Hst Hd]]]];
        [ apply scan_inv_push; exact Hinv
        | cbn [p_count]; change (delta "("%char) with 1 in Hnet; lia
        | cbn [p_count]; intros p q Hpq;
          specialize (Hpre ("("%char :: p) q ltac:(rewrite Hpq; reflexivity));
          rewrite net_cons in Hpre; change (delta "("%char) with 1 in Hpre;
          lia
        | ].
      exists st', d; split; [exact Hs|]; split; [exact Hst|].
      rewrite Hd; cbn [stack]; rewrite E.
      do 3 f_equal; lia.
    + assert (H2 : 2 <= p_count st)
        by (specialize (Hpre [")"%char] body eq_refl);
            rewrite net_cons in Hpre; cbn [net] in Hpre;
            change (delta ")"%char) with (-1) in Hpre; lia).
      rewrite scan_close_paren, E.
      replace (p_count st - 1 =? 0) with false
        by (symmetry; apply Z.eqb_neq; lia).
      edestruct (IH (i + 1)) as [st' [d [Hs [Hst Hd]]]];
        [ eapply scan_inv_pop; [exact Hinv | exact E]
        | cbn [p_count]; change (delta ")"%char) with (-1) in Hnet; lia
        | cbn [p_count]; intros p q Hpq;
          specialize (Hpre (")"%char :: p) q ltac:(rewrite Hpq; reflexivity));
          rewrite net_cons in Hpre; change (delta ")"%char) with (-1) in Hpre;
          lia
        | ].
      exists st', d; split; [exact Hs|]; split; [exact Hst|].
      rewrite Hd; cbn [stack].
      pose proof (inv_count _ _ Hinv) as Hc; rewrite E, len_cons in Hc.
      destruct stk as [|o2 stk];
        [unfold len in Hc; simpl in Hc; lia|].
      change (last (o :: o2 :: stk) 0) with (last (o2 :: stk) 0).
      do 3 f_equal; lia.
    + rewrite scan_other by assumption.
      rewrite (delta_other c Hc1 Hc2) in Hnet.
      edestruct (IH (i + 1)) as [st' [d [Hs [Hst Hd]]]];
        [ apply scan_inv_skip; exact Hinv
        | lia
        | intros p q Hpq;
          specialize (Hpre (c :: p) q ltac:(rewrite Hpq; reflexivity));
          rewrite net_cons, (delta_other c Hc1 Hc2) in Hpre; lia
        | ].
      exists st', d; split; [exact Hs|]; split; [exact Hst|].
      rewrite Hd; do 3 f_equal; lia.
Qed.

(** From a state with opens pending, the loop runs to the end of a text that
    never closes the last of them, and leaves the stack non-empty. *)
Lemma scan_open (r : pystr) :
  forall (i : Z) (st : scan_state),
    scan_inv i st ->
    (forall p q, r = p ++ q -> 1 <= p_count st + net p) ->
    exists st', scan_parens i r st = Ok st' /\ stack st' <> [].
Proof.
  induction r as [|c r IH]; intros i st Hinv Hpre.
  - assert (H0 : 1 <= p_count st)
      by (specialize (Hpre [] [] eq_refl); cbn [net] in Hpre; lia).
    destruct (stack_nonempty i st Hinv H0) as [o [stk E]].
    exists st; split; [reflexivity | rewrite E; discriminate].
  - assert (H0 : 1 <= p_count st)
      by (specialize (Hpre [] (c :: r) eq_refl); cbn [net] in Hpre; lia).
    destruct (stack_nonempty i st Hinv H0) as [o [stk E]].
    destruct (paren_cases c) as [->|[->|[Hc1 Hc2]]].
    + rewrite scan_open_paren; apply IH;
        [apply scan_inv_push; exact Hinv|].
      cbn [p_count]; intros p q Hpq.
      specialize (Hpre ("("%char :: p) q ltac:(rewrite Hpq; reflexivity)).
      rewrite net_cons in Hpre; change (delta "("%char) with 1 in Hpre; lia.
    + assert (H2 : 2 <= p_count st)
        by (specialize (Hpre [")"%char] r eq_refl);
            rewrite net_cons in Hpre; cbn [net] in Hpre;
            change (delta ")"%char) with (-1) in Hpre; lia).
      rewrite scan_close_paren, E.
      replace (p_count st - 1 =? 0) with false
        by (symmetry; apply Z.eqb_neq; lia).
      apply IH; [eapply scan_inv_pop; [exact Hinv | exact E]|].
      cbn [p_count]; intros p q Hpq.
      specialize (Hpre (")"%char :: p) q ltac:(rewrite Hpq; reflexivity)).
      rewrite net_cons in Hpre; change (delta ")"%char) with (-1) in Hpre; lia.
    + rewrite scan_other by assumption.
      apply IH; [apply scan_inv_skip; exact Hinv|].
      intros p q Hpq.
      specialize (Hpre (c :: p) q ltac:(rewrite Hpq; reflexivity)).
      rewrite net_cons, (delta_other c Hc1 Hc2) in Hpre; lia.
Qed.

(** A slice between two offsets inside the text. *)
Lemma slice_inside {A : Type} (s : list A) (a b : Z) :
  0 <= a <= b -> b <= len s ->
  slice s (Some a) (Some b)
  = firstn (Z.to_nat (b - a)) (skipn (Z.to_nat a) s).
Proof.
  intros Ha Hb; unfold slice, slice_bound.
  replace (a <? 0) with false by (symmetry; apply Z.ltb_ge; lia).
  replace (b <? 0) with false by (symmetry; apply Z.ltb_ge; lia).
  rewrite !Z.min_l by lia; reflexivity.
Qed.

Lemma slice_from {A : Type} (s : list A) (a : Z) :
  0 <= a <= len s ->
  slice s (Some a) None = skipn (Z.to_nat a) s.
Proof.
  intros Ha; unfold slice, slice_bound.
  replace (a <? 0) with false by (symmetry; apply Z.ltb_ge; lia).
  rewrite Z.min_l by lia.
  apply firstn_all2; rewrite length_skipn; unfold len in *; lia.
Qed.

Lemma skipn_len_app {A : Type} (l1 l2 : list A) :
  skipn (Z.to_nat (len l1)) (l1 ++ l2) = l2.
Proof.
  unfold len; rewrite Nat2Z.id, skipn_app, skipn_all, Nat.sub_diag.
  reflexivity.
Qed.

Lemma slice_group (pre body rest : pystr) (x y : ascii) :
  slice (pre ++ x :: body ++ y :: rest) (Some (len pre + 1))
    (Some (len pre + 1 + len body)) = body.
Proof.
  pose proof (len_nonneg pre); pose proof (len_nonneg body);
    pose proof (len_nonneg rest).
  rewrite slice_inside;
    [| lia | rewrite len_app, len_cons, len_app, len_cons; lia].
  replace (pre ++ x :: body ++ y :: rest)
    with ((pre ++ [x]) ++ body ++ y :: rest)
    by (rewrite <- app_assoc; reflexivity).
  replace (len pre + 1) with (len (pre ++ [x]))
    by (rewrite len_app, len_cons; change (len (@nil ascii)) with 0; lia).
  rewrite skipn_len_app.
  replace (len (pre ++ [x]) + len body - len (pre ++ [x])) with (len body)
    by lia.
  unfold len; rewrite Nat2Z.id, firstn_app, firstn_all, Nat.sub_diag.
  cbn [firstn]; apply app_nil_r.
Qed.

Lemma slice_rest (pre body rest : pystr) (x y : ascii) :
  slice (pre ++ x :: body ++ y :: rest)
    (Some (len pre + 1 + len body + 1)) None = rest.
Proof.
  pose proof (len_nonneg pre); pose proof (len_nonneg body);
    pose proof (len_nonneg rest).
  rewrite slice_from
    by (rewrite len_app, len_cons, len_app, len_cons; lia).
  replace (pre ++ x :: body ++ y :: rest)
    with ((pre ++ x :: body ++ [y]) ++ rest)
    by (rewrite <- app_assoc; cbn [app]; rewrite <- app_assoc; reflexivity).
  replace (len pre + 1 + len body + 1) with (len (pre ++ x :: body ++ [y]))
    by (rewrite len_app, len_cons, len_app, len_cons;
        change (len (@nil ascii)) with 0; lia).
  apply skipn_len_app.
Qed.

Lemma rev_snoc_head {A : Type} (d : list A) (x : A) :
  rev (d ++ [x]) = x :: rev d.
Proof. rewrite rev_app_distr; reflexivity. Qed.

(** The scan of [pre ( body ) rest] with [body] balanced breaks at the
    parenthesis that closes the group, and the pair of the group is the last
    item of [index_dict]. *)
Lemma scan_first_group (text pre body rest : pystr) :
  first_group text pre body rest ->
  exists st' d,
    scan_parens 0 text scan_init = Ok st'
    /\ stack st' = []
    /\ index_dict st' = d ++ [(len pre, len pre + 1 + len body)].
Proof.
  intros [-> [Hpre [Hnet Hnn]]].
  rewrite (scan_no_paren pre Hpre), scan_open_paren.
  edestruct (scan_close body rest (0 + len pre + 1)) as [st' [d [Hs [Hst Hd]]]];
    [ apply scan_inv_push, scan_inv_init
    | cbn [p_count scan_init]; lia
    | cbn [p_count scan_init]; intros p q Hpq;
      specialize (Hnn p q Hpq); lia
    | ].
  exists st', d; split; [exact Hs|]; split; [exact Hst|].
  rewrite Hd; cbn [stack scan_init last]; do 3 f_equal; lia.
Qed.

Lemma first_group_returns (text pre body rest : pystr) :
  first_group text pre body rest ->
  exists v, split_ddl_columns_segment text = Ok v.
Proof.
  intros H; destruct (scan_first_group _ _ _ _ H) as [st' [d [Hs [Hst Hd]]]].
  unfold split_ddl_columns_segment.
  rewrite Hs; cbn [bind]; rewrite Hst, Hd, rev_snoc_head; eauto.
Qed.

(** C3: when the first parenthesis of the text opens a balanced group,
    [text = pre ( body ) rest], the columns segment is the whole [body],
    nested parentheses included, trimmed, and the remainder is [rest]. *)
Theorem split_ddl_columns_segment_group (text pre body rest : pystr) :
  first_group text pre body rest ->
  split_ddl_columns_segment text = Ok (strip body, rest).
Proof.
  intros H; destruct (scan_first_group _ _ _ _ H) as [st' [d [Hs [Hst Hd]]]].
  destruct H as [-> _].
  unfold split_ddl_columns_segment.
  rewrite Hs; cbn [bind]; rewrite Hst, Hd, rev_snoc_head.
  cbn [fst snd].
  rewrite slice_group, slice_rest; reflexivity.
Qed.

Lemma stays_open_spec (s : pystr) (d : Z) :
  stays_open d s = true <-> (forall p q, s = p ++ q -> 0 <= d + net p).
Proof.
  revert d; induction s as [|c s IH]; intros d; cbn [stays_open].
  - rewrite Z.leb_le; split.
    + intros H p q Hpq; symmetry in Hpq; apply app_eq_nil in Hpq as [-> _].
      cbn [net]; lia.
    + intros H; specialize (H [] [] eq_refl); cbn [net] in H; lia.
  - rewrite andb_true_iff, Z.leb_le, IH; split.
    + intros [H0 H] [|c' p] q Hpq; [cbn [net]; lia|].
      injection Hpq as <- Hpq; rewrite net_cons.
      specialize (H p q Hpq); lia.
    + intros H; split.
      * specialize (H [] (c :: s) eq_refl); cbn [net] in H; lia.
      * intros p q Hpq; specialize (H (c :: p) q ltac:(rewrite Hpq; reflexivity)).
        rewrite net_cons in H; lia.
Qed.

Lemma balanced_check (s : pystr) :
  net s = 0 -> stays_open 0 s = true -> balanced s.
Proof.
  intros Hn Hs; split; [exact Hn|].
  intros p q Hpq; apply (proj1 (stays_open_spec s 0) Hs p q Hpq).
Qed.

Lemma no_paren_check (s : pystr) :
  forallb (fun c => negb (Ascii.eqb c "("%char || Ascii.eqb c ")"%char)) s
  = true ->
  no_paren s.
Proof.
  rewrite forallb_forall; intros H; split; intros Hin; apply H in Hin;
    discriminate Hin.
Qed.

Lemma split_ddl_columns_segment_group_witness :
  split_ddl_columns_segment
    (py "create external table t (id int, amt decimal(10,2)) location 's3://b/t'")
  = Ok (py "id int, amt decimal(10,2)", py " location 's3://b/t'").
Proof.
  apply (split_ddl_columns_segment_group
           (py "create external table t (id int, amt decimal(10,2)) location 's3://b/t'")
           (py "create external table t ")
           (py "id int, amt decimal(10,2)")
           (py " location 's3://b/t'")).
  split; [reflexivity|].
  split; [apply no_paren_check; vm_compute; reflexivity|].
  apply balanced_check; vm_compute; reflexivity.
Defined.

Lemma unmatched_close_raises (text : pystr) :
  unmatched_close text -> split_ddl_columns_segment text = Raise IndexError.
Proof.
  intros [pre [rest [-> Hpre]]]; unfold split_ddl_columns_segment.
  rewrite (scan_no_paren pre Hpre), scan_close_paren; reflexivity.
Qed.

Lemma unclosed_raises (text : pystr) :
  unclosed text ->
  split_ddl_columns_segment text = Raise (Exception unbalanced_msg).
Proof.
  intros [pre [r [-> [Hpre Hnn]]]]; unfold split_ddl_columns_segment.
  rewrite (scan_no_paren pre Hpre), scan_open_paren.
  edestruct (scan_open r (0 + len pre + 1)) as [st' [Hs Hst]];
    [ apply scan_inv_push, scan_inv_init
    | cbn [p_count scan_init]; intros p q Hpq; specialize (Hnn p q Hpq); lia
    | ].
  rewrite Hs; cbn [bind].
  destruct (stack st'); [contradiction | reflexivity].
Qed.

(** A text with a parenthesis splits at its first one. *)
Lemma first_paren (text : pystr) :
  In "("%char text \/ In ")"%char text ->
  exists pre c r,
    text = pre ++ c :: r /\ no_paren pre /\ (c = "("%char \/ c = ")"%char).
Proof.
  induction text as [|c text IH]; intros H; [destruct H as [[]|[]]|].
  destruct (paren_cases c) as [->|[->|[Hc1 Hc2]]].
  - exists [], "("%char, text; repeat split; auto.
  - exists [], ")"%char, text; repeat split; auto.
  - destruct IH as [pre [c' [r [-> [[Hp1 Hp2] Hc']]]]].
    { destruct H as [[H|H]|[H|H]]; try (symmetry in H; contradiction); tauto. }
    exists (c :: pre), c', r; split; [reflexivity|].
    split; [|exact Hc'].
    split; intros [H'|H']; try (symmetry in H'; contradiction); tauto.
Qed.

(** From depth [d], a text either never takes the depth below zero, or has a
    first closing parenthesis that does. *)
Lemma closes_or_not (r : pystr) :
  forall d : Z, 0 <= d ->
    (forall p q, r = p ++ q -> 0 <= d + net p)
    \/ exists body rest,
         r = body ++ ")"%char :: rest
         /\ d + net body = 0
         /\ (forall p q, body = p ++ q -> 0 <= d + net p).
Proof.
  induction r as [|c r IH]; intros d Hd.
  - left; intros p q Hpq; symmetry in Hpq; apply app_eq_nil in Hpq as [-> _].
    cbn [net]; lia.
  - destruct (Z.eq_dec (d + delta c) (-1)) as [E|E].
    + right; exists [], r.
      assert (c = ")"%char) as ->.
      { destruct (paren_cases c) as [->|[->|[Hc1 Hc2]]]; [|reflexivity|].
        - change (delta "("%char) with 1 in E; lia.
        - rewrite (delta_other c Hc1 Hc2) in E; lia. }
      change (delta ")"%char) with (-1) in E.
      split; [reflexivity|]; split; [cbn [net]; lia|].
      intros p q Hpq; symmetry in Hpq; apply app_eq_nil in Hpq as [-> _].
      cbn [net]; lia.
    + assert (Hd' : 0 <= d + delta c).
      { destruct (paren_cases c) as [->|[->|[Hc1 Hc2]]].
        - change (delta "("%char) with 1; lia.
        - change (delta ")"%char) with (-1) in *; lia.
        - rewrite (delta_other c Hc1 Hc2); lia. }
      destruct (IH (d + delta c) Hd') as [H|[body [rest [-> [Hn Hp]]]]].
      * left; intros [|c' p] q Hpq; [cbn [net]; lia|].
        injection Hpq as <- Hpq; rewrite net_cons.
        specialize (H p q Hpq); lia.
      * right; exists (c :: body), rest.
        split; [reflexivity|]; split; [rewrite net_cons; lia|].
        intros [|c' p] q Hpq; [cbn [net]; lia|].
        injection Hpq as <- Hpq; rewrite net_cons.
        specialize (Hp p q Hpq); lia.
Qed.

Lemma paren_trichotomy (text : pystr) :
  In "("%char text \/ In ")"%char text ->
  unmatched_close text \/ unclosed text
  \/ exists pre body rest, first_group text pre body rest.
Proof.
  intros H; destruct (first_paren text H) as [pre [c [r [-> [Hpre [->| ->]]]]]].
  - destruct (closes_or_not r 0 ltac:(lia)) as [Hn|[body [rest [-> [Hn Hp]]]]].
    + right; left; exists pre, r; repeat split; try apply Hpre.
      intros p q Hpq; specialize (Hn p q Hpq); lia.
    + right; right; exists pre, body, rest.
      split; [reflexivity|]; split; [exact Hpre|].
      split; [lia|].
      intros p q Hpq; specialize (Hp p q Hpq); lia.
  - left; exists pre, r; split; [reflexivity | exact Hpre].
Qed.

(** C8, as the code has it: on a text that holds a parenthesis,
    [split_ddl_columns_segment] raises exactly when a closing parenthesis
    comes with no open one, or the scan ends with an open one left; when the
    first group is balanced it returns. *)
Theorem split_ddl_columns_segment_raises (text : pystr) :
  In "("%char text \/ In ")"%char text ->
  ((exists e, split_ddl_columns_segment text = Raise e)
   <-> unmatched_close text \/ unclosed text)
  /\ (unmatched_close text ->
      split_ddl_columns_segment text = Raise IndexError)
  /\ (unclosed text ->
      split_ddl_columns_segment text = Raise (Exception unbalanced_msg))
  /\ ((exists v, split_ddl_columns_segment text = Ok v)
      <-> exists pre body rest, first_group text pre body rest).
Proof.
  intros H.
  pose proof (paren_trichotomy text H) as T.
  repeat split.
  - intros [e He].
    destruct T as [T1|[T2|[pre [body [rest T3]]]]]; [tauto | tauto |].
    destruct (first_group_returns _ _ _ _ T3) as [v Hv].
    rewrite Hv in He; discriminate.
  - intros [T1|T2]; eexists;
      [apply unmatched_close_raises; exact T1
      | apply unclosed_raises; exact T2].
  - apply unmatched_close_raises.
  - apply unclosed_raises.
  - intros [v Hv].
    destruct T as [T1|[T2|T3]]; [| |exact T3].
    + rewrite (unmatched_close_raises _ T1) in Hv; discriminate.
    + rewrite (unclosed_raises _ T2) in Hv; discriminate.
  - intros [pre [body [rest T3]]].
    apply (first_group_returns _ _ _ _ T3).
Qed.

Lemma split_ddl_columns_segment_raises_witness :
  split_ddl_columns_segment (py "create table t (id int, amt decimal(10,2)")
  = Raise (Exception unbalanced_msg).
Proof.
  apply (split_ddl_columns_segment_raises
           (py "create table t (id int, amt decimal(10,2)")).
  - left; vm_compute; tauto.
  - exists (py "create table t "), (py "id int, amt decimal(10,2)").
    split; [reflexivity|].
    split; [apply no_paren_check; vm_compute; reflexivity|].
    intros p q Hpq.
    apply (proj1 (stays_open_spec (py "id int, amt decimal(10,2)") 0)
             eq_refl p q Hpq).
Defined.

(** C8 as stated fails: a text without any parenthesis closes nothing
    unopened and leaves nothing open, and the call raises all the same, on
    the last item of an empty [index_dict]. *)
Lemma split_ddl_columns_segment_no_paren :
  split_ddl_columns_segment (py "create external table t") = Raise IndexError
  /\ ~ unmatched_close (py "create external table t")
  /\ ~ unclosed (py "create external table t").
Proof.
  split; [vm_compute; reflexivity|].
  assert (Hno : no_paren (py "create external table t"))
    by (apply no_paren_check; vm_compute; reflexivity).
  destruct Hno as [H1 H2].
  split.
  - intros [pre [rest [E _]]]; apply H2; rewrite E.
    apply in_or_app; right; left; reflexivity.
  - intros [pre [r [E _]]]; apply H1; rewrite E.
    apply in_or_app; right; left; reflexivity.
Qed.

(** ** Row-format classifier *)

Lemma present_hits (marker : pystr) (l : list clause_entry) :
  present marker l <-> exists e, In e l /\ hits marker e = true.
Proof.
  unfold present, hits; split; intros [e [Hin H]]; exists e; split;
    try exact Hin.
  - destruct H as [Hc Hi]; apply andb_true_iff; split.
    + apply str_eqb_eq; exact Hc.
    + apply negb_true_iff, Z.eqb_neq; exact Hi.
  - apply andb_true_iff in H as [Hc Hi]; split.
    + apply str_eqb_eq; exact Hc.
    + apply Z.eqb_neq, negb_true_iff; exact Hi.
Qed.

Lemma absent_hits (marker : pystr) (l : list clause_entry) :
  ~ present marker l -> forall e, In e l -> hits marker e = false.
Proof.
  intros H e Hin; destruct (hits marker e) eqn:E; [|reflexivity].
  exfalso; apply H, present_hits; eauto.
Qed.

Lemma row_format_scan_step (e : clause_entry) (l : list clause_entry)
    (acc : option pystr) :
  row_format_scan (e :: l) acc
  = if hits (py "with serdeproperties (") e
    then Some ROW_FORMAT_WITH_SERDEPROPERTIES
    else if hits (py "serde '") e
    then row_format_scan l (Some ROW_FORMAT_SERDE)
    else if hits (py "delimited") e
    then Some ROW_FORMAT_DELIMITED
    else row_format_scan l acc.
Proof. reflexivity. Qed.

(** Without a [delimited] entry, the loop reaches the
    [with serdeproperties (] entry. *)
Lemma row_format_scan_with (l : list clause_entry) :
  (forall e, In e l -> hits (py "delimited") e = false) ->
  (exists e, In e l /\ hits (py "with serdeproperties (") e = true) ->
  forall acc, row_format_scan l acc = Some ROW_FORMAT_WITH_SERDEPROPERTIES.
Proof.
  induction l as [|e l IH]; intros Hd [x [Hin Hx]] acc; [destruct Hin|].
  rewrite row_format_scan_step.
  destruct (hits (py "with serdeproperties (") e) eqn:Ew; [reflexivity|].
  assert (Hex : exists e0, In e0 l
                           /\ hits (py "with serdeproperties (") e0 = true).
  { destruct Hin as [->|Hin]; [congruence | eauto]. }
  rewrite (Hd e (or_introl eq_refl)).
  destruct (hits (py "serde '") e);
    apply IH; auto; intros e0 H0; apply Hd; right; exact H0.
Qed.

(** Without the two terminal markers, the loop ends with [serde] if it met
    the [serde '] entry, and with what it started from otherwise. *)
Lemma row_format_scan_serde (l : list clause_entry) :
  (forall e, In e l -> hits (py "delimited") e = false) ->
  (forall e, In e l -> hits (py "with serdeproperties (") e = false) ->
  forall acc,
    row_format_scan l acc
    = if existsb (hits (py "serde '")) l then Some ROW_FORMAT_SERDE else acc.
Proof.
  induction l as [|e l IH]; intros Hd Hw acc; [reflexivity|].
  rewrite row_format_scan_step, (Hw e (or_introl eq_refl)),
    (Hd e (or_introl eq_refl)).
  cbn [existsb].
  destruct (hits (py "serde '") e); cbn [orb];
    rewrite IH by (intros e0 H0; first [apply Hd | apply Hw]; right; exact H0).
  - destruct (existsb (hits (py "serde '")) l); reflexivity.
  - reflexivity.
Qed.

(** Without the two [serde] markers, the loop reaches the [delimited]
    entry. *)
Lemma row_format_scan_delimited (l : list clause_entry) :
  (forall e, In e l -> hits (py "with serdeproperties (") e = false) ->
  (forall e, In e l -> hits (py "serde '") e = false) ->
  (exists e, In e l /\ hits (py "delimited") e = true) ->
  forall acc, row_format_scan l acc = Some ROW_FORMAT_DELIMITED.
Proof.
  induction l as [|e l IH]; intros Hw Hs [x [Hin Hx]] acc; [destruct Hin|].
  rewrite row_format_scan_step, (Hw e (or_introl eq_refl)),
    (Hs e (or_introl eq_refl)).
  destruct (hits (py "delimited") e) eqn:Ed; [reflexivity|].
  apply IH; try (intros e0 H0; first [apply Hw | apply Hs]; right; exact H0).
  destruct Hin as [->|Hin]; [congruence | eauto].
Qed.

(** C7, as the code has it: on a clause index in which [delimited] is not
    present together with one of the two [serde] markers, the type is
    [with serdeproperties] whenever that marker is present, [serde] when
    [serde '] is present without it, [delimited] when [delimited] is present,
    and the call raises when none of the three is. *)
Theorem determine_row_format_type_cases (l : list clause_entry) :
  ~ (present (py "delimited") l
     /\ (present (py "serde '") l
         \/ present (py "with serdeproperties (") l)) ->
  (present (py "with serdeproperties (") l ->
   determine_row_format_type l = Ok ROW_FORMAT_WITH_SERDEPROPERTIES)
  /\ (present (py "serde '") l ->
      ~ present (py "with serdeproperties (") l ->
      determine_row_format_type l = Ok ROW_FORMAT_SERDE)
  /\ (present (py "delimited") l ->
      determine_row_format_type l = Ok ROW_FORMAT_DELIMITED)
  /\ (~ present (py "with serdeproperties (") l ->
      ~ present (py "serde '") l ->
      ~ present (py "delimited") l ->
      determine_row_format_type l = Raise (Exception no_row_format_msg)).
Proof.
  intros Hex; unfold determine_row_format_type; repeat split.
  - intros Hw.
    rewrite row_format_scan_with; [reflexivity | | apply present_hits, Hw].
    apply absent_hits; tauto.
  - intros Hs Hw.
    rewrite row_format_scan_serde by (apply absent_hits; tauto).
    apply present_hits in Hs as [e [Hin He]].
    replace (existsb (hits (py "serde '")) l) with true; [reflexivity|].
    symmetry; apply existsb_exists; eauto.
  - intros Hd.
    rewrite row_format_scan_delimited;
      [reflexivity | | | apply present_hits, Hd]; apply absent_hits; tauto.
  - intros Hw Hs Hd.
    rewrite row_format_scan_serde by (apply absent_hits; assumption).
    replace (existsb (hits (py "serde '")) l) with false; [reflexivity|].
    symmetry; apply not_true_iff_false; intros H.
    apply existsb_exists in H; apply Hs, present_hits; exact H.
Qed.

Lemma present_check (marker : pystr) (l : list clause_entry) :
  existsb (hits marker) l = true <-> present marker l.
Proof. rewrite present_hits; apply existsb_exists. Qed.

Lemma determine_row_format_type_cases_witness :
  determine_row_format_type
    (index_ddl_clauses
       (py "row format serde 'org.openx.data.jsonserde.JsonSerDe' with serdeproperties ('a'='b')")
       ddl_row_format_subclauses_list)
  = Ok ROW_FORMAT_WITH_SERDEPROPERTIES.
Proof.
  apply (determine_row_format_type_cases
           (index_ddl_clauses
              (py "row format serde 'org.openx.data.jsonserde.JsonSerDe' with serdeproperties ('a'='b')")
              ddl_row_format_subclauses_list)).
  - intros [Hd _]; apply present_check in Hd; vm_compute in Hd; discriminate.
  - apply present_check; vm_compute; reflexivity.
Defined.

(** C7 as stated fails: with [delimited] ahead of [with serdeproperties (]
    in the sorted index, both present, the loop breaks at [delimited]. *)
Lemma determine_row_format_type_mixed :
  present (py "with serdeproperties (")
    (index_ddl_clauses (py "row format delimited with serdeproperties ('a'='b')")
       ddl_row_format_subclauses_list)
  /\ determine_row_format_type
       (index_ddl_clauses
          (py "row format delimited with serdeproperties ('a'='b')")
          ddl_row_format_subclauses_list)
     = Ok ROW_FORMAT_DELIMITED
  /\ ROW_FORMAT_DELIMITED <> ROW_FORMAT_WITH_SERDEPROPERTIES.
Proof.
  split; [apply present_check; vm_compute; reflexivity|].
  split; [vm_compute; reflexivity | discriminate].
Qed.

(** ** Row format, DDL without a ROW FORMAT clause *)

Lemma next_where_none {A : Type} (p : A -> bool) (l : list A) :
  (forall x, In x l -> p x = false) -> next_where p l = None.
Proof.
  intros H; unfold next_where.
  destruct (List.find p l) as [x|] eqn:E; [|reflexivity].
  apply find_some in E as [Hin Hp]; rewrite (H x Hin) in Hp; discriminate.
Qed.

(** C2: the DDL has no ROW FORMAT segment, the metadata names a
    serialization library under [org.apache.] and its serde parameters hold
    none of the delimiter keys (as when they hold
    [serialization.format = "1"] only): no change is reported. *)
Theorem has_row_format_changed_default
    (json_loads : pystr -> result pyobj) (DeepDiff_len : pyobj -> pyobj -> Z)
    (md : table_metadata) (ddl_segments : list pystr) :
  (forall segment, In segment ddl_segments ->
                   startswith segment (py "row format ") = false) ->
  startswith (SerializationLibrary (SerdeInfo (StorageDescriptor md)))
    (py "org.apache.") = true ->
  (forall key, In key delimiter_keys ->
     dict_get (SerdeParameters (SerdeInfo (StorageDescriptor md))) key = None) ->
  has_row_format_changed json_loads DeepDiff_len md ddl_segments = Ok false.
Proof.
  intros Hseg Hlib Hkeys.
  unfold has_row_format_changed.
  rewrite (next_where_none _ _ Hseg).
  unfold has_row_format_serde_changed; rewrite Hlib; cbn [bind].
  unfold have_row_format_delimiters_changed, get_meta_row_format_delimiters.
  cbn [meta_json_escape_delim_char meta_json_field_delim_char
       meta_json_collection_delim_char meta_json_map_keys_delim_char
       meta_json_line_delim_char meta_json_ser_null_format_char].
  rewrite !Hkeys by (unfold delimiter_keys; simpl; tauto).
  cbn [option_map is_some orb]; rewrite Hlib; reflexivity.
Qed.

Lemma has_row_format_changed_default_witness :
  has_row_format_changed no_json_loads no_DeepDiff_len example_metadata
    [ py "partitioned by (dt string)"; py "stored as parquet";
      py "location 's3://b/t'" ]
  = Ok false.
Proof.
  apply (has_row_format_changed_default no_json_loads no_DeepDiff_len
           example_metadata
           [ py "partitioned by (dt string)"; py "stored as parquet";
             py "location 's3://b/t'" ]).
  - intros segment [<-|[<-|[<-|[]]]]; vm_compute; reflexivity.
  - vm_compute; reflexivity.
  - intros key [<-|[<-|[<-|[<-|[<-|[<-|[]]]]]]]; vm_compute; reflexivity.
Defined.

(** ** File format, the explicit INPUTFORMAT form *)

Lemma not_a_format_name (ddl_file_format name : pystr) :
  startswith ddl_file_format (py "inputformat") = true ->
  startswith name (py "inputformat") = false ->
  str_eqb ddl_file_format name = false.
Proof.
  intros H1 H2; destruct (str_eqb ddl_file_format name) eqn:E; [|reflexivity].
  apply str_eqb_eq in E; subst; congruence.
Qed.

(** C10: when the STORED AS segment has the form [inputformat '...'] with
    no [outputformat] in it and the input format given is the one of the
    metadata, [has_file_format_changed] reads [ddl_outputformat_value], which
    no statement has assigned, and ends in an [UnboundLocalError]. *)
Theorem has_file_format_changed_unbound_local
    (md : table_metadata) (ddl_segments : list pystr)
    (seg key value : pystr) :
  next_where (fun segment => startswith segment (py "stored as"))
    ddl_segments = Some seg ->
  startswith (replace seg (py "stored as ") []) (py "inputformat") = true ->
  find (replace seg (py "stored as ") []) (py "outputformat") < 0 ->
  split (replace seg (py "stored as ") []) (py " ") = [key; value] ->
  strip_chars value (py "'") = lower (InputFormat (StorageDescriptor md)) ->
  has_file_format_changed md ddl_segments = Raise UnboundLocalError.
Proof.
  intros Hseg Hstart Hfind Hsplit Hvalue.
  unfold has_file_format_changed; rewrite Hseg.
  rewrite !(not_a_format_name _ _ Hstart) by (vm_compute; reflexivity).
  rewrite Hstart.
  replace (0 <=? find (replace seg (py "stored as ") []) (py "outputformat"))
    with false by (symmetry; apply Z.leb_gt; exact Hfind).
  rewrite Hsplit; cbn [unpack2 bind fst snd]; rewrite Hvalue.
  replace (str_eqb (lower (InputFormat (StorageDescriptor md)))
             (lower (InputFormat (StorageDescriptor md)))) with true
    by (symmetry; apply str_eqb_eq; reflexivity).
  reflexivity.
Qed.

Lemma has_file_format_changed_unbound_local_witness :
  has_file_format_changed example_metadata
    [ py "partitioned by (dt string)";
      py "stored as inputformat 'org.apache.hadoop.hive.ql.io.parquet.mapredparquetinputformat'";
      py "location 's3://b/t'" ]
  = Raise UnboundLocalError.
Proof.
  apply (has_file_format_changed_unbound_local example_metadata _
           (py "stored as inputformat 'org.apache.hadoop.hive.ql.io.parquet.mapredparquetinputformat'")
           (py "inputformat")
           (py "'org.apache.hadoop.hive.ql.io.parquet.mapredparquetinputformat'"));
    vm_compute; reflexivity.
Defined.

(** The same input through the whole comparison, from the raw DDL text. *)
Lemma detect_table_changes_unbound_local
    (json_loads : pystr -> result pyobj)
    (DeepDiff_len : pyobj -> pyobj -> Z) :
  detect_table_changes_verdict json_loads DeepDiff_len
    (py "CREATE EXTERNAL TABLE t (id int, name string) PARTITIONED BY (dt string) STORED AS INPUTFORMAT 'org.apache.hadoop.hive.ql.io.parquet.MapredParquetInputFormat' LOCATION 's3://b/t';")
    example_metadata
  = ([ cmp_columns; cmp_table_comment; cmp_partitioning; cmp_clustering;
       cmp_row_format; cmp_file_format ],
     Raise UnboundLocalError).
Proof. vm_compute; reflexivity. Qed.

(** ** Change detector *)

Lemma run_in_order_true (run : comparator -> result bool)
    (pre post : list comparator) (c : comparator) :
  Forall (fun c' => run c' = Ok false) pre ->
  run c = Ok true ->
  run_in_order run (pre ++ c :: post) = (pre ++ [c], Ok true).
Proof.
  intros Hpre Hc; induction Hpre as [|c' pre Hc' _ IH]; cbn [app run_in_order].
  - rewrite Hc; reflexivity.
  - rewrite Hc', IH; reflexivity.
Qed.

Lemma run_in_order_raise (run : comparator -> result bool)
    (pre post : list comparator) (c : comparator) (e : exn) :
  Forall (fun c' => run c' = Ok false) pre ->
  run c = Raise e ->
  run_in_order run (pre ++ c :: post) = (pre ++ [c], Raise e).
Proof.
  intros Hpre Hc; induction Hpre as [|c' pre Hc' _ IH]; cbn [app run_in_order].
  - rewrite Hc; reflexivity.
  - rewrite Hc', IH; reflexivity.
Qed.

Lemma run_in_order_false (run : comparator -> result bool)
    (l : list comparator) :
  Forall (fun c => run c = Ok false) l ->
  run_in_order run l = (l, Ok false).
Proof.
  induction 1 as [|c l Hc _ IH]; cbn [run_in_order]; [reflexivity|].
  rewrite Hc, IH; reflexivity.
Qed.

Lemma run_in_order_false_inv (run : comparator -> result bool)
    (l : list comparator) :
  snd (run_in_order run l) = Ok false ->
  Forall (fun c => run c = Ok false) l.
Proof.
  induction l as [|c l IH]; cbn [run_in_order]; [constructor|].
  destruct (run c) as [[|]|e] eqn:E; cbn [snd]; try discriminate.
  destruct (run_in_order run l) as [t r]; cbn [snd] in *.
  intros H; constructor; [exact E | apply IH, H].
Qed.

Lemma run_in_order_true_inv (run : comparator -> result bool)
    (l : list comparator) :
  snd (run_in_order run l) = Ok true ->
  exists pre c post,
    l = pre ++ c :: post
    /\ Forall (fun c' => run c' = Ok false) pre
    /\ run c = Ok true
    /\ fst (run_in_order run l) = pre ++ [c].
Proof.
  induction l as [|c l IH]; cbn [run_in_order]; [discriminate|].
  destruct (run c) as [[|]|e] eqn:E; cbn [snd fst]; try discriminate.
  - intros _; exists [], c, l; repeat split; [constructor | exact E].
  - destruct (run_in_order run l) as [t r]; cbn [snd fst] in *.
    intros H; destruct (IH H) as [pre [c' [post [-> [Hpre [Hc Ht]]]]]].
    exists (c :: pre), c', post; repeat split;
      [constructor; assumption | exact Hc | rewrite Ht; reflexivity].
Qed.

Lemma run_in_order_trace (run : comparator -> result bool)
    (l : list comparator) :
  exists n : nat, fst (run_in_order run l) = firstn n l.
Proof.
  induction l as [|c l [n IH]]; cbn [run_in_order];
    [exists 0%nat; reflexivity|].
  destruct (run c) as [[|]|e];
    try (exists 1%nat; reflexivity).
  destruct (run_in_order run l) as [t r]; cbn [fst] in *.
  exists (S n); cbn [firstn]; rewrite IH; reflexivity.
Qed.

(** The detector is the run of its eight comparators in their order. *)
Lemma has_table_structure_changed_run
    (json_loads : pystr -> result pyobj) (DeepDiff_len : pyobj -> pyobj -> Z)
    (ddl_text : pystr) (md : table_metadata)
    (ddl_columns_segment rest : pystr) (ddl_segments : list pystr) :
  split_ddl_columns_segment ddl_text = Ok (ddl_columns_segment, rest) ->
  segmentize_ddl_by_clause (strip rest)
    (index_ddl_clauses (strip rest) ddl_clauses_list) = Ok ddl_segments ->
  has_table_structure_changed json_loads DeepDiff_len ddl_text md
  = run_in_order
      (outcome json_loads DeepDiff_len md ddl_columns_segment ddl_segments)
      comparator_order.
Proof.
  intros Hsplit Hseg.
  unfold has_table_structure_changed, comparator_order.
  cbn [run_in_order outcome].
  rewrite Hsplit; unfold step, call, tret, tbind; cbn [fst snd].
  destruct (have_columns_changed md ddl_columns_segment) as [[|]|e];
    [reflexivity| |reflexivity].
  rewrite Hseg.
  destruct (has_table_comment_changed md ddl_segments) as [[|]|e];
    [reflexivity| |reflexivity].
  destruct (has_partitioning_changed md ddl_segments) as [[|]|e];
    [reflexivity| |reflexivity].
  destruct (has_clustering_changed md ddl_segments) as [[|]|e];
    [reflexivity| |reflexivity].
  destruct (has_row_format_changed json_loads DeepDiff_len md ddl_segments)
    as [[|]|e]; [reflexivity| |reflexivity].
  destruct (has_file_format_changed md ddl_segments) as [[|]|e];
    [reflexivity| |reflexivity].
  destruct (has_table_location_changed md ddl_segments) as [[|]|e];
    [reflexivity| |reflexivity].
  destruct (have_tblproperties_changed json_loads DeepDiff_len md ddl_segments)
    as [[|]|e]; reflexivity.
Qed.

Lemma every_comparator (P : comparator -> Prop) :
  Forall P comparator_order -> forall c, P c.
Proof.
  intros H c; rewrite Forall_forall in H; apply H.
  destruct c; unfold comparator_order; simpl; tauto.
Qed.

(** With the seven top-level markers the segmenter always returns. *)
Lemma segmentize_top_level (text : pystr) :
  exists ddl_segments,
    segmentize_ddl_by_clause text (index_ddl_clauses text ddl_clauses_list)
    = Ok ddl_segments.
Proof.
  eexists; apply segmentize_ranges.
  rewrite index_ddl_clauses_length; simpl; lia.
Qed.

(** C1: the eight comparators are called in the order columns, table
    comment, partitioning, clustering, row format, file format, location,
    tblproperties.  The calls made are always a prefix of that order; the
    first comparator that reports a change ends the calls and the verdict is
    [True]; and the verdict is [False] only when all eight were called and
    reported no change. *)
Theorem has_table_structure_changed_order
    (json_loads : pystr -> result pyobj) (DeepDiff_len : pyobj -> pyobj -> Z)
    (ddl_text : pystr) (md : table_metadata) :
  let r := has_table_structure_changed json_loads DeepDiff_len ddl_text md in
  (exists n : nat, fst r = firstn n comparator_order)
  /\ (forall ddl_columns_segment rest ddl_segments,
        split_ddl_columns_segment ddl_text = Ok (ddl_columns_segment, rest) ->
        segmentize_ddl_by_clause (strip rest)
          (index_ddl_clauses (strip rest) ddl_clauses_list)
        = Ok ddl_segments ->
        let run :=
          outcome json_loads DeepDiff_len md ddl_columns_segment
            ddl_segments in
        (forall pre c post,
           comparator_order = pre ++ c :: post ->
           Forall (fun c' => run c' = Ok false) pre ->
           run c = Ok true ->
           r = (pre ++ [c], Ok true))
        /\ ((forall c, run c = Ok false) -> r = (comparator_order, Ok false)))
  /\ (snd r = Ok true ->
      exists ddl_columns_segment rest ddl_segments pre c post,
        split_ddl_columns_segment ddl_text = Ok (ddl_columns_segment, rest)
        /\ segmentize_ddl_by_clause (strip rest)
             (index_ddl_clauses (strip rest) ddl_clauses_list)
           = Ok ddl_segments
        /\ comparator_order = pre ++ c :: post
        /\ Forall
             (fun c' =>
                outcome json_loads DeepDiff_len md ddl_columns_segment
                  ddl_segments c' = Ok false) pre
        /\ outcome json_loads DeepDiff_len md ddl_columns_segment
             ddl_segments c = Ok true
        /\ fst r = pre ++ [c])
  /\ (snd r = Ok false ->
      fst r = comparator_order
      /\ exists ddl_columns_segment rest ddl_segments,
           split_ddl_columns_segment ddl_text = Ok (ddl_columns_segment, rest)
           /\ segmentize_ddl_by_clause (strip rest)
                (index_ddl_clauses (strip rest) ddl_clauses_list)
              = Ok ddl_segments
           /\ forall c,
                outcome json_loads DeepDiff_len md ddl_columns_segment
                  ddl_segments c = Ok false).
Proof.
  intros r; subst r.
  destruct (split_ddl_columns_segment ddl_text) as [[cols rest]|e] eqn:Hsplit.
  - destruct (segmentize_top_level (strip rest)) as [segs Hseg].
    rewrite (has_table_structure_changed_run _ _ _ _ _ _ _ Hsplit Hseg).
    split; [apply run_in_order_trace|].
    split.
    + intros cols' rest' segs' E Hseg' run.
      injection E as <- <-.
      rewrite Hseg in Hseg'; injection Hseg' as <-.
      split.
      * intros pre c post -> Hpre Hc; apply run_in_order_true; assumption.
      * intros H; apply run_in_order_false, Forall_forall; intros c _; apply H.
    + split.
      * intros H.
        destruct (run_in_order_true_inv _ _ H)
          as [pre [c [post [Ho [Hpre [Hc Ht]]]]]].
        exists cols, rest, segs, pre, c, post.
        split; [reflexivity|]; split; [exact Hseg|]; split; [exact Ho|].
        split; [exact Hpre|]; split; [exact Hc | exact Ht].
      * intros H.
        pose proof (run_in_order_false_inv _ _ H) as Hall.
        split; [rewrite (run_in_order_false _ _ Hall); reflexivity|].
        exists cols, rest, segs.
        split; [reflexivity|]; split; [exact Hseg|].
        exact (every_comparator _ Hall).
  - assert (E : has_table_structure_changed json_loads DeepDiff_len ddl_text md
                = ([], Raise e))
      by (unfold has_table_structure_changed; rewrite Hsplit; reflexivity).
    rewrite E; cbn [fst snd].
    split; [exists 0%nat; reflexivity|].
    split; [intros ? ? ? H; discriminate H|].
    split; intros H; discriminate H.
Qed.

Lemma has_table_structure_changed_order_witness :
  has_table_structure_changed no_json_loads no_DeepDiff_len
    (py "create external table t (id int, name string) stored as parquet location 's3://b/t'")
    example_metadata
  = ([cmp_columns; cmp_table_comment; cmp_partitioning], Ok true).
Proof.
  refine (proj1
            (proj1 (proj2
               (has_table_structure_changed_order no_json_loads
                  no_DeepDiff_len
                  (py "create external table t (id int, name string) stored as parquet location 's3://b/t'")
                  example_metadata))
               (py "id int, name string")
               (py " stored as parquet location 's3://b/t'")
               [py "stored as parquet"; py "location 's3://b/t'"]
               _ _)
            [cmp_columns; cmp_table_comment] cmp_partitioning
            [cmp_clustering; cmp_row_format; cmp_file_format; cmp_location;
             cmp_tblproperties] _ _ _).
  - vm_compute; reflexivity.
  - vm_compute; reflexivity.
  - reflexivity.
  - repeat constructor.
  - vm_compute; reflexivity.
Defined.

(** ** Missing LOCATION clause *)

(** The comparators of a list all answer [False], or one of them answers
    something else. *)
Lemma all_false_or_other (run : comparator -> result bool)
    (l : list comparator) :
  Forall (fun c => run c = Ok false) l
  \/ exists c, In c l /\ run c <> Ok false.
Proof.
  induction l as [|a l [IH|(c & Hin & Hc)]]; [left; constructor| |].
  - destruct (run a) as [[|]|e] eqn:E.
    + right; exists a; split; [left; reflexivity|].
      rewrite E; discriminate.
    + left; constructor; assumption.
    + right; exists a; split; [left; reflexivity|].
      rewrite E; discriminate.
  - right; exists c; split; [right; exact Hin | exact Hc].
Qed.

(** Where the first of the comparators of [l] to answer something else than
    [False] is in a front part [front] of [l], it is so for [front] alone. *)
Lemma decided_in_front (run : comparator -> result bool)
    (front back pre post : list comparator) (c : comparator) :
  front ++ back = pre ++ c :: post ->
  Forall (fun c' => run c' = Ok false) pre ->
  run c <> Ok false ->
  (exists c', In c' front /\ run c' <> Ok false) ->
  exists post', front = pre ++ c :: post'.
Proof.
  revert pre; induction front as [|a front IH]; intros pre Ho Hpre Hc Hex.
  - destruct Hex as (c' & [] & _).
  - destruct pre as [|p pre]; cbn [app] in Ho; injection Ho as -> Ho.
    + exists front; reflexivity.
    + inversion Hpre as [|? ? Hp Hpre']; subst.
      destruct (IH pre Ho Hpre' Hc) as [post' ->].
      * destruct Hex as (c' & [<-|Hin] & Hn); [contradiction|].
        exists c'; split; assumption.
      * exists post'; reflexivity.
Qed.

(** C9, as the code has it: without a segment that starts with [location],
    [has_table_location_changed] raises, whatever the metadata, and the
    whole comparison never answers [False].  It ends in that error when the
    six comparators called before the location all report no change;
    otherwise the first of the six to answer something else decides: its
    [True] is returned, or its error raised, with the location not
    examined.  A verdict [True] always comes from one of the six. *)
Theorem missing_location_raises
    (json_loads : pystr -> result pyobj) (DeepDiff_len : pyobj -> pyobj -> Z)
    (md : table_metadata) (ddl_segments : list pystr) :
  (forall segment, In segment ddl_segments ->
                   startswith segment (py "location") = false) ->
  has_table_location_changed md ddl_segments = Raise (Exception location_msg)
  /\ forall ddl_text ddl_columns_segment rest,
       split_ddl_columns_segment ddl_text = Ok (ddl_columns_segment, rest) ->
       segmentize_ddl_by_clause (strip rest)
         (index_ddl_clauses (strip rest) ddl_clauses_list)
       = Ok ddl_segments ->
       let run :=
         outcome json_loads DeepDiff_len md ddl_columns_segment
           ddl_segments in
       let r :=
         has_table_structure_changed json_loads DeepDiff_len ddl_text md in
       let earlier :=
         [ cmp_columns; cmp_table_comment; cmp_partitioning; cmp_clustering;
           cmp_row_format; cmp_file_format ] in
       snd r <> Ok false
       /\ (Forall (fun c => run c = Ok false) earlier ->
           r = ([ cmp_columns; cmp_table_comment; cmp_partitioning;
                  cmp_clustering; cmp_row_format; cmp_file_format;
                  cmp_location ],
                Raise (Exception location_msg)))
       /\ (forall pre c post,
             earlier = pre ++ c :: post ->
             Forall (fun c' => run c' = Ok false) pre ->
             run c = Ok true ->
             r = (pre ++ [c], Ok true))
       /\ (forall pre c post e,
             earlier = pre ++ c :: post ->
             Forall (fun c' => run c' = Ok false) pre ->
             run c = Raise e ->
             r = (pre ++ [c], Raise e))
       /\ (snd r = Ok true ->
           exists pre c post,
             earlier = pre ++ c :: post
             /\ Forall (fun c' => run c' = Ok false) pre
             /\ run c = Ok true
             /\ r = (pre ++ [c], Ok true)).
Proof.
  intros Hloc.
  assert (Hraise : has_table_location_changed md ddl_segments
                   = Raise (Exception location_msg)).
  { unfold has_table_location_changed.
    rewrite (next_where_none _ _ Hloc); reflexivity. }
  split; [exact Hraise|].
  intros ddl_text cols rest Hsplit Hseg run r earlier.
  assert (Hr : r = run_in_order run comparator_order)
    by (subst r run;
        exact (has_table_structure_changed_run _ _ _ _ _ _ _ Hsplit Hseg)).
  assert (Hlocation : run cmp_location = Raise (Exception location_msg))
    by exact Hraise.
  assert (Horder : comparator_order
                   = earlier ++ [cmp_location; cmp_tblproperties])
    by reflexivity.
  assert (Hnever : snd r <> Ok false).
  { rewrite Hr; intros H.
    pose proof (every_comparator _ (run_in_order_false_inv _ _ H)
                  cmp_location) as Hfalse.
    cbv beta in Hfalse; rewrite Hlocation in Hfalse; discriminate Hfalse. }
  split; [exact Hnever|]; split; [|split; [|split]].
  - intros Hpre; rewrite Hr.
    exact (run_in_order_raise run earlier [cmp_tblproperties] cmp_location
             _ Hpre Hlocation).
  - intros pre c post Ho Hpre Hc.
    rewrite Hr, Horder, Ho, <- app_assoc; cbn [app].
    apply run_in_order_true; assumption.
  - intros pre c post e Ho Hpre Hc.
    rewrite Hr, Horder, Ho, <- app_assoc; cbn [app].
    apply run_in_order_raise; assumption.
  - intros Htrue; rewrite Hr in Htrue.
    destruct (run_in_order_true_inv _ _ Htrue)
      as (pre & c & post & Ho & Hpre & Hc & _).
    assert (Hc' : run c <> Ok false) by (rewrite Hc; discriminate).
    assert (Hex : exists c', In c' earlier /\ run c' <> Ok false).
    { destruct (all_false_or_other run earlier) as [Hall|Hex];
        [|exact Hex].
      exfalso.
      pose proof (run_in_order_raise run earlier [cmp_tblproperties]
                    cmp_location _ Hall Hlocation) as Hx.
      change (earlier ++ cmp_location :: [cmp_tblproperties])
        with comparator_order in Hx.
      rewrite Hx in Htrue; discriminate Htrue. }
    rewrite Horder in Ho.
    destruct (decided_in_front run earlier
                [cmp_location; cmp_tblproperties] pre post c Ho Hpre Hc'
                Hex) as [post' Ho'].
    exists pre, c, post'; split; [exact Ho'|].
    split; [exact Hpre|]; split; [exact Hc|].
    rewrite Hr, Horder, Ho', <- app_assoc; cbn [app].
    apply run_in_order_true; assumption.
Qed.

Lemma missing_location_raises_witness :
  has_table_structure_changed no_json_loads no_DeepDiff_len
    (py "create external table t (id int, name string) partitioned by (dt string) stored as parquet")
    example_metadata
  = ([ cmp_columns; cmp_table_comment; cmp_partitioning; cmp_clustering;
       cmp_row_format; cmp_file_format; cmp_location ],
     Raise (Exception location_msg)).
Proof.
  refine (proj1 (proj2
            (proj2 (missing_location_raises no_json_loads no_DeepDiff_len
                      example_metadata
                      [py "partitioned by (dt string)"; py "stored as parquet"]
                      _)
               (py "create external table t (id int, name string) partitioned by (dt string) stored as parquet")
               (py "id int, name string")
               (py " partitioned by (dt string) stored as parquet")
               _ _)) _).
  - intros segment [<-|[<-|[]]]; vm_compute; reflexivity.
  - vm_compute; reflexivity.
  - vm_compute; reflexivity.
  - repeat constructor.
Defined.

(** C9 as stated fails: the DDL below has no LOCATION clause, and the
    comparison returns [True] from the columns comparator, the first one,
    without reaching the location. *)
Lemma missing_location_not_reached :
  split_ddl_columns_segment
    (py "create external table t (id bigint, name string) stored as parquet")
  = Ok (py "id bigint, name string", py " stored as parquet")
  /\ segmentize_ddl_by_clause (py "stored as parquet")
       (index_ddl_clauses (py "stored as parquet") ddl_clauses_list)
     = Ok [py "stored as parquet"]
  /\ startswith (py "stored as parquet") (py "location") = false
  /\ has_table_structure_changed no_json_loads no_DeepDiff_len
       (py "create external table t (id bigint, name string) stored as parquet")
       example_metadata
     = ([cmp_columns], Ok true).
Proof. repeat split; vm_compute; reflexivity. Qed.

(** * Further properties of the code *)

(** ** [str.find] *)

Lemma find_found (s sub : pystr) :
  find s sub <> -1 ->
  exists k : nat,
    find s sub = Z.of_nat k
    /\ startswith (skipn k s) sub = true
    /\ forall j, (j < k)%nat -> startswith (skipn j s) sub = false.
Proof.
  unfold find; induction s as [|c s IH]; cbn [find_from].
  - destruct (startswith [] sub) eqn:E; [|intros H; contradiction].
    intros _; exists 0%nat; repeat split; [exact E | intros j Hj; lia].
  - destruct (startswith (c :: s) sub) eqn:E.
    + intros _; exists 0%nat; repeat split; [exact E | intros j Hj; lia].
    + rewrite find_from_shift.
      destruct (find_from 0 s sub <? 0) eqn:Hneg; [intros H; contradiction|].
      intros _; apply Z.ltb_ge in Hneg.
      destruct IH as [k [Hk [Hat Hbefore]]]; [lia|].
      exists (S k); repeat split.
      * rewrite Hk; lia.
      * exact Hat.
      * intros [|j] Hj; [exact E | apply Hbefore; lia].
Qed.

Lemma find_absent (s sub : pystr) :
  find s sub = -1 -> forall k : nat, startswith (skipn k s) sub = false.
Proof.
  unfold find; induction s as [|c s IH]; cbn [find_from].
  - destruct (startswith [] sub) eqn:E; [discriminate|].
    intros _ k; rewrite skipn_nil; exact E.
  - destruct (startswith (c :: s) sub) eqn:E; [discriminate|].
    rewrite find_from_shift.
    destruct (find_from 0 s sub <? 0) eqn:Hneg.
    + intros _ [|k]; [exact E|].
      apply IH.
      destruct (find_from_lower 0 s sub) as [H|H]; [exact H|].
      apply Z.ltb_lt in Hneg; lia.
    + apply Z.ltb_ge in Hneg; intros H; lia.
Qed.

Lemma find_zero (s sub : pystr) :
  find s sub = 0 <-> startswith s sub = true.
Proof.
  unfold find; destruct s as [|c s]; cbn [find_from].
  - destruct (startswith [] sub); split; intros H; try reflexivity;
      discriminate.
  - destruct (startswith (c :: s) sub); [tauto|].
    split; [|discriminate].
    destruct (find_from_lower (0 + 1) s sub) as [H|H]; rewrite ?H; lia.
Qed.

(** ** Clause indexer *)

Lemma index_ddl_clauses_In (text : pystr) (catalog : list pystr)
    (e : clause_entry) :
  In e (index_ddl_clauses text catalog) ->
  exists clause, In clause catalog /\ e = index_clause text clause.
Proof.
  unfold index_ddl_clauses; intros H.
  apply (Permutation_in _ (sorted_by_index_perm _)) in H.
  apply in_map_iff in H as [clause [<- Hin]]; eauto.
Qed.

(** X1: An entry that was found holds the offset of the first occurrence of its
    clause in the text; an entry not found, other than the table comment's,
    has a clause that occurs nowhere in the text. *)
Theorem index_entry_is_first_occurrence (text : pystr)
    (catalog : list pystr) (e : clause_entry) :
  In e (index_ddl_clauses text catalog) ->
  In (Clause e) (map strip catalog)
  /\ (Index e <> NOT_FOUND ->
      exists k : nat,
        Index e = Z.of_nat k
        /\ startswith (skipn k text) (Clause e) = true
        /\ forall j, (j < k)%nat ->
                     startswith (skipn j text) (Clause e) = false)
  /\ (Index e = NOT_FOUND -> Clause e <> py "comment '" ->
      forall k : nat, startswith (skipn k text) (Clause e) = false).
Proof.
  intros H; destruct (index_ddl_clauses_In _ _ _ H) as [clause [Hin ->]].
  unfold index_clause.
  destruct (str_eqb (strip clause) (py "comment '")) eqn:Ec.
  - apply str_eqb_eq in Ec.
    destruct (find text (strip clause) =? 0) eqn:E0; cbn [Clause Index].
    + apply Z.eqb_eq in E0; split; [apply in_map, Hin|]; split.
      * intros _; apply find_found; lia.
      * unfold NOT_FOUND; rewrite E0; discriminate.
    + split; [apply in_map, Hin|]; split; [intros Hn; contradiction|].
      intros _ Hn; contradiction.
  - destruct (0 <=? find text (strip clause)) eqn:E0; cbn [Clause Index].
    + apply Z.leb_le in E0; split; [apply in_map, Hin|]; split.
      * intros _; apply find_found; lia.
      * unfold NOT_FOUND; lia.
    + apply Z.leb_gt in E0; split; [apply in_map, Hin|]; split;
        [intros Hn; contradiction|].
      intros _ _; apply find_absent.
      destruct (find_range text (strip clause)); [assumption | lia].
Qed.

Lemma index_entry_is_first_occurrence_witness :
  exists k : nat,
    27 = Z.of_nat k
    /\ startswith
         (skipn k
            (py "partitioned by (dt string) stored as parquet location 's3://b/t'"))
         (py "stored as") = true
    /\ forall j, (j < k)%nat ->
         startswith
           (skipn j
              (py "partitioned by (dt string) stored as parquet location 's3://b/t'"))
           (py "stored as") = false.
Proof.
  refine (proj1 (proj2
            (index_entry_is_first_occurrence
               (py "partitioned by (dt string) stored as parquet location 's3://b/t'")
               ddl_clauses_list (mk_clause (py "stored as") 27) _)) _).
  - vm_compute; tauto.
  - discriminate.
Defined.

(** X2: The table COMMENT marker counts only at the very start of the text: its
    entry holds offset 0 when the text starts with [comment '], and
    [NOT_FOUND] otherwise, wherever else the marker occurs (a column comment
    of PARTITIONED BY). *)
Theorem table_comment_only_at_start (text : pystr) (catalog : list pystr)
    (e : clause_entry) :
  In e (index_ddl_clauses text catalog) ->
  Clause e = py "comment '" ->
  Index e = if startswith text (py "comment '") then 0 else NOT_FOUND.
Proof.
  intros H; destruct (index_ddl_clauses_In _ _ _ H) as [clause [Hin ->]].
  unfold index_clause.
  destruct (str_eqb (strip clause) (py "comment '")) eqn:Ec.
  - apply str_eqb_eq in Ec; rewrite Ec.
    destruct (find text (py "comment '") =? 0) eqn:E0; cbn [Clause Index];
      intros _.
    + apply Z.eqb_eq in E0; rewrite E0.
      apply find_zero in E0; rewrite E0; reflexivity.
    + apply Z.eqb_neq in E0.
      destruct (startswith text (py "comment '")) eqn:Es; [|reflexivity].
      apply find_zero in Es; contradiction.
  - destruct (0 <=? find text (strip clause)); cbn [Clause Index];
      intros Hc; rewrite Hc in Ec;
      (replace (str_eqb (py "comment '") (py "comment '")) with true in Ec
        by reflexivity); discriminate.
Qed.

Lemma table_comment_only_at_start_witness :
  Index (mk_clause (py "comment '") NOT_FOUND)
  = if startswith
         (py "partitioned by (dt string comment 'the day') location 's3://b/t'")
         (py "comment '")
    then 0 else NOT_FOUND.
Proof.
  apply (table_comment_only_at_start
           (py "partitioned by (dt string comment 'the day') location 's3://b/t'")
           ddl_clauses_list).
  - vm_compute; tauto.
  - reflexivity.
Defined.

(** ** Segmenter *)

(** X3: The segmenter needs a second entry: over a catalog of fewer than two
    markers it ends in an [UnboundLocalError], and only then. *)
Theorem segmentize_needs_two_markers (text : pystr) (catalog : list pystr) :
  segmentize_ddl_by_clause text (index_ddl_clauses text catalog)
  = Raise UnboundLocalError
  <-> (length catalog < 2)%nat.
Proof.
  pose proof (index_ddl_clauses_length text catalog) as Hlen.
  split.
  - intros H; destruct (Nat.lt_ge_cases (length catalog) 2) as [|Hge];
      [assumption|].
    rewrite segmentize_ranges in H by lia; discriminate.
  - intros H.
    destruct (index_ddl_clauses text catalog) as [|a [|b l]];
      [reflexivity | reflexivity | simpl in Hlen; lia].
Qed.

(** ** Column extractor *)

Lemma no_paren_raises (text : pystr) :
  no_paren text -> split_ddl_columns_segment text = Raise IndexError.
Proof.
  intros H; unfold split_ddl_columns_segment.
  rewrite <- (app_nil_r text), (scan_no_paren text H); reflexivity.
Qed.

Lemma has_paren_dec (text : pystr) :
  (In "("%char text \/ In ")"%char text) \/ no_paren text.
Proof.
  unfold no_paren.
  destruct (in_dec ascii_dec "("%char text); [tauto|].
  destruct (in_dec ascii_dec ")"%char text); tauto.
Qed.

(** X4: What the extractor returns is always the first parenthesised group: when
    it returns [(columns, rest)], the text is [pre ( body ) rest] with no
    parenthesis in [pre], [body] balanced and [columns] the trimmed
    [body]. *)
Theorem split_ddl_columns_segment_sound (text columns rest : pystr) :
  split_ddl_columns_segment text = Ok (columns, rest) ->
  exists pre body,
    first_group text pre body rest /\ columns = strip body.
Proof.
  intros H.
  destruct (has_paren_dec text) as [Hp|Hn];
    [|rewrite (no_paren_raises _ Hn) in H; discriminate].
  destruct (paren_trichotomy text Hp) as [T|[T|[pre [body [rest' T]]]]].
  - rewrite (unmatched_close_raises _ T) in H; discriminate.
  - rewrite (unclosed_raises _ T) in H; discriminate.
  - destruct (scan_first_group _ _ _ _ T) as [st' [d [Hs [Hst Hd]]]].
    pose proof T as [E _].
    unfold split_ddl_columns_segment in H.
    rewrite Hs in H; cbn [bind] in H.
    rewrite Hst, Hd, rev_snoc_head in H; cbn [fst snd] in H.
    rewrite E, slice_group, slice_rest in H.
    injection H as <- <-.
    exists pre, body; split; [exact T | reflexivity].
Qed.

Lemma split_ddl_columns_segment_sound_witness :
  exists pre body,
    first_group
      (py "create external table t (id int, amt decimal(10,2)) location 's3://b/t'")
      pre body (py " location 's3://b/t'")
    /\ py "id int, amt decimal(10,2)" = strip body.
Proof.
  apply (split_ddl_columns_segment_sound
           (py "create external table t (id int, amt decimal(10,2)) location 's3://b/t'")).
  vm_compute; reflexivity.
Defined.

(** ** Columns: letter case of the metadata *)


















(** ** Table properties outside the allow-list *)

Lemma dict_get_skip {V : Type} (P1 P2 : pydict V) (k key : pystr) (v : V) :
  str_eqb k key = false ->
  dict_get (P1 ++ (k, v) :: P2) key = dict_get (P1 ++ P2) key.
Proof.
  intros Hk; induction P1 as [|[k' v'] P1 IH]; cbn [app dict_get].
  - rewrite Hk; reflexivity.
  - rewrite IH; reflexivity.
Qed.

Lemma filter_skip {A : Type} (p : A -> bool) (l1 l2 : list A) (x : A) :
  p x = false -> filter p (l1 ++ x :: l2) = filter p (l1 ++ l2).
Proof.
  intros Hx; rewrite !filter_app; cbn [filter]; rewrite Hx; reflexivity.
Qed.

Lemma run_in_order_ext (run1 run2 : comparator -> result bool)
    (l : list comparator) :
  (forall c, run1 c = run2 c) -> run_in_order run1 l = run_in_order run2 l.
Proof.
  intros H; induction l as [|c l IH]; cbn [run_in_order]; [reflexivity|].
  rewrite H, IH; reflexivity.
Qed.

(** X6: A table property outside the allow-list, other than [comment], takes no
    part in the comparison: with or without it in the metadata, the detector
    calls the same comparators and gives the same answer. *)
Theorem unlisted_property_is_ignored
    (json_loads : pystr -> result pyobj) (DeepDiff_len : pyobj -> pyobj -> Z)
    (ddl_text : pystr) (md : table_metadata) (P1 P2 : pydict pystr)
    (key value : pystr) :
  metadata_property_kept key = false ->
  key <> py "comment" ->
  has_table_structure_changed json_loads DeepDiff_len ddl_text
    (with_parameters md (P1 ++ (key, value) :: P2))
  = has_table_structure_changed json_loads DeepDiff_len ddl_text
      (with_parameters md (P1 ++ P2)).
Proof.
  intros Hkept Hkey.
  assert (Hc : str_eqb key (py "comment") = false).
  { destruct (str_eqb key (py "comment")) eqn:E; [|reflexivity].
    apply str_eqb_eq in E; contradiction. }
  destruct (split_ddl_columns_segment ddl_text) as [[cols rest]|e] eqn:Hsplit.
  - destruct (segmentize_top_level (strip rest)) as [segs Hseg].
    rewrite !(has_table_structure_changed_run _ _ _ _ _ _ _ Hsplit Hseg).
    apply run_in_order_ext; intros c; destruct c; cbn [outcome];
      try reflexivity.
    + unfold has_table_comment_changed, with_parameters; cbn [Parameters].
      rewrite (dict_get_skip P1 P2 key (py "comment") value Hc).
      reflexivity.
    + unfold have_tblproperties_changed, with_parameters; cbn [Parameters].
      rewrite (filter_skip (fun kv => metadata_property_kept (fst kv))
                 P1 P2 (key, value) Hkept).
      reflexivity.
  - unfold has_table_structure_changed; rewrite Hsplit; reflexivity.
Qed.

Lemma unlisted_property_is_ignored_witness :
  has_table_structure_changed no_json_loads no_DeepDiff_len
    (py "create external table t (id int, name string) partitioned by (dt string) stored as parquet location 's3://b/t'")
    (with_parameters example_metadata
       ([(py "EXTERNAL", py "TRUE")] ++ (py "numFiles", py "12") :: []))
  = has_table_structure_changed no_json_loads no_DeepDiff_len
      (py "create external table t (id int, name string) partitioned by (dt string) stored as parquet location 's3://b/t'")
      (with_parameters example_metadata ([(py "EXTERNAL", py "TRUE")] ++ [])).
Proof.
  apply unlisted_property_is_ignored.
  - vm_compute; reflexivity.
  - discriminate.
Defined.

(** ** Row format, DDL without a ROW FORMAT clause: the whole rule *)

(** X7: For a catalog entry that carries the serialization library and the
    serde parameters, and a DDL without a ROW FORMAT segment: the row-format
    comparator reports no change exactly when the serialization library is
    under [org.apache.] and the serde parameters hold none of the six
    delimiter keys, and a change otherwise. *)
Theorem has_row_format_changed_without_clause
    (json_loads : pystr -> result pyobj) (DeepDiff_len : pyobj -> pyobj -> Z)
    (md : table_metadata) (ddl_segments : list pystr) :
  (forall segment, In segment ddl_segments ->
                   startswith segment (py "row format ") = false) ->
  let default :=
    startswith (SerializationLibrary (SerdeInfo (StorageDescriptor md)))
      (py "org.apache.") = true
    /\ forall key, In key delimiter_keys ->
         dict_get (SerdeParameters (SerdeInfo (StorageDescriptor md))) key
         = None in
  (has_row_format_changed json_loads DeepDiff_len md ddl_segments = Ok false
   <-> default)
  /\ (has_row_format_changed json_loads DeepDiff_len md ddl_segments
      = Ok true
      <-> ~ default).
Proof.
  intros Hseg default; subst default.
  unfold has_row_format_changed.
  rewrite (next_where_none _ _ Hseg).
  unfold has_row_format_serde_changed, have_row_format_delimiters_changed,
    get_meta_row_format_delimiters.
  cbn [meta_json_escape_delim_char meta_json_field_delim_char
       meta_json_collection_delim_char meta_json_map_keys_delim_char
       meta_json_line_delim_char meta_json_ser_null_format_char].
  set (P := SerdeParameters (SerdeInfo (StorageDescriptor md))).
  destruct (startswith (SerializationLibrary (SerdeInfo (StorageDescriptor md)))
              (py "org.apache.")) eqn:Hlib; cbn [bind].
  2:{ split; split; try discriminate; try reflexivity.
      - intros [H _]; discriminate H.
      - intros _ [H _]; discriminate H. }
  unfold delimiter_keys.
  (* a delimiter key that is there settles it *)
  assert (Hkey : forall key value,
             In key [ py "escape.delim"; py "field.delim";
                      py "colelction.delim"; py "mapkey.delim";
                      py "line.delim"; py "serialization.null.format" ] ->
             dict_get P key = Some value ->
             ((@Ok bool true = Ok false
               <-> true = true
                   /\ forall key, In key
                         [ py "escape.delim"; py "field.delim";
                           py "colelction.delim"; py "mapkey.delim";
                           py "line.delim"; py "serialization.null.format" ] ->
                         dict_get P key = None)
              /\ (@Ok bool true = Ok true
                  <-> ~ (true = true
                         /\ forall key, In key
                               [ py "escape.delim"; py "field.delim";
                                 py "colelction.delim"; py "mapkey.delim";
                                 py "line.delim";
                                 py "serialization.null.format" ] ->
                               dict_get P key = None)))).
  { intros key value Hin Hsome; split; split;
      try discriminate; try reflexivity.
    - intros [_ H]; rewrite (H key Hin) in Hsome; discriminate Hsome.
    - intros _ [_ H]; rewrite (H key Hin) in Hsome; discriminate Hsome. }
  destruct (dict_get P (py "escape.delim")) eqn:E1;
    [cbn [option_map is_some orb];
     exact (Hkey (py "escape.delim") _ ltac:(simpl; tauto) E1)|].
  destruct (dict_get P (py "field.delim")) eqn:E2;
    [cbn [option_map is_some orb];
     exact (Hkey (py "field.delim") _ ltac:(simpl; tauto) E2)|].
  destruct (dict_get P (py "colelction.delim")) eqn:E3;
    [cbn [option_map is_some orb];
     exact (Hkey (py "colelction.delim") _ ltac:(simpl; tauto) E3)|].
  destruct (dict_get P (py "mapkey.delim")) eqn:E4;
    [cbn [option_map is_some orb];
     exact (Hkey (py "mapkey.delim") _ ltac:(simpl; tauto) E4)|].
  destruct (dict_get P (py "line.delim")) eqn:E5;
    [cbn [option_map is_some orb];
     exact (Hkey (py "line.delim") _ ltac:(simpl; tauto) E5)|].
  destruct (dict_get P (py "serialization.null.format")) eqn:E6;
    [cbn [option_map is_some orb];
     exact (Hkey (py "serialization.null.format") _ ltac:(simpl; tauto) E6)|].
  cbn [option_map is_some orb].
  assert (Hnone : forall key,
             In key [ py "escape.delim"; py "field.delim";
                      py "colelction.delim"; py "mapkey.delim";
                      py "line.delim"; py "serialization.null.format" ] ->
             dict_get P key = None)
    by (intros key [<-|[<-|[<-|[<-|[<-|[<-|[]]]]]]]; assumption).
  split; split; try discriminate; try reflexivity.
  - intros _; split; [reflexivity | exact Hnone].
  - intros Hn; exfalso; apply Hn; split; [reflexivity | exact Hnone].
Qed.

Lemma has_row_format_changed_without_clause_witness :
  has_row_format_changed no_json_loads no_DeepDiff_len
    (mk_table_metadata
       (mk_storage_descriptor [] [] 0
          (mk_serde_info
             (py "org.apache.hadoop.hive.serde2.lazy.LazySimpleSerDe")
             [ (py "field.delim", py ","); (py "serialization.format", py ",") ])
          TEXTFILE_STORAGE_FORMAT [] [])
       [] [])
    [ py "location 's3://b/t'" ]
  = Ok true.
Proof.
  refine (proj2 (proj2
            (has_row_format_changed_without_clause no_json_loads
               no_DeepDiff_len
               (mk_table_metadata
                  (mk_storage_descriptor [] [] 0
                     (mk_serde_info
                        (py "org.apache.hadoop.hive.serde2.lazy.LazySimpleSerDe")
                        [ (py "field.delim", py ",");
                          (py "serialization.format", py ",") ])
                     TEXTFILE_STORAGE_FORMAT [] [])
                  [] [])
               [ py "location 's3://b/t'" ] _)) _).
  - intros segment [<-|[]]; vm_compute; reflexivity.
  - intros [_ Hkeys].
    specialize (Hkeys (py "field.delim") ltac:(vm_compute; tauto)).
    vm_compute in Hkeys; discriminate Hkeys.
Defined.

(** ** [json.dumps] *)





(** ** [str.replace] and [str.rstrip] on a sub-clause *)






(** ** Row format: one delimiter against its serde parameter *)

(** The two answers of a comparison [if same then False else True]. *)
Lemma verdict_iff (same : bool) (P : Prop) :
  (same = true <-> P) ->
  ((if same then Ok false else Ok true) = Ok false <-> P)
  /\ ((if same then Ok false else Ok true) = Ok true <-> ~ P).
Proof.
  intros H; destruct same; split; split;
    try discriminate; try reflexivity; intros H1.
  - apply H; reflexivity.
  - exfalso; apply H1, H; reflexivity.
  - apply H in H1; discriminate.
  - intros H2; apply H in H2; discriminate.
Qed.



(** ** Row format: the two defaults of ROW FORMAT DELIMITED *)






(** ** Splitting at the first separator *)

Lemma split_go_stop (sep acc s : pystr) :
  split_go sep (Some 0%nat) 0 acc s = [rev acc ++ s].
Proof.
  revert acc; induction s as [|c s IH]; intros acc; cbn [split_go].
  - rewrite app_nil_r; reflexivity.
  - cbn [andb]; rewrite IH; cbn [rev]; rewrite <- app_assoc; reflexivity.
Qed.

Lemma split_go_char (x : ascii) (a b acc : pystr) :
  ~ In x a ->
  split_go [x] (Some 1%nat) 0 acc (a ++ x :: b) = [rev acc ++ a; b].
Proof.
  revert acc; induction a as [|c a IH]; intros acc Hx; cbn [app split_go].
  - cbn [startswith]; rewrite Ascii.eqb_refl; cbn [andb option_map].
    change (length [x] - 1)%nat with 0%nat; change (Nat.pred 1) with 0%nat.
    rewrite split_go_stop, app_nil_r; reflexivity.
  - cbn [startswith].
    replace (Ascii.eqb x c) with false
      by (symmetry; apply Ascii.eqb_neq; intros ->; apply Hx; left;
          reflexivity).
    cbn [andb]; rewrite IH by (intros H; apply Hx; right; exact H).
    cbn [rev]; rewrite <- app_assoc; reflexivity.
Qed.

(** [s.split(x, 1)] cuts at the first [x]. *)
Lemma split1_char (x : ascii) (a b : pystr) :
  ~ In x a -> split1 (a ++ x :: b) [x] = [a; b].
Proof. intros H; unfold split1; rewrite split_go_char by exact H; reflexivity. Qed.

Lemma split_go_absent (x : ascii) (s acc : pystr) :
  ~ In x s -> split_go [x] (Some 1%nat) 0 acc s = [rev acc ++ s].
Proof.
  revert acc; induction s as [|c s IH]; intros acc Hx; cbn [split_go].
  - rewrite app_nil_r; reflexivity.
  - cbn [startswith].
    replace (Ascii.eqb x c) with false
      by (symmetry; apply Ascii.eqb_neq; intros ->; apply Hx; left;
          reflexivity).
    cbn [andb]; rewrite IH by (intros H; apply Hx; right; exact H).
    cbn [rev]; rewrite <- app_assoc; reflexivity.
Qed.

Lemma split1_absent (x : ascii) (s : pystr) :
  ~ In x s -> split1 s [x] = [s].
Proof. intros H; unfold split1; rewrite split_go_absent by exact H; reflexivity. Qed.

Lemma first_split (x : ascii) (s : pystr) :
  In x s -> exists a b, s = a ++ x :: b /\ ~ In x a.
Proof.
  induction s as [|c s IH]; [intros []|]; intros Hin.
  destruct (Ascii.ascii_dec c x) as [->|Hne].
  - exists [], s; split; [reflexivity | intros []].
  - destruct Hin as [H|H]; [contradiction|].
    destruct (IH H) as (a & b & -> & Ha).
    exists (c :: a), b; split; [reflexivity|].
    intros [H1|H1]; [contradiction | exact (Ha H1)].
Qed.

(** ** Location *)

(** X11: For a catalog entry that carries ['Location']: the location
    comparator compares the lower-cased ['Location'] with what follows the
    first space of the LOCATION segment, the quotes taken off both ends; it
    answers False when the two are equal and True when they are not. *)
Theorem location_unchanged_iff (md : table_metadata)
    (ddl_segments : list pystr) (keyword value : pystr) :
  next_where (fun segment => startswith segment (py "location"))
    ddl_segments = Some (keyword ++ py " " ++ value) ->
  ~ In " "%char keyword ->
  (has_table_location_changed md ddl_segments = Ok false
   <-> lower (Location (StorageDescriptor md)) = strip_chars value (py "'"))
  /\ (has_table_location_changed md ddl_segments = Ok true
      <-> lower (Location (StorageDescriptor md))
          <> strip_chars value (py "'")).
Proof.
  intros Hseg Hkey.
  unfold has_table_location_changed; rewrite Hseg.
  change (keyword ++ py " " ++ value) with (keyword ++ " "%char :: value).
  change (py " ") with [" "%char].
  rewrite (split1_char " " keyword value Hkey).
  cbn [unpack2 bind snd].
  apply verdict_iff, str_eqb_eq.
Qed.

Lemma location_unchanged_iff_witness :
  has_table_location_changed example_metadata
    [ py "stored as parquet"; py "location 's3://b/t'" ] = Ok false.
Proof.
  refine (proj2 (proj1
            (location_unchanged_iff example_metadata
               [ py "stored as parquet"; py "location 's3://b/t'" ]
               (py "location") (py "'s3://b/t'") _ _)) _).
  - reflexivity.
  - vm_compute; intros H; repeat destruct H as [H|H]; try discriminate H;
      exact H.
  - vm_compute; reflexivity.
Defined.

(** ** Table comment *)

Lemma lstrip_by_head (p : ascii -> bool) (s : pystr) (x : ascii)
    (r : pystr) :
  lstrip_by p s = x :: r -> p x = false.
Proof.
  induction s as [|c s IH]; cbn [lstrip_by]; [discriminate|].
  destruct (p c) eqn:E; [exact IH|].
  intros H; injection H as -> _; exact E.
Qed.

(** What [strip] leaves does not end in a character it strips. *)
Lemma strip_by_last (p : ascii -> bool) (s r : pystr) (x : ascii) :
  strip_by p s = r ++ [x] -> p x = false.
Proof.
  unfold strip_by, rstrip_by; intros H.
  apply (f_equal (@rev ascii)) in H.
  rewrite rev_involutive, rev_app_distr in H; cbn [rev app] in H.
  exact (lstrip_by_head _ _ _ _ H).
Qed.

Lemma replace_go_char_app (x : ascii) (new a b : pystr) :
  replace_go [x] new 0 (a ++ b)
  = replace_go [x] new 0 a ++ replace_go [x] new 0 b.
Proof.
  induction a as [|c a IH]; [reflexivity|].
  cbn [app replace_go startswith].
  change (length [x] - 1)%nat with 0%nat.
  destruct (Ascii.eqb x c); cbn [andb]; rewrite IH.
  - rewrite app_assoc; reflexivity.
  - reflexivity.
Qed.

(** X12: A table comment that ends in an apostrophe never compares equal: the
    metadata side ends in the escaped apostrophe, the DDL side has every
    quote stripped from its end.  Such a table is never reported as
    unchanged: the comparator answers True when the DDL has no COMMENT
    segment or the segment holds a space, and it raises [ValueError] when
    the segment holds no space. *)
Theorem comment_ending_in_quote_always_changed (md : table_metadata)
    (ddl_segments : list pystr) (c : pystr) :
  dict_get (Parameters md) (py "comment") = Some (c ++ py "'") ->
  let ddl_comment_segment :=
    next_where (fun segment => startswith segment (py "comment"))
      ddl_segments in
  let answer := has_table_comment_changed md ddl_segments in
  answer <> Ok false
  /\ ((forall segment, ddl_comment_segment = Some segment ->
                       In " "%char segment) ->
      answer = Ok true)
  /\ (forall segment, ddl_comment_segment = Some segment ->
                      ~ In " "%char segment ->
                      answer = Raise ValueError).
Proof.
  intros Hc ddl_comment_segment answer; subst ddl_comment_segment answer.
  unfold has_table_comment_changed; rewrite Hc.
  destruct (next_where _ ddl_segments) as [seg|];
    [|split; [discriminate | split; [reflexivity|]];
      intros segment H; discriminate H].
  destruct (in_dec Ascii.ascii_dec " "%char seg) as [Hin|Hout].
  - destruct (first_split " " seg Hin) as (k & v & -> & Hk).
    change (py " ") with [" "%char].
    rewrite (split1_char " " k v Hk); cbn [unpack2 bind snd].
    assert (E : str_eqb (lower (replace (c ++ py "'") (py "'") (py "\'")))
                  (strip_chars v (py "'")) = false).
    { destruct (str_eqb _ _) eqn:E; [|reflexivity].
      apply str_eqb_eq in E; exfalso.
      unfold replace in E; change (py "'") with ["'"%char] in E.
      cbv iota in E; rewrite replace_go_char_app in E.
      change (replace_go ["'"%char] (py "\'") 0 ["'"%char])
        with ["\"%char; "'"%char] in E.
      unfold lower in E; rewrite map_app in E.
      change (map lower_char ["\"%char; "'"%char])
        with (["\"%char] ++ ["'"%char]) in E.
      rewrite app_assoc in E; symmetry in E.
      apply strip_by_last in E; discriminate E. }
    rewrite E.
    split; [discriminate | split; [reflexivity|]].
    intros segment H Hno; injection H as <-; contradiction.
  - change (py " ") with [" "%char].
    rewrite (split1_absent " " seg Hout); cbn [unpack2 bind].
    split; [discriminate | split; [|reflexivity]].
    intros H; exfalso; exact (Hout (H seg eq_refl)).
Qed.

Lemma comment_ending_in_quote_always_changed_witness :
  has_table_comment_changed commented_metadata [ py "comment 'the cats\''" ]
  = Ok true.
Proof.
  refine (proj1 (proj2
            (comment_ending_in_quote_always_changed commented_metadata
               [ py "comment 'the cats\''" ] (py "the cats") _)) _).
  - reflexivity.
  - intros segment H; vm_compute in H; injection H as <-.
    vm_compute; tauto.
Defined.

(** ** Partitioning and clustering *)

Lemma join_enumerated_acc {A : Type} (text : A -> pystr) (i : nat)
    (l : list A) (acc : pystr) :
  join_enumerated text (S i) l acc
  = acc ++ List.concat (map (fun e => py ", " ++ text e) l).
Proof.
  revert i acc; induction l as [|e l IH]; intros i acc;
    cbn [join_enumerated map List.concat].
  - rewrite app_nil_r; reflexivity.
  - change (S i =? 0)%nat with false; cbv iota.
    rewrite IH, <- !app_assoc; reflexivity.
Qed.

Lemma join_cons (sep x : pystr) (l : list pystr) :
  join sep (x :: l) = x ++ List.concat (map (fun e => sep ++ e) l).
Proof.
  revert x; induction l as [|y l IH]; intros x.
  - cbn [join map List.concat]; rewrite app_nil_r; reflexivity.
  - change (join sep (x :: y :: l)) with (x ++ sep ++ join sep (y :: l)).
    rewrite IH; cbn [map List.concat]; rewrite <- !app_assoc; reflexivity.
Qed.

(** The loop over [enumerate(...)] builds the [', '.join] of the texts. *)
Lemma join_enumerated_join {A : Type} (text : A -> pystr) (l : list A) :
  join_enumerated text 0 l [] = join (py ", ") (map text l).
Proof.
  destruct l as [|e l]; [reflexivity|].
  cbn [join_enumerated map]; change (0 =? 0)%nat with true; cbv iota.
  rewrite join_enumerated_acc, join_cons, map_map; reflexivity.
Qed.

(** [s[:-1]] *)
Lemma slice_drop_last {A : Type} (s : list A) :
  slice s None (Some (-1)) = removelast s.
Proof.
  unfold slice, slice_bound, len.
  change (-1 <? 0) with true; cbv iota.
  change (Z.to_nat 0) with 0%nat; cbn [skipn].
  rewrite removelast_firstn_len; f_equal; lia.
Qed.

(** X13: With partition keys in the metadata, the partitioning comparator
    compares their [', ']-joined texts with what follows the first opening
    parenthesis of the PARTITIONED BY segment, its last character dropped
    and the rest trimmed. *)
Theorem partitioning_unchanged_iff (md : table_metadata)
    (ddl_segments : list pystr) (keyword body : pystr) :
  PartitionKeys md <> [] ->
  next_where (fun segment => startswith segment (py "partitioned by"))
    ddl_segments = Some (keyword ++ py "(" ++ body) ->
  ~ In "("%char keyword ->
  (has_partitioning_changed md ddl_segments = Ok false
   <-> join (py ", ") (map partition_text (PartitionKeys md))
       = strip (removelast body))
  /\ (has_partitioning_changed md ddl_segments = Ok true
      <-> join (py ", ") (map partition_text (PartitionKeys md))
          <> strip (removelast body)).
Proof.
  intros Hkeys Hseg Hkw.
  unfold has_partitioning_changed; rewrite Hseg.
  destruct (PartitionKeys md) as [|e keys] eqn:Ek; [contradiction|].
  change (length (e :: keys) =? 0)%nat with false; cbv iota.
  change (keyword ++ py "(" ++ body) with (keyword ++ "("%char :: body).
  change (py "(") with ["("%char].
  rewrite (split1_char "(" keyword body Hkw); cbn [unpack2 bind snd].
  rewrite slice_drop_last, join_enumerated_join.
  apply verdict_iff, str_eqb_eq.
Qed.

Lemma partitioning_unchanged_iff_witness :
  has_partitioning_changed example_metadata
    [ py "partitioned by (dt string)"; py "stored as parquet" ] = Ok false.
Proof.
  refine (proj2 (proj1
            (partitioning_unchanged_iff example_metadata
               [ py "partitioned by (dt string)"; py "stored as parquet" ]
               (py "partitioned by ") (py "dt string)") _ _ _)) _).
  - discriminate.
  - reflexivity.
  - vm_compute; intros H; repeat destruct H as [H|H]; try discriminate H;
      exact H.
  - vm_compute; reflexivity.
Defined.

(** X14: With bucket columns in the metadata, the clustering comparator compares
    [<columns, lower-cased and joined by ', '> into <n> buckets] with what
    follows the first opening parenthesis of the CLUSTERED BY segment, every
    closing parenthesis removed and the rest trimmed. *)
Theorem clustering_unchanged_iff (md : table_metadata)
    (ddl_segments : list pystr) (keyword body : pystr) :
  BucketColumns (StorageDescriptor md) <> [] ->
  next_where (fun segment => startswith segment (py "clustered by"))
    ddl_segments = Some (keyword ++ py "(" ++ body) ->
  ~ In "("%char keyword ->
  let metadata_cluster :=
    join (py ", ") (map lower (BucketColumns (StorageDescriptor md)))
    ++ py " into " ++ str_of_int (NumberOfBuckets (StorageDescriptor md))
    ++ py " buckets" in
  (has_clustering_changed md ddl_segments = Ok false
   <-> metadata_cluster = strip (replace body (py ")") []))
  /\ (has_clustering_changed md ddl_segments = Ok true
      <-> metadata_cluster <> strip (replace body (py ")") [])).
Proof.
  intros Hcols Hseg Hkw metadata_cluster; subst metadata_cluster.
  unfold has_clustering_changed; rewrite Hseg.
  destruct (BucketColumns (StorageDescriptor md)) as [|e cols] eqn:Ek;
    [contradiction|].
  change (length (e :: cols) =? 0)%nat with false; cbv iota.
  change (keyword ++ py "(" ++ body) with (keyword ++ "("%char :: body).
  change (py "(") with ["("%char].
  rewrite (split1_char "(" keyword body Hkw); cbn [unpack2 bind snd].
  rewrite join_enumerated_join.
  apply verdict_iff, str_eqb_eq.
Qed.

Lemma clustering_unchanged_iff_witness :
  has_clustering_changed clustered_metadata
    [ py "clustered by (id, region) into 8 buckets" ] = Ok false.
Proof.
  refine (proj2 (proj1
            (clustering_unchanged_iff clustered_metadata
               [ py "clustered by (id, region) into 8 buckets" ]
               (py "clustered by ") (py "id, region) into 8 buckets")
               _ _ _)) _).
  - discriminate.
  - reflexivity.
  - vm_compute; intros H; repeat destruct H as [H|H]; try discriminate H;
      exact H.
  - vm_compute; reflexivity.
Defined.

(** ** File format *)

(** X15: A DDL without a STORED AS clause is compared as one that says
    [stored as textfile]. *)
Theorem file_format_default_is_textfile (md : table_metadata)
    (ddl_segments : list pystr) :
  (forall segment, In segment ddl_segments ->
                   startswith segment (py "stored as") = false) ->
  has_file_format_changed md ddl_segments
  = has_file_format_changed md [ py "stored as textfile" ].
Proof.
  intros Hnone.
  unfold has_file_format_changed.
  rewrite (next_where_none _ ddl_segments Hnone).
  change (next_where (fun segment => startswith segment (py "stored as"))
            [ py "stored as textfile" ])
    with (Some (py "stored as textfile")).
  cbv beta iota zeta.
  change (replace (py "stored as textfile") (py "stored as ") [])
    with (py "textfile").
  change (str_eqb (py "textfile") (py "textfile")) with true.
  reflexivity.
Qed.

Lemma file_format_default_is_textfile_witness :
  has_file_format_changed delimited_metadata [ py "location 's3://b/t'" ]
  = has_file_format_changed delimited_metadata [ py "stored as textfile" ].
Proof.
  apply file_format_default_is_textfile.
  intros segment [<-|[]]; reflexivity.
Defined.



(** ** Comment stripper *)

Lemma contains_false_startswith (s sub : pystr) :
  contains s sub = false -> startswith s sub = false.
Proof.
  destruct s as [|c s].
  - unfold contains, find; cbn [find_from].
    destruct (startswith [] sub); [discriminate | reflexivity].
  - rewrite contains_cons; intros H; apply orb_false_iff in H; tauto.
Qed.

Lemma contains_false_tail (c : ascii) (s sub : pystr) :
  contains (c :: s) sub = false -> contains s sub = false.
Proof.
  rewrite contains_cons; intros H; apply orb_false_iff in H; tauto.
Qed.

Lemma contains_false_lstrip (p : ascii -> bool) (s sub : pystr) :
  contains s sub = false -> contains (lstrip_by p s) sub = false.
Proof.
  induction s as [|c s IH]; intros H; cbn [lstrip_by]; [exact H|].
  destruct (p c); [apply IH, (contains_false_tail c), H | exact H].
Qed.

Lemma comment_match_length_none (s : pystr) :
  startswith (lstrip_by is_space s) (py "--") = false ->
  comment_match_length s = None.
Proof. unfold comment_match_length; intros ->; reflexivity. Qed.

Lemma strip_comments_go_skip (n : nat) (s : pystr) :
  strip_comments_go n s = strip_comments_go 0 (skipn n s).
Proof.
  revert n; induction s as [|c s IH]; intros [|n]; try reflexivity.
  cbn [strip_comments_go skipn]; apply IH.
Qed.

(** X17: Text without two dashes in a row has no comment: it is returned as it
    is. *)
Theorem strip_comments_without_dashes (adhoc_text : pystr) :
  contains adhoc_text (py "--") = false ->
  strip_comments adhoc_text = adhoc_text.
Proof.
  unfold strip_comments.
  induction adhoc_text as [|c s IH]; intros H; [reflexivity|].
  cbn [strip_comments_go].
  rewrite comment_match_length_none
    by (apply contains_false_startswith, contains_false_lstrip, H).
  f_equal; apply IH, (contains_false_tail c), H.
Qed.

Lemma strip_comments_without_dashes_witness :
  strip_comments (py "create table t-1 (id int)")
  = py "create table t-1 (id int)".
Proof. apply strip_comments_without_dashes; reflexivity. Defined.

Lemma ends_clean_tail (c : ascii) (a : pystr) :
  ends_clean (c :: a) -> ends_clean a.
Proof. intros H a' x ->; apply (H (c :: a') x); reflexivity. Qed.

Lemma lstrip_spaces_app (ws rest : pystr) :
  Forall (fun c => is_space c = true) ws ->
  lstrip_by is_space (ws ++ py "--" ++ rest) = py "--" ++ rest.
Proof.
  induction 1 as [|c ws Hc _ IH]; [reflexivity|].
  cbn [app lstrip_by]; rewrite Hc; exact IH.
Qed.

Lemma line_rest_length_line (c b : pystr) :
  ~ In LF c -> line_rest_length (c ++ LF :: b) = S (length c).
Proof.
  induction c as [|x c IH]; intros H; cbn [app line_rest_length length].
  - reflexivity.
  - replace (Ascii.eqb x LF) with false
      by (symmetry; apply Ascii.eqb_neq; intros ->; apply H; left;
          reflexivity).
    rewrite IH by (intros H1; apply H; right; exact H1); reflexivity.
Qed.

Lemma line_rest_length_end (c : pystr) :
  ~ In LF c -> line_rest_length c = length c.
Proof.
  induction c as [|x c IH]; intros H; cbn [line_rest_length length].
  - reflexivity.
  - replace (Ascii.eqb x LF) with false
      by (symmetry; apply Ascii.eqb_neq; intros ->; apply H; left;
          reflexivity).
    rewrite IH by (intros H1; apply H; right; exact H1); reflexivity.
Qed.

(** One match of the pattern at the head of the text: the white space, the
    dashes and the rest of the line go. *)
Lemma strip_comments_go_match (ws line tail : pystr) (n : nat) :
  Forall (fun c => is_space c = true) ws ->
  line_rest_length (line ++ tail) = n ->
  (n <= length (line ++ tail))%nat ->
  strip_comments_go 0 (ws ++ py "--" ++ line ++ tail)
  = strip_comments_go 0 (skipn n (line ++ tail)).
Proof.
  intros Hws Hn Hle.
  assert (Hm : comment_match_length (ws ++ py "--" ++ line ++ tail)
               = Some (length ws + 2 + n)%nat).
  { unfold comment_match_length.
    rewrite (lstrip_spaces_app ws (line ++ tail) Hws).
    change (startswith (py "--" ++ line ++ tail) (py "--")) with true.
    cbv iota; change (skipn 2 (py "--" ++ line ++ tail)) with (line ++ tail).
    rewrite Hn, !length_app; change (length (py "--")) with 2%nat.
    do 2 f_equal; lia. }
  destruct (ws ++ py "--" ++ line ++ tail) as [|x s] eqn:Es.
  - apply (f_equal (@length ascii)) in Es.
    rewrite !length_app in Es; cbn in Es; lia.
  - cbn [strip_comments_go]; rewrite Hm, strip_comments_go_skip.
    destruct (length ws + 2 + n)%nat as [|m] eqn:Em; [lia|].
    replace (S m - 1)%nat with m by lia.
    change (skipn m s) with (skipn (S m) (x :: s)).
    rewrite <- Es, <- Em.
    replace (length ws + 2 + n)%nat with (length ws + (2 + n))%nat by lia.
    rewrite skipn_app, skipn_all2 by lia.
    replace (length ws + (2 + n) - length ws)%nat with (2 + n)%nat by lia.
    reflexivity.
Qed.

Lemma no_match_in_front (a rest : pystr) :
  a <> [] -> contains a (py "--") = false -> ends_clean a ->
  startswith (lstrip_by is_space (a ++ rest)) (py "--") = false.
Proof.
  induction a as [|x a IH]; intros Hne Hc He; [contradiction|].
  destruct a as [|y a].
  - destruct (He [] x eq_refl) as [Hsp Hd].
    cbn [app lstrip_by]; rewrite Hsp.
    cbn [py list_ascii_of_string startswith].
    replace (Ascii.eqb "-" x) with false
      by (symmetry; apply Ascii.eqb_neq; intros H; apply Hd; symmetry;
          exact H).
    reflexivity.
  - change ((x :: y :: a) ++ rest) with (x :: (y :: a) ++ rest).
    cbn [lstrip_by]; destruct (is_space x).
    + apply IH; [discriminate | exact (contains_false_tail x _ _ Hc)
                 | exact (ends_clean_tail x _ He)].
    + apply contains_false_startswith in Hc.
      cbn [py list_ascii_of_string startswith app] in Hc |- *.
      rewrite andb_true_r in Hc |- *; exact Hc.
Qed.

Lemma strip_comments_go_front (a rest : pystr) :
  contains a (py "--") = false -> ends_clean a ->
  strip_comments_go 0 (a ++ rest) = a ++ strip_comments_go 0 rest.
Proof.
  induction a as [|x a IH]; intros Hc He; [reflexivity|].
  cbn [app strip_comments_go].
  rewrite comment_match_length_none
    by (apply (no_match_in_front (x :: a) rest);
        [discriminate | exact Hc | exact He]).
  f_equal; apply IH;
    [exact (contains_false_tail x _ _ Hc) | exact (ends_clean_tail x _ He)].
Qed.

(** X18: A comment goes with the white space in front of it (line feeds
    included) and with its own line feed: the text before it and the text of
    the next line are joined without anything between them.  A comment that
    ends the text goes with the white space in front of it. *)
Theorem strip_comments_removes_comment (a ws c b : pystr) :
  contains a (py "--") = false -> ends_clean a ->
  Forall (fun x => is_space x = true) ws ->
  ~ In LF c ->
  strip_comments (a ++ ws ++ py "--" ++ c ++ LF :: b) = a ++ strip_comments b
  /\ strip_comments (a ++ ws ++ py "--" ++ c) = a.
Proof.
  intros Ha He Hws Hc; unfold strip_comments; split.
  - rewrite (strip_comments_go_front a _ Ha He); f_equal.
    rewrite (strip_comments_go_match ws c (LF :: b) (S (length c)) Hws
               (line_rest_length_line c b Hc))
      by (rewrite length_app; cbn [length]; lia).
    replace (S (length c)) with (length c + 1)%nat by lia.
    rewrite skipn_app, skipn_all2 by lia.
    replace (length c + 1 - length c)%nat with 1%nat by lia; reflexivity.
  - rewrite (strip_comments_go_front a _ Ha He).
    rewrite <- (app_nil_r a) at 2; f_equal.
    rewrite <- (app_nil_r c).
    rewrite (strip_comments_go_match ws c [] (length c) Hws);
      [| rewrite app_nil_r; apply line_rest_length_end, Hc
       | rewrite app_nil_r; lia ].
    rewrite app_nil_r, skipn_all; reflexivity.
Qed.

Lemma strip_comments_removes_comment_witness :
  strip_comments
    (py "select a" ++ [LF] ++ py "-- the key" ++ LF :: py "from t")
  = py "select afrom t".
Proof.
  refine (proj1 (strip_comments_removes_comment (py "select a") [LF]
                   (py " the key") (py "from t") _ _ _ _)).
  - reflexivity.
  - intros a' x H.
    assert (Hx : last (py "select a") x = last (a' ++ [x]) x)
      by (rewrite H; reflexivity).
    rewrite last_last in Hx; vm_compute in Hx; subst x.
    split; [reflexivity | discriminate].
  - repeat constructor.
  - vm_compute; intros H; repeat destruct H as [H|H]; try discriminate H;
      exact H.
Defined.

(** ** Table properties, DDL without a TBLPROPERTIES clause *)

Lemma dict_set_not_nil {V : Type} (d : pydict V) (k : pystr) (v : V) :
  dict_set d k v <> [].
Proof.
  destruct d as [|[k' v'] d]; cbn [dict_set]; [discriminate|].
  destruct (str_eqb k' k); discriminate.
Qed.

Lemma fold_dict_set_not_nil {V : Type} (pairs : list (pystr * V))
    (d : pydict V) :
  d <> [] ->
  fold_left (fun d kv => dict_set d (fst kv) (snd kv)) pairs d <> [].
Proof.
  revert d; induction pairs as [|kv pairs IH]; intros d Hd; [exact Hd|].
  cbn [fold_left]; apply IH, dict_set_not_nil.
Qed.

Lemma dict_of_nil {V : Type} (pairs : list (pystr * V)) :
  dict_of pairs = [] <-> pairs = [].
Proof.
  split; [|intros ->; reflexivity].
  destruct pairs as [|kv pairs]; [reflexivity|].
  unfold dict_of; cbn [fold_left]; intros H; exfalso.
  exact (fold_dict_set_not_nil pairs _ (dict_set_not_nil [] _ _) H).
Qed.

Lemma filter_nil_iff {A : Type} (p : A -> bool) (l : list A) :
  filter p l = [] <-> forall x, In x l -> p x = false.
Proof.
  induction l as [|a l IH]; cbn [filter].
  - split; [intros _ x [] | reflexivity].
  - destruct (p a) eqn:E.
    + split; [discriminate|].
      intros H; rewrite (H a (or_introl eq_refl)) in E; discriminate.
    + rewrite IH; split.
      * intros H x [<-|Hx]; [exact E | exact (H x Hx)].
      * intros H x Hx; apply H; right; exact Hx.
Qed.

(** X19: For a catalog entry that carries ['Parameters'] and a DDL without a
    TBLPROPERTIES segment: the table-properties comparator answers False
    exactly when no key of ['Parameters'] is on the allow-list, and True
    exactly when one is, whatever [json.loads] and [DeepDiff] are. *)
Theorem tblproperties_without_clause
    (json_loads : pystr -> result pyobj) (DeepDiff_len : pyobj -> pyobj -> Z)
    (md : table_metadata) (ddl_segments : list pystr) :
  (forall segment, In segment ddl_segments ->
                   startswith segment (py "tblproperties") = false) ->
  (have_tblproperties_changed json_loads DeepDiff_len md ddl_segments
   = Ok false
   <-> forall key value, In (key, value) (Parameters md) ->
                         metadata_property_kept key = false)
  /\ (have_tblproperties_changed json_loads DeepDiff_len md ddl_segments
      = Ok true
      <-> exists key value, In (key, value) (Parameters md)
                            /\ metadata_property_kept key = true).
Proof.
  intros Hnone.
  unfold have_tblproperties_changed.
  rewrite (next_where_none _ ddl_segments Hnone).
  assert (Hempty :
            (length (lower_items
                       (filter (fun kv => metadata_property_kept (fst kv))
                          (Parameters md))) =? 0)%nat = true
            <-> forall key value, In (key, value) (Parameters md) ->
                                  metadata_property_kept key = false).
  { split.
    - intros H key value Hin.
      apply Nat.eqb_eq, length_zero_iff_nil in H.
      apply (proj1 (dict_of_nil _)), map_eq_nil in H.
      exact (proj1 (filter_nil_iff _ _) H (key, value) Hin).
    - intros H.
      replace (filter (fun kv => metadata_property_kept (fst kv))
                 (Parameters md)) with (@nil (pystr * pystr));
        [reflexivity|].
      symmetry; apply filter_nil_iff; intros [key value] Hin.
      exact (H key value Hin). }
  destruct (verdict_iff _ _ Hempty) as [Hf Ht].
  split; [exact Hf|].
  rewrite Ht; split.
  - intros Hn.
    destruct (existsb (fun kv => metadata_property_kept (fst kv))
                (Parameters md)) eqn:E.
    + apply existsb_exists in E as ([key value] & Hin & Hk).
      exists key, value; split; assumption.
    + exfalso; apply Hn; intros key value Hin.
      destruct (metadata_property_kept key) eqn:Ek; [|reflexivity].
      assert (Hex : existsb (fun kv => metadata_property_kept (fst kv))
                      (Parameters md) = true)
        by (apply existsb_exists; exists (key, value); split; assumption).
      rewrite Hex in E; discriminate.
  - intros (key & value & Hin & Hk) Hall.
    rewrite (Hall key value Hin) in Hk; discriminate.
Qed.

Lemma tblproperties_without_clause_witness :
  have_tblproperties_changed no_json_loads no_DeepDiff_len example_metadata
    [ py "stored as parquet"; py "location 's3://b/t'" ] = Ok false.
Proof.
  refine (proj2 (proj1
            (tblproperties_without_clause no_json_loads no_DeepDiff_len
               example_metadata
               [ py "stored as parquet"; py "location 's3://b/t'" ] _)) _).
  - intros segment H; repeat destruct H as [<-|H]; try reflexivity;
      destruct H.
  - intros key value [H|[]]; injection H as <- <-; reflexivity.
Defined.

(** ** Deployment: the queries of a run *)

Lemma queries_app (l1 l2 : list request) :
  queries (l1 ++ l2) = queries l1 ++ queries l2.
Proof. apply flat_map_app. Qed.

Lemma bodies_app (l1 l2 : list request) :
  bodies (l1 ++ l2) = bodies l1 ++ bodies l2.
Proof. apply flat_map_app. Qed.

Lemma firstn_prefix_app {A : Type} (n : nat) (p1 p2 : list A) :
  exists m, firstn n p1 = firstn m (p1 ++ p2).
Proof.
  exists (Nat.min n (length p1)).
  rewrite firstn_app.
  replace (Nat.min n (length p1) - length p1)%nat with 0%nat by lia.
  cbn [firstn]; rewrite app_nil_r.
  destruct (Nat.le_ge_cases n (length p1)) as [H|H].
  - rewrite Nat.min_l by exact H; reflexivity.
  - rewrite Nat.min_r by exact H.
    rewrite !firstn_all2 by lia; reflexivity.
Qed.

(** A computation whose requests are at hand. *)
Ltac follows_now n :=
  split; [reflexivity | split; [exists n; reflexivity | intros; reflexivity]].

Lemma follows_ret {A : Type} (a : A) (past : list request) :
  follows [] (io_ret a past).
Proof.
  follows_now 0%nat.
Qed.

Lemma follows_ask {A : Type} (answer : list request -> result A)
    (past : list request) :
  follows [] (ask answer past).
Proof.
  follows_now 0%nat.
Qed.

Lemma follows_io_of {A : Type} (r : result A) (past : list request) :
  follows [] (io_of r past).
Proof.
  follows_now 0%nat.
Qed.

Lemma follows_bind {A B : Type} (p1 p2 : list pystr) (m : io A)
    (k : A -> io B) (past : list request) :
  follows p1 (m past) ->
  (forall a made, m past = (made, Returns a) ->
                  follows p2 (k a (past ++ made))) ->
  follows (p1 ++ p2) (io_bind m k past).
Proof.
  intros (Hb & [n Hn] & Hfull) Hk; unfold io_bind.
  destruct (m past) as [made [a|e|]] eqn:Em; cbn [fst snd] in *.
  - specialize (Hk a made eq_refl).
    destruct (k a (past ++ made)) as [more o].
    destruct Hk as (Hb2 & [n2 Hn2] & Hfull2); cbn [fst snd] in *.
    split; [|split]; cbn [fst snd].
    + rewrite bodies_app, Hb, Hb2; reflexivity.
    + exists (length p1 + n2)%nat.
      rewrite queries_app, (Hfull a eq_refl), Hn2, firstn_app_2.
      reflexivity.
    + intros b Hr; rewrite queries_app, (Hfull a eq_refl), (Hfull2 b Hr).
      reflexivity.
  - split; [exact Hb | split; [|discriminate]].
    cbn [fst]; rewrite Hn; apply firstn_prefix_app.
  - split; [exact Hb | split; [|discriminate]].
    cbn [fst]; rewrite Hn; apply firstn_prefix_app.
Qed.

Lemma find_filter_head {A : Type} (p : A -> bool) (l : list A) :
  List.find p l = hd_error (filter p l).
Proof.
  induction l as [|a l IH]; [reflexivity|].
  cbn [List.find filter]; destruct (p a); [reflexivity | exact IH].
Qed.

Section DeploymentFacts.

Variable json_loads : pystr -> result pyobj.
Variable DeepDiff_len : pyobj -> pyobj -> Z.
Variable get_bucket_name_by_label :
  list request -> pystr -> pystr -> pystr -> result pystr.
Variable s3_get : list request -> pystr -> pystr -> result pystr.
Variable s3_put : list request -> pystr -> pystr -> pystr -> result unit.
Variable athena : list request -> pystr -> pystr -> pystr -> execution.

Lemma follows_execute_query (product_name query_string output_location :
                               pystr) (past : list request) :
  follows [query_string]
    (execute_query athena product_name query_string output_location past).
Proof.
  follows_now 1%nat.
Qed.

Lemma follows_create_table (tc : table_config)
    (ddl_text db_name product_name environment_name : pystr)
    (past : list request) :
  follows (create_queries db_name tc ddl_text)
    (create_table get_bucket_name_by_label athena tc ddl_text db_name
       product_name environment_name past).
Proof.
  unfold create_table, create_queries, contains.
  change (ddl_text :: ?l) with ([] ++ [ddl_text] ++ l).
  apply follows_bind; [apply follows_ask|]; intros bucket made _.
  apply follows_bind; [apply follows_execute_query|]; intros _ made1 _.
  destruct (0 <=? find (lower ddl_text) (py "partitioned by")).
  - rewrite <- (app_nil_r [_]).
    apply follows_bind; [apply follows_execute_query|]; intros _ made2 _.
    apply follows_ret.
  - apply follows_ret.
Qed.

Lemma follows_drop_table
    (db_name table_name table_type temp_folder product_name
       environment_name : pystr) (past : list request) :
  str_eqb table_type (py "VIRTUAL_VIEW") = false ->
  follows [ py "DROP TABLE IF EXISTS " ++ db_name ++ py "." ++ table_name ]
    (drop_table get_bucket_name_by_label athena db_name table_name
       table_type temp_folder product_name environment_name past).
Proof.
  intros Hty; unfold drop_table; rewrite Hty.
  change [?q] with ([] ++ [q] ++ []).
  apply follows_bind; [apply follows_ask|]; intros bucket made _.
  apply follows_bind; [apply follows_execute_query|]; intros _ made1 _.
  apply follows_ret.
Qed.

Lemma follows_detect_table_changes (t : catalog_table) (tc : table_config)
    (ddl_text db_name product_name environment_name : pystr)
    (past : list request) :
  str_eqb (TableType t) (py "VIRTUAL_VIEW") = false ->
  follows
    match snd (detect_table_changes_verdict json_loads DeepDiff_len
                 ddl_text (Metadata t)) with
    | Ok true =>
        (py "DROP TABLE IF EXISTS " ++ db_name ++ py "." ++ table_name tc)
        :: create_queries db_name tc ddl_text
    | _ => []
    end
    (detect_table_changes json_loads DeepDiff_len get_bucket_name_by_label
       athena t tc ddl_text db_name product_name environment_name past).
Proof.
  intros Hty; unfold detect_table_changes.
  destruct (snd (detect_table_changes_verdict json_loads DeepDiff_len
                   ddl_text (Metadata t))) as [[|]|e].
  - change (?q :: ?l) with ([] ++ [q] ++ l).
    apply follows_bind; [apply follows_io_of|]; intros changed made H.
    injection H as <- <-.
    apply follows_bind; [apply follows_drop_table, Hty|]; intros _ made1 _.
    apply follows_create_table.
  - change (@nil pystr) with (@nil pystr ++ []).
    apply follows_bind; [apply follows_io_of|]; intros changed made H.
    injection H as <- <-; apply follows_ret.
  - follows_now 0%nat.
Qed.

(** What [process_athena_tables] does with one table once its DDL text is
    prepared. *)
Lemma follows_planned_queries (catalog : list catalog_table)
    (tc : table_config)
    (ddl_text db_name product_name environment_name : pystr)
    (past : list request) :
  follows (planned_queries json_loads DeepDiff_len catalog db_name tc
             ddl_text)
    (match filter (fun element =>
                     str_eqb (TableName element) (table_name tc)) catalog
     with
     | [] =>
         create_table get_bucket_name_by_label athena tc ddl_text db_name
           product_name environment_name
     | first :: _ =>
         if str_eqb (TableType first) (py "VIRTUAL_VIEW") then
           create_table get_bucket_name_by_label athena tc ddl_text db_name
             product_name environment_name
         else
           detect_table_changes json_loads DeepDiff_len
             get_bucket_name_by_label athena first tc ddl_text db_name
             product_name environment_name
     end past).
Proof.
  unfold planned_queries; rewrite find_filter_head.
  destruct (filter _ catalog) as [|t rest]; cbn [hd_error].
  - apply follows_create_table.
  - destruct (str_eqb (TableType t) (py "VIRTUAL_VIEW")) eqn:Hty.
    + apply follows_create_table.
    + apply follows_detect_table_changes, Hty.
Qed.

(** [prep_ddl_script] writes at most one object, and what it returns is the
    body it wrote. *)
Lemma prep_ddl_script_requests (tc : table_config)
    (output_bucket_name app_bucket_name db_name product_name
       environment_name : pystr) (past : list request) :
  let r := prep_ddl_script get_bucket_name_by_label s3_get s3_put tc
             output_bucket_name app_bucket_name db_name product_name
             environment_name past in
  (fst r = [] /\ forall a, snd r <> Returns a)
  \/ exists body,
       fst r = [ put_object output_bucket_name
                   (sql_folder2 tc ++ py "/" ++ script_name tc) body ]
       /\ forall a, snd r = Returns a -> a = body.
Proof.
  unfold prep_ddl_script, io_bind, ask, io_ret; cbn beta.
  destruct (get_bucket_name_by_label past product_name environment_name
              (py "output")) as [b0|e]; cbn [ending_of];
    [|left; split; [reflexivity | discriminate]].
  rewrite app_nil_r.
  destruct (get_bucket_name_by_label past product_name environment_name
              (label tc)) as [bucket|e]; cbn [ending_of];
    [|left; split; [reflexivity | discriminate]].
  rewrite app_nil_r.
  destruct (s3_get past app_bucket_name _) as [body|e]; cbn [ending_of];
    [|left; split; [reflexivity | discriminate]].
  rewrite app_nil_r.
  right; eexists; split.
  - destruct (s3_put past output_bucket_name _ _) as [[]|e];
      cbn [ending_of fst app]; reflexivity.
  - destruct (s3_put past output_bucket_name _ _) as [[]|e];
      cbn [ending_of snd]; intros a H; [|discriminate].
    injection H as <-; reflexivity.
Qed.

Lemma planned_run_no_text (catalog : list catalog_table) (db_name : pystr)
    (tables : list table_config) :
  planned_run json_loads DeepDiff_len catalog db_name tables [] = [].
Proof. destruct tables; reflexivity. Qed.

(** One turn of the loop: nothing written and no query sent, or one DDL
    text written and the queries planned for it sent as far as the turn
    got. *)
Lemma process_athena_table_requests (catalog : list catalog_table)
    (output_bucket_name app_bucket_name db_name product_name
       environment_name : pystr) (tc : table_config)
    (past : list request) :
  let r := process_athena_table json_loads DeepDiff_len
             get_bucket_name_by_label s3_get s3_put athena catalog
             output_bucket_name app_bucket_name db_name product_name
             environment_name tc past in
  (bodies (fst r) = [] /\ queries (fst r) = []
   /\ forall a, snd r <> Returns a)
  \/ exists body,
       bodies (fst r) = [body]
       /\ (exists n,
             queries (fst r)
             = firstn n (planned_queries json_loads DeepDiff_len catalog
                           db_name tc body))
       /\ (forall a, snd r = Returns a ->
                      queries (fst r)
                      = planned_queries json_loads DeepDiff_len catalog
                          db_name tc body).
Proof.
  cbv zeta; unfold process_athena_table, io_bind.
  pose proof (prep_ddl_script_requests tc output_bucket_name
                app_bucket_name db_name product_name environment_name
                past) as Hprep.
  cbv zeta in Hprep.
  destruct (prep_ddl_script get_bucket_name_by_label s3_get s3_put tc
              output_bucket_name app_bucket_name db_name product_name
              environment_name past) as [made0 o0].
  cbn [fst snd] in Hprep.
  destruct Hprep as [[-> Hno]|(body & -> & Hbody)].
  - left; destruct o0 as [a|e|]; [exfalso; exact (Hno a eq_refl)| |];
      (split; [reflexivity | split; [reflexivity | discriminate]]).
  - right; exists body.
    destruct o0 as [a|e|];
      [rewrite (Hbody a eq_refl) | |];
      try (split; [reflexivity
                  | split; [exists 0%nat; reflexivity | discriminate]]).
    pose proof (follows_planned_queries catalog tc body db_name
                  product_name environment_name
                  (past ++ [put_object output_bucket_name
                              (sql_folder2 tc ++ py "/" ++ script_name tc)
                              body])) as Hstep.
    match type of Hstep with
    | follows _ ?x => destruct x as [made1 o1]
    end.
    destruct Hstep as (Hb1 & Hn1 & Hfull1); cbn [fst snd] in *.
    rewrite bodies_app, queries_app, Hb1.
    split; [reflexivity | split; [exact Hn1 | exact Hfull1]].
Qed.

(** X20: The queries of a run follow the plan.  Over the DDL texts the run wrote
    to S3, one per table it reached, the queries it sent are, in order, the
    planned ones as far as the run got; a run that returns has prepared
    every table of the configuration and sent the whole plan.  So a table is
    dropped only when it is in the catalog, is not a view and the detector
    answered True for its prepared text; the drop is a [DROP TABLE], and the
    text is executed right after it; a table found unchanged gets no query
    at all. *)
Theorem run_follows_plan (catalog : list catalog_table)
    (athena_tables : list table_config)
    (output_bucket_name app_bucket_name db_name product_name
       environment_name : pystr) (past : list request) :
  let r := process_athena_tables json_loads DeepDiff_len
             get_bucket_name_by_label s3_get s3_put athena catalog
             athena_tables output_bucket_name app_bucket_name db_name
             product_name environment_name past in
  let plan := planned_run json_loads DeepDiff_len catalog db_name
                athena_tables (bodies (fst r)) in
  (exists n, queries (fst r) = firstn n plan)
  /\ (snd r = Returns tt ->
      length (bodies (fst r)) = length athena_tables
      /\ queries (fst r) = plan).
Proof.
  unfold process_athena_tables.
  revert past; induction athena_tables as [|tc tables IH]; intros past.
  - split; [exists 0%nat; reflexivity | intros _; split; reflexivity].
  - cbn [for_each]; cbv zeta; unfold io_bind.
    pose proof (process_athena_table_requests catalog output_bucket_name
                  app_bucket_name db_name product_name environment_name tc
                  past) as Hstep.
    cbv zeta in Hstep.
    destruct (process_athena_table json_loads DeepDiff_len
                get_bucket_name_by_label s3_get s3_put athena catalog
                output_bucket_name app_bucket_name db_name product_name
                environment_name tc past) as [made1 o1].
    cbn [fst snd] in Hstep.
    destruct Hstep as [(Hb & Hq & Hno)|(body & Hb & [n1 Hn1] & Hfull)].
    + destruct o1 as [a|e|]; [exfalso; exact (Hno a eq_refl)| |];
        cbn [fst snd]; rewrite Hb, Hq;
        (split; [exists 0%nat; reflexivity | discriminate]).
    + destruct o1 as [[]|e|]; cbn [fst snd].
      * specialize (IH (past ++ made1)); cbv zeta in IH.
        destruct (for_each _ tables (past ++ made1)) as [made2 o2].
        cbn [fst snd] in *; destruct IH as ([n2 Hn2] & Hret).
        rewrite bodies_app, queries_app, Hb, (Hfull tt eq_refl).
        cbn [app planned_run]; split.
        -- exists (length (planned_queries json_loads DeepDiff_len catalog
                             db_name tc body) + n2)%nat.
           rewrite firstn_app_2, Hn2; reflexivity.
        -- intros Hr; destruct (Hret Hr) as [Hlen Hq].
           cbn [length]; rewrite Hlen, <- Hq; split; reflexivity.
      * rewrite Hb; cbn [planned_run].
        rewrite planned_run_no_text, app_nil_r.
        split; [exists n1; exact Hn1 | discriminate].
      * rewrite Hb; cbn [planned_run].
        rewrite planned_run_no_text, app_nil_r.
        split; [exists n1; exact Hn1 | discriminate].
Qed.

End DeploymentFacts.

Lemma run_follows_plan_witness :
  queries
    (fst (process_athena_tables no_json_loads no_DeepDiff_len steady_bucket
            (steady_get example_template) steady_put steady_athena
            example_catalog [ example_table_config ] (py "out-bucket")
            (py "app-bucket") (py "db") (py "RDMS") (py "dev") []))
  = [ py "DROP TABLE IF EXISTS db.t";
      py "CREATE EXTERNAL TABLE db.t (id int, name string, age int)STORED AS PARQUET LOCATION 's3://bucket-data/tables/t';" ].
Proof.
  refine (proj2 (proj2
            (run_follows_plan no_json_loads no_DeepDiff_len steady_bucket
               (steady_get example_template) steady_put steady_athena
               example_catalog [ example_table_config ] (py "out-bucket")
               (py "app-bucket") (py "db") (py "RDMS") (py "dev") []) _)).
  vm_compute; reflexivity.
Defined.

(** ** Row format: the serde library *)

Lemma split_go_all_absent (x : ascii) (s acc : pystr) :
  ~ In x s -> split_go [x] None 0 acc s = [rev acc ++ s].
Proof.
  revert acc; induction s as [|c s IH]; intros acc Hx; cbn [split_go].
  - rewrite app_nil_r; reflexivity.
  - cbn [startswith].
    replace (Ascii.eqb x c) with false
      by (symmetry; apply Ascii.eqb_neq; intros ->; apply Hx; left;
          reflexivity).
    cbn [andb]; rewrite IH by (intros H; apply Hx; right; exact H).
    cbn [rev]; rewrite <- app_assoc; reflexivity.
Qed.

Lemma split_go_all_char (x : ascii) (a b acc : pystr) :
  ~ In x a ->
  split_go [x] None 0 acc (a ++ x :: b)
  = (rev acc ++ a) :: split_go [x] None 0 [] b.
Proof.
  revert acc; induction a as [|c a IH]; intros acc Hx; cbn [app split_go].
  - cbn [startswith]; rewrite Ascii.eqb_refl; cbn [andb option_map].
    change (length [x] - 1)%nat with 0%nat.
    rewrite app_nil_r; reflexivity.
  - cbn [startswith].
    replace (Ascii.eqb x c) with false
      by (symmetry; apply Ascii.eqb_neq; intros ->; apply Hx; left;
          reflexivity).
    cbn [andb]; rewrite IH by (intros H; apply Hx; right; exact H).
    cbn [rev]; rewrite <- app_assoc; reflexivity.
Qed.

(** [(a + x + b).split(x)] when [x] is in neither part. *)
Lemma split_two (x : ascii) (a b : pystr) :
  ~ In x a -> ~ In x b -> split (a ++ x :: b) [x] = [a; b].
Proof.
  intros Ha Hb; unfold split.
  rewrite (split_go_all_char x a b [] Ha), (split_go_all_absent x b [] Hb).
  reflexivity.
Qed.

(** The words after the first of a text whose words single spaces
    separate. *)
Lemma split_second (x : ascii) (library : pystr) (words : list pystr) :
  ~ In x library ->
  exists rest,
    split (library ++ List.concat (map (fun w => x :: w) words)) [x]
    = library :: rest.
Proof.
  intros Hl; unfold split; destruct words as [|w words].
  - cbn [map List.concat]; rewrite app_nil_r.
    rewrite (split_go_all_absent x library [] Hl); eexists; reflexivity.
  - cbn [map List.concat app].
    rewrite (split_go_all_char x library _ [] Hl); eexists; reflexivity.
Qed.

(** X21: For ROW FORMAT SERDE without SERDEPROPERTIES, and a catalog entry
    that carries the serialization library, the library alone decides: the
    comparator answers False when the second word of the first sub-segment,
    its quotes taken off, is the lower-cased ['SerializationLibrary'] of the
    metadata, and True when it is not, whatever words follow the second; a
    first sub-segment of one word ends in an [IndexError].  The serde
    parameters of the metadata are not looked at. *)
Theorem serde_library_decides
    (json_loads : pystr -> result pyobj) (DeepDiff_len : pyobj -> pyobj -> Z)
    (md : table_metadata) (keyword library : pystr)
    (words more : list pystr) :
  ~ In " "%char keyword -> ~ In " "%char library ->
  let answer :=
    has_row_format_serde_changed json_loads DeepDiff_len md
      (Some (join (py " ") (keyword :: library :: words) :: more))
      (Some ROW_FORMAT_SERDE) in
  (answer = Ok false
   <-> strip_chars library (py "'")
       = lower (SerializationLibrary (SerdeInfo (StorageDescriptor md))))
  /\ (answer = Ok true
      <-> strip_chars library (py "'")
          <> lower (SerializationLibrary (SerdeInfo (StorageDescriptor md))))
  /\ has_row_format_serde_changed json_loads DeepDiff_len md
       (Some (keyword :: more)) (Some ROW_FORMAT_SERDE)
     = Raise IndexError.
Proof.
  intros Hk Hl answer; subst answer.
  unfold has_row_format_serde_changed.
  change (opt_eqb (Some ROW_FORMAT_SERDE) ROW_FORMAT_WITH_SERDEPROPERTIES)
    with false.
  change (opt_eqb (Some ROW_FORMAT_SERDE) ROW_FORMAT_SERDE) with true.
  cbv iota; cbn [item nth_error bind].
  rewrite <- and_assoc; split.
  - rewrite join_cons; cbn [map List.concat].
    change (py " ") with [" "%char]; cbn [app].
    unfold split at 1 2.
    rewrite (split_go_all_char " " keyword _ [] Hk); cbn [rev app].
    destruct (split_second " " library words Hl) as [rest Hrest].
    unfold split in Hrest; rewrite Hrest.
    cbn [item nth_error bind fst snd].
    apply verdict_iff, str_eqb_eq.
  - change (py " ") with [" "%char]; unfold split.
    rewrite (split_go_all_absent " " keyword [] Hk).
    reflexivity.
Qed.

Lemma serde_library_decides_witness :
  has_row_format_serde_changed no_json_loads no_DeepDiff_len example_metadata
    (Some [ py "serde 'org.apache.hadoop.hive.ql.io.parquet.serde.parquethiveserde' stored as parquet" ])
    (Some ROW_FORMAT_SERDE)
  = Ok false.
Proof.
  refine (proj2 (proj1
            (serde_library_decides no_json_loads no_DeepDiff_len
               example_metadata (py "serde")
               (py "'org.apache.hadoop.hive.ql.io.parquet.serde.parquethiveserde'")
               [ py "stored"; py "as"; py "parquet" ] [] _ _)) _).
  - vm_compute; intros H; repeat destruct H as [H|H]; try discriminate H;
      exact H.
  - vm_compute; intros H; repeat destruct H as [H|H]; try discriminate H;
      exact H.
  - vm_compute; reflexivity.
Defined.
